(** * nano-banana-mcp-go: the MCP server of [main.go]

    A shallow embedding of the line-delimited JSON-RPC server: the request
    dispatcher ([handleRequest], [handleCallTool]), the two tool operations
    ([generateImage], [editImage]), the file-save step ([saveImage]) and
    the read/dispatch/reply loop ([Run]).

    The program talks to the outside world through library calls.  Pure
    library functions (encoding/json, path/filepath, encoding/base64, ...)
    are the fields of the class [Lib]; calls with an effect (the Gemini
    client, the file system, the clock) are the fields of the class
    [System], which act on an abstract world [W].  Every such call made by
    the program is recorded, in order, as an [Event], so that
    statements such as "no file is read" or "the reply is written before
    the next line is read" are statements about that trace.  A Go panic
    is an outcome of its own ([Panic]) and aborts the whole run.

    [Run] is given standard input as its scanner presents it, line by
    line ([Stdin]); [bufio_Scanner] is that scanner, with the split
    function and the buffer limit it has in [Run], over the bytes of the
    input.

    The process entry point ([main], [NewServer]) and the operations of
    the earlier variant of the server kept in the repository ([Legacy]:
    [callGemini] and the operations built on it) are embedded as well. *)

From stdpp Require Import base option list strings gmap pretty.
From Stdlib Require Import Ascii String.
From Stdlib.Strings Require Import Byte.

Open Scope string_scope.
Local Set Warnings "-register-all".

(** ** Basic data *)

(** The empty Go string. *)
Definition empty : string := EmptyString.

(** The line feed of the Go literal [\n]. *)
Definition nl : string := String (ascii_of_nat 10) EmptyString.

(** [[]byte] *)
Definition bytes : Type := list byte.

(** A Go value of type [any] as encoding/json produces it: [nil], [bool],
    [float64] (kept as its literal, no claim inspects a number), [string],
    [[]any] and [map[string]any]. *)
Inductive any : Type :=
| JNull
| JBool (b : bool)
| JNumber (lit : string)
| JString (s : string)
| JArray (elems : list any)
| JObject (fields : list (string * any)).

(** [json.RawMessage]: the undecoded bytes of a JSON value; empty when the
    field is absent. *)
Definition RawMessage : Type := string.

(** The type assertion [v.(string)] applied to a map lookup
    [args[key]]: the string and [true], or the zero string and [false]. *)
Definition assert_string (v : option any) : string * bool :=
  match v with
  | Some (JString s) => (s, true)
  | _ => (empty, false)
  end.

(** Go's [error] values as the program builds them: [fmt.Errorf] without a
    [%w] verb, and [fmt.Errorf] wrapping another error. *)
Inductive error : Type :=
| errorString (msg : string)
| wrapError (msg : string) (err : error).

(** [err.Error()] *)
Definition error_Error (e : error) : string :=
  match e with
  | errorString msg => msg
  | wrapError msg _ => msg
  end.

(** [fmt.Errorf(msg)] *)
Definition fmt_Errorf (msg : string) : error := errorString msg.

(** [fmt.Errorf(prefix + "%w", err)] *)
Definition fmt_Errorf_w (prefix : string) (err : error) : error :=
  wrapError (prefix ++ error_Error err) err.

(** A Go result pair [(T, error)] of which exactly one side is meaningful. *)
Inductive result (T : Type) : Type :=
| Ok (v : T)
| Err (e : error).
Arguments Ok {T} v.
Arguments Err {T} e.

(** [strings.Contains(s, sub)] *)
Fixpoint strings_Contains (s sub : string) : bool :=
  String.prefix sub s ||
  match s with
  | EmptyString => false
  | String _ rest => strings_Contains rest sub
  end.

(** ** Constants of [main.go] *)

Definition protocolVersion : string := "2024-11-05".
Definition serverName : string := "nano-banana-mcp".
Definition serverVersion : string := "2.0.0".
Definition geminiModel : string := "gemini-2.5-flash-image".
Definition defaultOutputDir : string := "generated".

(** ** MCP JSON-RPC types *)

Record JSONRPCRequest : Type := {
  req_JSONRPC : string;
  req_ID : any;
  req_Method : string;
  req_Params : RawMessage
}.

Record Error : Type := {
  err_Code : Z;
  err_Message : string
}.

Record ServerInfo : Type := {
  info_Name : string;
  info_Version : string
}.

(** [ToolsCapability] is the empty struct. *)
Inductive ToolsCapability : Type := mkToolsCapability.

Record Capabilities : Type := {
  cap_Tools : option ToolsCapability
}.

Record InitializeResult : Type := {
  init_ProtocolVersion : string;
  init_Capabilities : Capabilities;
  init_ServerInfo : ServerInfo
}.

Record Property : Type := {
  prop_Type : string;
  prop_Description : string
}.

Record JSONSchema : Type := {
  schema_Type : string;
  schema_Properties : gmap string Property;
  schema_Required : list string
}.

Record Tool : Type := {
  tool_Name : string;
  tool_Description : string;
  tool_InputSchema : JSONSchema
}.

Record ListToolsResult : Type := {
  list_Tools : list Tool
}.

Record CallToolParams : Type := {
  params_Name : string;
  params_Arguments : gmap string any
}.

Record Content : Type := {
  content_Type : string;
  content_Text : string;
  content_Data : string;
  content_MimeType : string
}.

Record CallToolResult : Type := {
  call_Content : list Content;
  call_IsError : bool
}.

(** The dynamic values the program stores in the [Result any] field. *)
Inductive ResultValue : Type :=
| ResInitialize (r : InitializeResult)
| ResListTools (r : ListToolsResult)
| ResCallTool (r : CallToolResult).

(** [Result] is a nil interface and [Error] a nil pointer when [None]. *)
Record JSONRPCResponse : Type := {
  resp_JSONRPC : string;
  resp_ID : any;
  resp_Result : option ResultValue;
  resp_Error : option Error
}.

(** Composite literals with the omitted fields at their zero value. *)
Definition text_content (text : string) : Content :=
  {| content_Type := "text"; content_Text := text;
     content_Data := empty; content_MimeType := empty |}.

Definition image_content (data mime : string) : Content :=
  {| content_Type := "image"; content_Text := empty;
     content_Data := data; content_MimeType := mime |}.

Definition error_response (id : any) (code : Z) (msg : string) : JSONRPCResponse :=
  {| resp_JSONRPC := "2.0"; resp_ID := id;
     resp_Result := None;
     resp_Error := Some {| err_Code := code; err_Message := msg |} |}.

(** ** Types of the genai SDK, as the program uses them

    [result.Candidates[0].Content.Parts], [part.Text], [part.InlineData]
    and [part.InlineData.Data].  The SDK declares [Candidates []*Candidate],
    [Content *Content], [Parts []*Part] and [InlineData *Blob]; a pointer
    is an option, [None] being nil. *)

Record Blob : Type := {
  blob_MIMEType : string;
  blob_Data : bytes
}.

Record Part : Type := {
  part_Text : string;
  part_InlineData : option Blob
}.

Record genai_Content : Type := {
  gc_Parts : list (option Part)
}.

Record Candidate : Type := {
  cand_Content : option genai_Content
}.

Record GenerateContentResponse : Type := {
  gen_Candidates : list (option Candidate)
}.

(** ** The outside world *)

(** One entry per library call with an effect, in program order. *)
Inductive Event : Type :=
| EvScan (line : string)
    (* scanner.Scan() returned true and scanner.Text() is [line] *)
| EvPrintln (out : string)                      (* fmt.Println(out) *)
| EvSync                                        (* os.Stdout.Sync() *)
| EvGenerateContent (model : string) (contents : list genai_Content)
| EvReadFile (path : string)                    (* os.ReadFile *)
| EvMkdirAll (dir : string) (perm : N)          (* os.MkdirAll *)
| EvNow                                         (* time.Now *)
| EvWriteFile (path : string) (data : bytes) (perm : N) (* os.WriteFile *)
| EvAbs (path : string).                        (* filepath.Abs *)

(** Pure library functions. *)
Class Lib : Type := {
  (* json.Unmarshal([]byte(line), &req); [None] when it returns an error *)
  json_Unmarshal_request : string -> option JSONRPCRequest;
  (* json.Unmarshal(req.Params, &params) *)
  json_Unmarshal_params : RawMessage -> option CallToolParams;
  (* json.Marshal(resp) *)
  json_Marshal : JSONRPCResponse -> option string;
  filepath_Clean : string -> string;
  filepath_Join : string -> string -> string;
  filepath_Ext : string -> string;
  strings_ToLower : string -> string;
  base64_EncodeToString : bytes -> string;
  base64_DecodeString : string -> result bytes;
  (* genai.Text(prompt) *)
  genai_Text : string -> list genai_Content
}.

(** Library calls that read or change the world [W]. *)
Class System (W : Type) : Type := {
  (* s.client.Models.GenerateContent(ctx, model, contents, nil) *)
  client_GenerateContent :
    string -> list genai_Content -> W -> result GenerateContentResponse * W;
  os_ReadFile : string -> W -> result bytes * W;
  os_MkdirAll : string -> N -> W -> option error * W;
  os_WriteFile : string -> bytes -> N -> W -> option error * W;
  filepath_Abs : string -> W -> result string * W;
  (* time.Now().Format(layout) *)
  time_Now_Format : string -> W -> string * W
}.

(** The file modes [0755] and [0644]. *)
Definition perm_0755 : N := 493.
Definition perm_0644 : N := 420.

(** ** The monad of the program: world, trace and panics *)

(** A computation returns a value or panics. *)
Inductive Res (A : Type) : Type :=
| Val (a : A)
| Panic (msg : string).
Arguments Val {A} a.
Arguments Panic {A} msg.

(** What a computation leaves behind: its result, the world after it and
    the events it added, in order. *)
Record Outcome (W A : Type) : Type := Out {
  res : Res A;
  final : W;
  events : list Event
}.
Arguments Out {W A} res final events.
Arguments res {W A} _.
Arguments final {W A} _.
Arguments events {W A} _.

Definition M (W A : Type) : Type := W -> Outcome W A.

Definition ret {W A} (a : A) : M W A := fun w => Out (Val a) w [].

Definition bind {W A B} (m : M W A) (k : A -> M W B) : M W B :=
  fun w =>
    match m w with
    | Out (Val a) w1 t1 =>
      match k a w1 with
      | Out r w2 t2 => Out r w2 (t1 ++ t2)
      end
    | Out (Panic msg) w1 t1 => Out (Panic msg) w1 t1
    end.

(** Lift a pure computation that may panic. *)
Definition lift {W A} (r : Res A) : M W A := fun w => Out r w [].

Notation "'do' x <- m ; k" := (bind m (fun x => k))
  (at level 10, x name, m at level 100, k at level 200).
Notation "m ;; k" := (bind m (fun _ => k))
  (at level 100, k at level 200, right associativity).

(** Record one event that leaves the world as it is. *)
Definition log {W} (e : Event) : M W unit := fun w => Out (Val tt) w [e].

(** Run a [System] call on the world and record it. *)
Definition call {W A} (e : Event) (f : W -> A * W) : M W A :=
  fun w => let (a, w1) := f w in Out (Val a) w1 [e].

(** The runtime errors of Go that the program can raise. *)
Definition index_out_of_range : string :=
  "runtime error: index out of range [0] with length 0".
Definition nil_dereference : string :=
  "runtime error: invalid memory address or nil pointer dereference".

Section Program.

Context `{L : Lib} {W : Type} `{Sys : !System W}.

(** The [Server] struct; its [client] field is the [System] instance. *)
Record Server : Type := {
  outputDir : string
}.

(** *** handleInitialize *)
Definition handleInitialize (s : Server) (req : JSONRPCRequest) : JSONRPCResponse :=
  {| resp_JSONRPC := "2.0";
     resp_ID := req_ID req;
     resp_Result := Some (ResInitialize
       {| init_ProtocolVersion := protocolVersion;
          init_Capabilities := {| cap_Tools := Some mkToolsCapability |};
          init_ServerInfo :=
            {| info_Name := serverName; info_Version := serverVersion |} |});
     resp_Error := None |}.

(** *** handleListTools *)
Definition tools : list Tool :=
  [ {| tool_Name := "generate_image";
       tool_Description :=
         "Generate a new image from a text prompt using Google Gemini";
       tool_InputSchema :=
         {| schema_Type := "object";
            schema_Properties :=
              {[ "prompt" :=
                   {| prop_Type := "string";
                      prop_Description :=
                        "Text description of the image to generate" |} ]};
            schema_Required := ["prompt"] |} |};
    {| tool_Name := "edit_image";
       tool_Description := "Edit an existing image using a text prompt";
       tool_InputSchema :=
         {| schema_Type := "object";
            schema_Properties :=
              <[ "image_path" :=
                   {| prop_Type := "string";
                      prop_Description := "Path to the image file to edit" |} ]>
              {[ "prompt" :=
                   {| prop_Type := "string";
                      prop_Description :=
                        "Text description of the edits to make" |} ]};
            schema_Required := ["image_path"; "prompt"] |} |} ].

Definition handleListTools (s : Server) (req : JSONRPCRequest) : JSONRPCResponse :=
  {| resp_JSONRPC := "2.0";
     resp_ID := req_ID req;
     resp_Result := Some (ResListTools {| list_Tools := tools |});
     resp_Error := None |}.

(** *** getMimeType *)
Definition getMimeType (path : string) : string :=
  let ext := strings_ToLower (filepath_Ext path) in
  if String.eqb ext ".png" then "image/png"
  else if String.eqb ext ".jpg" || String.eqb ext ".jpeg" then "image/jpeg"
  else if String.eqb ext ".webp" then "image/webp"
  else if String.eqb ext ".gif" then "image/gif"
  else "image/png".

(** *** saveImage *)
Definition saveImage (s : Server) (base64Data prefix : string) : M W (result string) :=
  let dir := filepath_Join "." (outputDir s) in
  do err <- call (EvMkdirAll dir perm_0755) (os_MkdirAll dir perm_0755);
  match err with
  | Some err => ret (Err err)
  | None =>
    do timestamp <- call EvNow (time_Now_Format "2006-01-02T15-04-05");
    let filename := prefix ++ "-" ++ timestamp ++ ".png" in
    let filePath := filepath_Join dir filename in
    match base64_DecodeString base64Data with
    | Err err => ret (Err err)
    | Ok imageBytes =>
      do err <- call (EvWriteFile filePath imageBytes perm_0644)
                     (os_WriteFile filePath imageBytes perm_0644);
      match err with
      | Some err => ret (Err err)
      | None =>
        do abs <- call (EvAbs filePath) (filepath_Abs filePath);
        match abs with
        | Err err => ret (Err (fmt_Errorf_w "failed to get absolute path: " err))
        | Ok absPath => ret (Ok absPath)
        end
      end
    end
  end.

(** *** The extraction loop of generateImage and editImage

    Both functions contain the same statement,
    [for _, part := range result.Candidates[0].Content.Parts { ... }]. *)

(** [result.Candidates[0].Content.Parts] *)
Definition first_candidate_parts (r : GenerateContentResponse) : Res (list (option Part)) :=
  match gen_Candidates r with
  | [] => Panic index_out_of_range
  | None :: _ => Panic nil_dereference
  | Some candidate :: _ =>
    match cand_Content candidate with
    | None => Panic nil_dereference
    | Some content => Val (gc_Parts content)
    end
  end.

(** The loop body, over the remaining parts, with the two accumulators. *)
Fixpoint extract_parts (parts : list (option Part)) (imageData textResponse : string)
  : Res (string * string) :=
  match parts with
  | [] => Val (imageData, textResponse)
  | None :: _ => Panic nil_dereference
  | Some part :: rest =>
    if negb (String.eqb (part_Text part) empty) then
      extract_parts rest imageData (textResponse ++ part_Text part)
    else
      match part_InlineData part with
      | Some blob =>
        extract_parts rest (base64_EncodeToString (blob_Data blob)) textResponse
      | None => extract_parts rest imageData textResponse
      end
  end.

Definition extract_response (r : GenerateContentResponse) : Res (string * string) :=
  match first_candidate_parts r with
  | Panic msg => Panic msg
  | Val parts => extract_parts parts empty empty
  end.

(** *** generateImage *)
Definition generateImage (s : Server) (args : gmap string any) : M W (result CallToolResult) :=
  let (prompt, ok) := assert_string (args !! "prompt") in
  if negb ok || String.eqb prompt empty then
    ret (Err (fmt_Errorf "prompt is required"))
  else
    let contents := genai_Text prompt in
    do res <- call (EvGenerateContent geminiModel contents)
                   (client_GenerateContent geminiModel contents);
    match res with
    | Err err => ret (Err (fmt_Errorf_w "API request failed: " err))
    | Ok result =>
      do extracted <- lift (extract_response result);
      let (imageData, textResponse) := (extracted : string * string) in
      if String.eqb imageData empty then
        let msg := "No image was generated." in
        let msg := if negb (String.eqb textResponse empty)
                   then msg ++ nl ++ nl ++ "Model response: " ++ textResponse
                   else msg in
        ret (Ok {| call_Content := [text_content msg]; call_IsError := false |})
      else
        do saved <- saveImage s imageData "generated";
        match saved with
        | Err err => ret (Err (fmt_Errorf_w "failed to save image: " err))
        | Ok filePath =>
          let content :=
            [ text_content ("Image generated and saved to: " ++ filePath
                            ++ nl ++ nl ++ "Prompt: " ++ prompt);
              image_content imageData "image/png" ] in
          ret (Ok {| call_Content := content; call_IsError := false |})
        end
    end.

(** *** editImage *)
Definition editImage (s : Server) (args : gmap string any) : M W (result CallToolResult) :=
  let (imagePath, ok) := assert_string (args !! "image_path") in
  if negb ok || String.eqb imagePath empty then
    ret (Err (fmt_Errorf "image_path is required"))
  else
  let (prompt, ok) := assert_string (args !! "prompt") in
  if negb ok || String.eqb prompt empty then
    ret (Err (fmt_Errorf "prompt is required"))
  else
  let cleanPath := filepath_Clean imagePath in
  if strings_Contains cleanPath ".." then
    ret (Err (fmt_Errorf "invalid image path: directory traversal not allowed"))
  else
  do read <- call (EvReadFile cleanPath) (os_ReadFile cleanPath);
  match read with
  | Err err => ret (Err (fmt_Errorf_w "failed to read image: " err))
  | Ok imageBytes =>
    let contents :=
      [ {| gc_Parts :=
             [ Some {| part_Text := empty;
                       part_InlineData :=
                         Some {| blob_MIMEType := getMimeType cleanPath;
                                 blob_Data := imageBytes |} |};
               Some {| part_Text := prompt; part_InlineData := None |} ] |} ] in
    do res <- call (EvGenerateContent geminiModel contents)
                   (client_GenerateContent geminiModel contents);
    match res with
    | Err err => ret (Err (fmt_Errorf_w "API request failed: " err))
    | Ok result =>
      do extracted <- lift (extract_response result);
      let (imageData, textResponse) := (extracted : string * string) in
      if String.eqb imageData empty then
        let msg := "No edited image was generated." in
        let msg := if negb (String.eqb textResponse empty)
                   then msg ++ nl ++ nl ++ "Model response: " ++ textResponse
                   else msg in
        ret (Ok {| call_Content := [text_content msg]; call_IsError := false |})
      else
        do saved <- saveImage s imageData "edited";
        match saved with
        | Err err => ret (Err (fmt_Errorf_w "failed to save image: " err))
        | Ok filePath =>
          let content :=
            [ text_content ("Image edited and saved to: " ++ filePath
                            ++ nl ++ nl ++ "Original: " ++ imagePath
                            ++ nl ++ "Prompt: " ++ prompt);
              image_content imageData "image/png" ] in
          ret (Ok {| call_Content := content; call_IsError := false |})
        end
    end
  end.

(** *** handleCallTool *)

(** The end of handleCallTool, after the [switch]: the response for what
    the tool returned. *)
Definition tool_response (req : JSONRPCRequest) (r : result CallToolResult) : JSONRPCResponse :=
  match r with
  | Err err =>
    {| resp_JSONRPC := "2.0";
       resp_ID := req_ID req;
       resp_Result := Some (ResCallTool
         {| call_Content := [text_content ("Error: " ++ error_Error err)];
            call_IsError := true |});
       resp_Error := None |}
  | Ok result =>
    {| resp_JSONRPC := "2.0";
       resp_ID := req_ID req;
       resp_Result := Some (ResCallTool result);
       resp_Error := None |}
  end.

Definition handleCallTool (s : Server) (req : JSONRPCRequest) : M W JSONRPCResponse :=
  match json_Unmarshal_params (req_Params req) with
  | None => ret (error_response (req_ID req) (-32602) "Invalid params")
  | Some params =>
    if String.eqb (params_Name params) "generate_image" then
      do r <- generateImage s (params_Arguments params);
      ret (tool_response req r)
    else if String.eqb (params_Name params) "edit_image" then
      do r <- editImage s (params_Arguments params);
      ret (tool_response req r)
    else
      ret (error_response (req_ID req) (-32601)
             ("Unknown tool: " ++ params_Name params))
  end.

(** *** handleRequest; [None] is the nil response. *)
Definition handleRequest (s : Server) (req : JSONRPCRequest) : M W (option JSONRPCResponse) :=
  if String.eqb (req_Method req) "initialize" then
    ret (Some (handleInitialize s req))
  else if String.eqb (req_Method req) "notifications/initialized" then
    ret None
  else if String.eqb (req_Method req) "tools/list" then
    ret (Some (handleListTools s req))
  else if String.eqb (req_Method req) "tools/call" then
    do resp <- handleCallTool s req;
    ret (Some resp)
  else
    ret (Some (error_response (req_ID req) (-32601) "Method not found")).

(** *** Run

    [Run_body] is the body of the [for scanner.Scan()] loop for one line;
    each [continue] of the source ends it.  [Run_reply] is its end, from
    the test [resp == nil] on. *)
Definition Run_reply (resp : option JSONRPCResponse) : M W unit :=
  match resp with
  | None => ret tt
  | Some resp =>
    match json_Marshal resp with
    | None => ret tt
    | Some respJSON =>
      log (EvPrintln respJSON) ;;
      log EvSync
    end
  end.

Definition Run_body (s : Server) (line : string) : M W unit :=
  if String.eqb line empty then ret tt
  else
    match json_Unmarshal_request line with
    | None => ret tt
    | Some req =>
      do resp <- handleRequest s req;
      Run_reply resp
    end.

(** The loop over the lines that [scanner.Scan()] delivers. *)
Fixpoint Run_loop (s : Server) (lines : list string) : M W unit :=
  match lines with
  | [] => ret tt
  | line :: rest =>
    log (EvScan line) ;;
    Run_body s line ;;
    Run_loop s rest
  end.

(** Standard input as the scanner presents it: the lines delivered before
    [Scan] returns false, and the value of [scanner.Err()] afterwards
    (nil at the end of the input; a read error, or [bufio.ErrTooLong] for
    a line that does not fit the scanner's buffer, ends the input there). *)
Record Stdin : Type := {
  stdin_lines : list string;
  stdin_err : option error
}.

Definition Run (s : Server) (input : Stdin) : M W (option error) :=
  Run_loop s (stdin_lines input) ;;
  ret (stdin_err input).

(** *** The scanner of Run

    [Run] reads through [bufio.NewScanner(os.Stdin)] and never calls
    [scanner.Buffer] or [scanner.Split]: the split function is
    [bufio.ScanLines] and a token may not fill the buffer, whose size is
    capped at [bufio.MaxScanTokenSize].  [bufio_Scanner data] is what
    that scanner presents when standard input holds the bytes [data] up
    to its end. *)
Definition MaxScanTokenSize : N := 65536.       (* 64 * 1024 *)

Definition ErrTooLong : error := errorString "bufio.Scanner: token too long".

Definition newline : ascii := ascii_of_nat 10.
Definition carriage_return : ascii := ascii_of_nat 13.

(** [dropCR] of package bufio: one trailing carriage return is dropped. *)
Fixpoint dropCR (data : string) : string :=
  match data with
  | EmptyString => EmptyString
  | String c rest =>
    match rest with
    | EmptyString => if Ascii.eqb c carriage_return then EmptyString else data
    | String _ _ => String c (dropCR rest)
    end
  end.

(** The input cut at each newline: the lines that end in one, and what
    follows the last newline. *)
Fixpoint cut_lines (data : string) : list string * string :=
  match data with
  | EmptyString => ([], EmptyString)
  | String c rest =>
    let (lines, tail) := cut_lines rest in
    if Ascii.eqb c newline then (EmptyString :: lines, tail)
    else
      match lines with
      | [] => ([], String c tail)
      | line :: others => (String c line :: others, tail)
      end
  end.

(** A line is found when its newline lies in a full buffer, or when the
    input ends before the buffer is full: in both cases when the line,
    without its newline, is shorter than the buffer. *)
Definition fits (token : string) : bool :=
  (N.of_nat (String.length token) <? MaxScanTokenSize)%N.

(** The tokens [Scan] delivers, and [scanner.Err()] afterwards.  A line
    that does not fit stops the scanner with [ErrTooLong]; bytes after the
    last newline are a last line, unless there are none. *)
Fixpoint scan_tokens (lines : list string) (tail : string)
  : list string * option error :=
  match lines with
  | [] =>
    if String.eqb tail empty then ([], None)
    else if fits tail then ([dropCR tail], None)
    else ([], Some ErrTooLong)
  | line :: others =>
    if fits line then
      let (tokens, err) := scan_tokens others tail in
      (dropCR line :: tokens, err)
    else ([], Some ErrTooLong)
  end.

Definition bufio_Scanner (data : string) : Stdin :=
  let (lines, tail) := cut_lines data in
  let (tokens, err) := scan_tokens lines tail in
  {| stdin_lines := tokens; stdin_err := err |}.

End Program.

(** ** A concrete library and world

    Executable stand-ins for the two classes, used to run the program on
    concrete inputs: Unix [path/filepath], standard base64 with padding,
    ASCII [strings.ToLower], the JSON decoders as tables over the texts of
    the examples, and a world made of a file map, a clock reading, a
    working directory and the replies the remote service will give. *)
Module Fixture.

(** Write a JSON text with ['] for the double quote. *)
Fixpoint dq (s : string) : string :=
  match s with
  | EmptyString => EmptyString
  | String c rest =>
    String (if Ascii.eqb c "'"%char then ascii_of_nat 34 else c) (dq rest)
  end.

(** *** path/filepath on Unix *)

(** [strings.Split(path, "/")] *)
Fixpoint elements (path : string) : list string :=
  match path with
  | EmptyString => [EmptyString]
  | String c rest =>
    match elements rest with
    | e :: es =>
      if Ascii.eqb c "/"%char then EmptyString :: e :: es else String c e :: es
    | [] => [String c EmptyString]
    end
  end.

(** One path element against the elements kept so far, innermost first. *)
Definition clean_step (rooted : bool) (kept : list string) (e : string) : list string :=
  if String.eqb e empty || String.eqb e "." then kept
  else if String.eqb e ".." then
    match kept with
    | top :: below => if String.eqb top ".." then e :: kept else below
    | [] => if rooted then [] else [e]
    end
  else e :: kept.

Definition join_slash (es : list string) : string :=
  match es with
  | [] => empty
  | e :: es => fold_left (fun acc x => acc ++ "/" ++ x) es e
  end.

Definition Clean (path : string) : string :=
  if String.eqb path empty then "."
  else
    let rooted := String.prefix "/" path in
    let kept := rev (fold_left (clean_step rooted) (elements path) []) in
    if rooted then "/" ++ join_slash kept
    else if String.eqb (join_slash kept) empty then "." else join_slash kept.

Definition Join (a b : string) : string :=
  if String.eqb a empty && String.eqb b empty then empty
  else if String.eqb a empty then Clean b
  else if String.eqb b empty then Clean a
  else Clean (a ++ "/" ++ b).

Fixpoint Ext (path : string) : string :=
  match path with
  | EmptyString => empty
  | String c rest =>
    if strings_Contains rest "/" then Ext rest
    else if negb (String.eqb (Ext rest) empty) then Ext rest
    else if Ascii.eqb c "."%char then path
    else empty
  end.

(** *** strings.ToLower on ASCII text *)
Definition lower_ascii (c : ascii) : ascii :=
  let n := nat_of_ascii c in
  if (65 <=? n)%nat && (n <=? 90)%nat then ascii_of_nat (n + 32) else c.

Fixpoint ToLower (s : string) : string :=
  match s with
  | EmptyString => EmptyString
  | String c rest => String (lower_ascii c) (ToLower rest)
  end.

(** *** encoding/base64, StdEncoding *)
Definition alphabet : string :=
  "ABCDEFGHIJKLMNOPQRSTUVWXYZabcdefghijklmnopqrstuvwxyz0123456789+/".

Definition sextet (n : N) : ascii :=
  match String.get (N.to_nat n) alphabet with
  | Some c => c
  | None => "="%char
  end.

Fixpoint index_of (c : ascii) (s : string) : option N :=
  match s with
  | EmptyString => None
  | String d rest =>
    if Ascii.eqb c d then Some 0%N else N.succ <$> index_of c rest
  end.

Fixpoint EncodeToString (src : bytes) : string :=
  match src with
  | [] => EmptyString
  | [a] =>
    let a := Byte.to_N a in
    String (sextet (a / 4)) (String (sextet (a mod 4 * 16)) "==")
  | [a; b] =>
    let a := Byte.to_N a in
    let b := Byte.to_N b in
    String (sextet (a / 4)) (String (sextet (a mod 4 * 16 + b / 16))
      (String (sextet (b mod 16 * 4)) "="))
  | a :: b :: c :: rest =>
    let a := Byte.to_N a in
    let b := Byte.to_N b in
    let c := Byte.to_N c in
    String (sextet (a / 4)) (String (sextet (a mod 4 * 16 + b / 16))
      (String (sextet (b mod 16 * 4 + c / 64)) (String (sextet (c mod 64))
        (EncodeToString rest))))
  end%N.

Definition byte_of (n : N) : byte :=
  match Byte.of_N n with
  | Some b => b
  | None => Byte.x00
  end.

Definition corrupt : error := errorString "illegal base64 data".

Fixpoint DecodeString (s : string) : result bytes :=
  match s with
  | EmptyString => Ok []
  | String c1 (String c2 (String c3 (String c4 rest))) =>
    match index_of c1 alphabet, index_of c2 alphabet with
    | Some a, Some b =>
      let b1 := byte_of (a * 4 + b / 16) in
      match index_of c3 alphabet, index_of c4 alphabet with
      | Some c, Some d =>
        match DecodeString rest with
        | Ok tail =>
          Ok (b1 :: byte_of (b mod 16 * 16 + c / 4) :: byte_of (c mod 4 * 64 + d) :: tail)
        | Err e => Err e
        end
      | Some c, None =>
        if Ascii.eqb c4 "="%char && String.eqb rest empty
        then Ok [b1; byte_of (b mod 16 * 16 + c / 4)] else Err corrupt
      | None, _ =>
        if Ascii.eqb c3 "="%char && Ascii.eqb c4 "="%char && String.eqb rest empty
        then Ok [b1] else Err corrupt
      end
    | _, _ => Err corrupt
    end
  | _ => Err corrupt
  end%N.

(** *** encoding/json on the texts of the examples *)

Definition params_generate : RawMessage :=
  dq "{'name':'generate_image','arguments':{'prompt':'a red fox'}}".
Definition params_generate_no_prompt : RawMessage :=
  dq "{'name':'generate_image','arguments':{}}".
Definition params_edit : RawMessage :=
  dq "{'name':'edit_image','arguments':{'image_path':'in/cat.png','prompt':'add a hat'}}".
Definition params_edit_traversal_only : RawMessage :=
  dq "{'name':'edit_image','arguments':{'image_path':'../etc/passwd'}}".
Definition params_unknown : RawMessage :=
  dq "{'name':'unknown_tool','arguments':{}}".

Definition Unmarshal_params (raw : RawMessage) : option CallToolParams :=
  if String.eqb raw params_generate then
    Some {| params_Name := "generate_image";
            params_Arguments := {[ "prompt" := JString "a red fox" ]} |}
  else if String.eqb raw params_generate_no_prompt then
    Some {| params_Name := "generate_image"; params_Arguments := ∅ |}
  else if String.eqb raw params_edit then
    Some {| params_Name := "edit_image";
            params_Arguments :=
              <[ "image_path" := JString "in/cat.png" ]>
              {[ "prompt" := JString "add a hat" ]} |}
  else if String.eqb raw params_edit_traversal_only then
    Some {| params_Name := "edit_image";
            params_Arguments := {[ "image_path" := JString "../etc/passwd" ]} |}
  else if String.eqb raw params_unknown then
    Some {| params_Name := "unknown_tool"; params_Arguments := ∅ |}
  else None.

Definition line_initialize : string :=
  dq "{'jsonrpc':'2.0','id':1,'method':'initialize'}".
Definition line_initialized : string :=
  dq "{'jsonrpc':'2.0','method':'notifications/initialized'}".
Definition line_list : string :=
  dq "{'jsonrpc':'2.0','id':2,'method':'tools/list'}".
Definition line_call (id : string) (params : RawMessage) : string :=
  dq "{'jsonrpc':'2.0','id':" ++ id ++ dq ",'method':'tools/call','params':"
  ++ params ++ "}".
Definition line_call_no_params : string :=
  dq "{'jsonrpc':'2.0','id':5,'method':'tools/call'}".
Definition line_unknown_method : string :=
  dq "{'jsonrpc':'2.0','id':4,'method':'unknown/method'}".
Definition line_garbage : string := "not json".

Definition request (id : any) (method : string) (params : RawMessage) : JSONRPCRequest :=
  {| req_JSONRPC := "2.0"; req_ID := id; req_Method := method;
     req_Params := params |}.

Definition Unmarshal_request (line : string) : option JSONRPCRequest :=
  if String.eqb line line_initialize then
    Some (request (JNumber "1") "initialize" empty)
  else if String.eqb line line_initialized then
    Some (request JNull "notifications/initialized" empty)
  else if String.eqb line line_list then
    Some (request (JNumber "2") "tools/list" empty)
  else if String.eqb line line_unknown_method then
    Some (request (JNumber "4") "unknown/method" empty)
  else if String.eqb line (line_call "3" params_generate) then
    Some (request (JNumber "3") "tools/call" params_generate)
  else if String.eqb line line_call_no_params then
    Some (request (JNumber "5") "tools/call" empty)
  else if String.eqb line (line_call "6" params_unknown) then
    Some (request (JNumber "6") "tools/call" params_unknown)
  else None.

(** A stand-in for [json.Marshal]: it prints the envelope of a response
    (scalar ids in full, the error object in full), and of a result only
    its kind. *)
Definition show_id (id : any) : string :=
  match id with
  | JNull => empty
  | JBool true => dq "'id':true,"
  | JBool false => dq "'id':false,"
  | JNumber lit => dq "'id':" ++ lit ++ ","
  | JString s => dq "'id':'" ++ s ++ dq "',"
  | JArray _ => dq "'id':[],"
  | JObject _ => dq "'id':{},"
  end.

Definition show_code (code : Z) : string :=
  if Z.eqb code (-32601) then "-32601"
  else if Z.eqb code (-32602) then "-32602"
  else "0".

Definition Marshal (resp : JSONRPCResponse) : option string :=
  Some (dq "{'jsonrpc':'" ++ resp_JSONRPC resp ++ dq "'," ++ show_id (resp_ID resp)
        ++ match resp_Result resp, resp_Error resp with
           | Some (ResInitialize _), _ => dq "'result':'initialize'"
           | Some (ResListTools _), _ => dq "'result':'tools'"
           | Some (ResCallTool r), _ =>
             if call_IsError r then dq "'result':'tool error'"
             else dq "'result':'tool result'"
           | None, Some e =>
             dq "'error':{'code':" ++ show_code (err_Code e)
             ++ dq ",'message':'" ++ err_Message e ++ dq "'}"
           | None, None => empty
           end ++ "}").

Definition lib : Lib := {|
  json_Unmarshal_request := Unmarshal_request;
  json_Unmarshal_params := Unmarshal_params;
  json_Marshal := Marshal;
  filepath_Clean := Clean;
  filepath_Join := Join;
  filepath_Ext := Ext;
  strings_ToLower := ToLower;
  base64_EncodeToString := EncodeToString;
  base64_DecodeString := DecodeString;
  genai_Text := fun prompt =>
    [ {| gc_Parts := [ Some {| part_Text := prompt; part_InlineData := None |} ] |} ]
|}.

(** *** The world of the examples *)
Record World : Type := {
  files : gmap string bytes;            (* the file system, by path *)
  replies : list (result GenerateContentResponse);
                                        (* what the service answers, in order *)
  clock : string;                       (* time.Now() in the layout asked for *)
  cwd : string                          (* the working directory *)
}.

Definition sys : System World := {|
  client_GenerateContent := fun _ _ w =>
    match replies w with
    | [] => (Err (errorString "connection refused"), w)
    | r :: rest =>
      (r, {| files := files w; replies := rest; clock := clock w; cwd := cwd w |})
    end;
  os_ReadFile := fun path w =>
    match files w !! path with
    | Some data => (Ok data, w)
    | None =>
      (Err (errorString ("open " ++ path ++ ": no such file or directory")), w)
    end;
  os_MkdirAll := fun _ _ w => (None, w);
  os_WriteFile := fun path data _ w =>
    (None, {| files := <[ path := data ]> (files w); replies := replies w;
              clock := clock w; cwd := cwd w |});
  filepath_Abs := fun path w => (Ok (Join (cwd w) path), w);
  time_Now_Format := fun _ w => (clock w, w)
|}.

(** A reply of the service with one candidate made of the given parts. *)
Definition reply (parts : list (option Part)) : result GenerateContentResponse :=
  Ok {| gen_Candidates :=
          [ Some {| cand_Content := Some {| gc_Parts := parts |} |} ] |}.

Definition text_part (text : string) : option Part :=
  Some {| part_Text := text; part_InlineData := None |}.

Definition image_part (data : bytes) : option Part :=
  Some {| part_Text := empty;
          part_InlineData := Some {| blob_MIMEType := "image/png"; blob_Data := data |} |}.

(** The bytes [PNG] stand for an image. *)
Definition png : bytes := [Byte.x50; Byte.x4e; Byte.x47].

Definition world0 (replies : list (result GenerateContentResponse)) : World :=
  {| files := {[ "in/cat.png" := png ]};
     replies := replies;
     clock := "2026-01-02T03-04-05";
     cwd := "/srv" |}.

Definition server : Server := {| outputDir := defaultOutputDir |}.

(** The program at this library, world and server. *)
Definition handle : JSONRPCRequest -> M World (option JSONRPCResponse) :=
  handleRequest (L := lib) (Sys := sys) server.
Definition generate : gmap string any -> M World (result CallToolResult) :=
  generateImage (L := lib) (Sys := sys) server.
Definition edit : gmap string any -> M World (result CallToolResult) :=
  editImage (L := lib) (Sys := sys) server.
Definition save : Server -> string -> string -> M World (result string) :=
  saveImage (L := lib) (Sys := sys).

(** The message of the error an operation returned, if it returned one. *)
Definition message {A} (o : Outcome World (result A)) : string :=
  match res o with
  | Val (Err e) => error_Error e
  | _ => empty
  end.

(** The 1x1 image of the unit tests, in base64. *)
Definition pngBase64 : string :=
  "iVBORw0KGgoAAAANSUhEUgAAAAEAAAABCAYAAAAfFcSJAAAADUlEQVR42mP8z8DwHwAFBQIAX8jx0gAAAABJRU5ErkJggg==".

(** A session: a handshake, an empty line, a line that is not JSON, an
    unknown method and a tool listing. *)
Definition session : Stdin :=
  {| stdin_lines :=
       [ line_initialize; empty; line_initialized; line_garbage;
         line_unknown_method; line_list ];
     stdin_err := None |}.

(** A session with a tool call: a handshake, a generate_image call and a
    tool listing. *)
Definition session_generate : Stdin :=
  {| stdin_lines :=
       [ line_initialize; line_initialized;
         line_call "3" params_generate; line_list ];
     stdin_err := None |}.

(** A generate_image call whose prompt alone is 64 KiB long. *)
Fixpoint doubled (k : nat) (text : string) : string :=
  match k with
  | O => text
  | S k => doubled k (text ++ text)
  end.

Definition params_long_prompt : RawMessage :=
  dq "{'name':'generate_image','arguments':{'prompt':'"
  ++ doubled 16 "a" ++ dq "'}}".

Definition line_long : string := line_call "7" params_long_prompt.

End Fixture.

(** ** What a run shows to the outside *)

(** The lines written to standard output, in order. *)
Definition stdout_of (t : list Event) : list string :=
  omap (fun e => match e with EvPrintln out => Some out | _ => None end) t.

(** Calls to the remote image service. *)
Definition is_api_call (e : Event) : bool :=
  match e with
  | EvGenerateContent _ _ => true
  | _ => false
  end.

Definition api_calls (t : list Event) : nat :=
  List.length (List.filter is_api_call t).

(** The events of a tool operation: everything but the three of [Run]. *)
Definition is_tool_event (e : Event) : bool :=
  match e with
  | EvScan _ | EvPrintln _ | EvSync => false
  | _ => true
  end.

(** A response carries a result or an error, and not both. *)
Definition one_of_result_error (resp : JSONRPCResponse) : Prop :=
  (is_Some (resp_Result resp) /\ resp_Error resp = None) \/
  (resp_Result resp = None /\ is_Some (resp_Error resp)).

(** Every event a computation adds satisfies [P], whatever the world. *)
Definition emits {W A} (P : Event -> Prop) (m : M W A) : Prop :=
  forall w, Forall P (events (m w)).

Section Guards.

Context `{L : Lib} {W : Type} `{Sys : !System W}.

(** The checks of generateImage that stand before the outbound call. *)
Definition generate_reaches_service (args : gmap string any) : bool :=
  match args !! "prompt" with
  | Some (JString prompt) => negb (String.eqb prompt empty)
  | _ => false
  end.

(** The checks of editImage that stand before the outbound call: both
    arguments, the cleaned path, and the read of the source file. *)
Definition edit_reaches_service (args : gmap string any) (w : W) : bool :=
  match args !! "image_path", args !! "prompt" with
  | Some (JString imagePath), Some (JString prompt) =>
    negb (String.eqb imagePath empty) && negb (String.eqb prompt empty)
    && negb (strings_Contains (filepath_Clean imagePath) "..")
    && match os_ReadFile (filepath_Clean imagePath) w with
       | (Ok _, _) => true
       | (Err _, _) => false
       end
  | _, _ => false
  end.

(** The path saveImage writes to, for a prefix and a timestamp. *)
Definition save_path (s : Server) (prefix ts : string) : string :=
  filepath_Join (filepath_Join "." (outputDir s)) (prefix ++ "-" ++ ts ++ ".png").

(** The timestamp saveImage reads when it starts in the world [w]: the
    clock, in the layout asked for, once the directory has been made. *)
Definition save_timestamp (s : Server) (w : W) : string :=
  (time_Now_Format "2006-01-02T15-04-05"
     (os_MkdirAll (filepath_Join "." (outputDir s)) perm_0755 w).2).1.

(** The events of a save step that goes through. *)
Definition save_events (s : Server) (prefix ts : string) (imageBytes : bytes) : list Event :=
  [ EvMkdirAll (filepath_Join "." (outputDir s)) perm_0755;
    EvNow;
    EvWriteFile (save_path s prefix ts) imageBytes perm_0644;
    EvAbs (save_path s prefix ts) ].

(** The world lets a save step through: the directory is made, the clock
    reads [ts], the text decodes to [imageBytes], the file is written and
    its absolute path is [absPath]. *)
Definition save_succeeds (s : Server) (prefix base64Data ts : string)
    (imageBytes : bytes) (absPath : string) (w w' : W) : Prop :=
  exists w1 w2 w3,
    os_MkdirAll (filepath_Join "." (outputDir s)) perm_0755 w = (None, w1) /\
    time_Now_Format "2006-01-02T15-04-05" w1 = (ts, w2) /\
    base64_DecodeString base64Data = Ok imageBytes /\
    os_WriteFile (save_path s prefix ts) imageBytes perm_0644 w2 = (None, w3) /\
    filepath_Abs (save_path s prefix ts) w3 = (Ok absPath, w').

(** The request editImage sends: the source image, then the prompt. *)
Definition edit_contents (cleanPath prompt : string) (imageBytes : bytes) : list genai_Content :=
  [ {| gc_Parts :=
         [ Some {| part_Text := empty;
                   part_InlineData :=
                     Some {| blob_MIMEType := getMimeType cleanPath;
                             blob_Data := imageBytes |} |};
           Some {| part_Text := prompt; part_InlineData := None |} ] |} ].

End Guards.

Section Protocol.

Context `{L : Lib} {W : Type} `{Sys : !System W}.

(** A line that [Run] hands to the dispatcher: not empty, and decoded by
    [json.Unmarshal] without an error. *)
Definition accepted (line : string) : bool :=
  negb (String.eqb line empty) &&
  match json_Unmarshal_request line with
  | Some _ => true
  | None => false
  end.

(** A line that asks for a reply: an accepted line whose method is not
    the notification. *)
Definition reply_due (line : string) : bool :=
  negb (String.eqb line empty) &&
  match json_Unmarshal_request line with
  | Some req => negb (String.eqb (req_Method req) "notifications/initialized")
  | None => false
  end.

(** [out] is the reply to [line]: the serialised response of the
    dispatcher to the request the line decodes to, carrying its ID. *)
Definition reply_to (s : Server) (line out : string) : Prop :=
  exists req resp (w : W),
    json_Unmarshal_request line = Some req /\
    res (handleRequest s req w) = Val (Some resp) /\
    resp_ID resp = req_ID req /\
    json_Marshal resp = Some out.

(** The events of one turn of the loop of [Run] that ran to its end.
    For a line that asks for a reply: the read of [line], the events of
    one call of the dispatcher on the request the line decodes to, then
    the serialised response of that very call, carrying the ID of the
    request, and the flush.  For any other line: its read, and nothing
    else. *)
Definition request_block (s : Server) (line : string) (block : list Event) : Prop :=
  if reply_due line then
    exists req resp (w0 : W) out,
      json_Unmarshal_request line = Some req /\
      res (handleRequest s req w0) = Val (Some resp) /\
      resp_ID resp = req_ID req /\
      json_Marshal resp = Some out /\
      block = (EvScan line :: events (handleRequest s req w0)
                 ++ [EvPrintln out; EvSync])%list
  else block = [EvScan line].

(** The events of the turn of a line, whether it ran to its end or not.
    An accepted line is read, decoded into one request, and that request
    is dispatched once; what may follow is one line of output and its
    flush.  A line that is not accepted is read, and that is all. *)
Definition line_turn (s : Server) (line : string) (turn : list Event) : Prop :=
  if accepted line then
    exists req (w0 : W) reply,
      json_Unmarshal_request line = Some req /\
      turn = (EvScan line :: events (handleRequest s req w0) ++ reply)%list /\
      (reply = [] \/ exists out, reply = [EvPrintln out; EvSync])
  else turn = [EvScan line].

(** [out] is a structured response: the serialised response of the
    dispatcher to some request, version "2.0", with a result or an error
    and not both. *)
Definition structured_response (s : Server) (out : string) : Prop :=
  exists req resp (w : W),
    res (handleRequest s req w) = Val (Some resp) /\
    json_Marshal resp = Some out /\
    resp_JSONRPC resp = "2.0" /\
    one_of_result_error resp.

(** The input without the lines that are not accepted. *)
Definition accepted_only (input : Stdin) : Stdin :=
  {| stdin_lines := List.filter accepted (stdin_lines input);
     stdin_err := stdin_err input |}.

End Protocol.

(** *** Lines of standard input *)

(** A text without a newline in it. *)
Fixpoint one_line (text : string) : bool :=
  match text with
  | EmptyString => true
  | String c rest => negb (Ascii.eqb c newline) && one_line rest
  end.

(** A line the scanner can deliver: one line, shorter than 64 KiB. *)
Definition scannable (text : string) : bool := one_line text && fits text.

(** Standard input holding the given lines, each ended by a newline,
    followed by [tail]. *)
Definition input_of (lines : list string) (tail : string) : string :=
  foldr (fun line data => line ++ String newline data) tail lines.

(** The lines of that input as [scanner.Text()] gives them: in order,
    each without its trailing carriage return; the bytes after the last
    newline count as a line when there are any. *)
Definition delivered (lines : list string) (tail : string) : list string :=
  dropCR <$> (lines ++ (if String.eqb tail empty then [] else [tail]))%list.

(** ** Further observations *)

(** The files a trace writes (or tries to write), with their contents. *)
Definition writes_of (t : list Event) : list (string * bytes) :=
  omap (fun e =>
          match e with
          | EvWriteFile path data _ => Some (path, data)
          | _ => None
          end) t.

(** The image a part contributes to the extraction loop: its inline data,
    unless the part has text. *)
Definition image_of (p : Part) : option Blob :=
  if String.eqb (part_Text p) empty then part_InlineData p else None.

(** The texts of the parts, one after the other. *)
Definition texts_of (ps : list Part) : string :=
  foldr (fun p acc => part_Text p ++ acc) empty ps.

(** Whenever the computation returns, what it returns satisfies [P]. *)
Definition returns {W A} (P : A -> Prop) (m : M W A) : Prop :=
  forall w, match res (m w) with Val a => P a | Panic _ => True end.

(** A tool result that is not flagged as an error. *)
Definition plain_result (r : result CallToolResult) : Prop :=
  match r with
  | Ok result => call_IsError result = false
  | Err _ => True
  end.

(** The four MIME types of getMimeType. *)
Definition image_types : list string :=
  ["image/png"; "image/jpeg"; "image/webp"; "image/gif"].

Section Process.

Context `{L : Lib} {W : Type} `{Sys : !System W}.

(** The checks of editImage on its arguments alone, before any file is
    read. *)
Definition edit_arguments_pass (args : gmap string any) : bool :=
  match args !! "image_path", args !! "prompt" with
  | Some (JString imagePath), Some (JString prompt) =>
    negb (String.eqb imagePath empty) && negb (String.eqb prompt empty)
    && negb (strings_Contains (filepath_Clean imagePath) "..")
  | _, _ => false
  end.

(** The operation the [switch] of handleCallTool runs for a tool name. *)
Definition tool_operation (s : Server) (name : string)
  : option (gmap string any -> M W (result CallToolResult)) :=
  if String.eqb name "generate_image" then Some (generateImage s)
  else if String.eqb name "edit_image" then Some (editImage s)
  else None.

(** *** NewServer; the client is the [System] instance. *)
Definition NewServer (outputDir : string) : Server :=
  {| outputDir := outputDir |}.

(** How the process ends: the status passed to [os.Exit] (0 when [main]
    returns) and what it wrote to standard error. *)
Record Exit : Type := {
  exit_status : Z;
  exit_stderr : string
}.

(** *** main, given the command line [os.Args], the error of
    [genai.NewClient] (nil when [None]) and standard input. *)
Definition main (args : list string) (clientErr : option error) (input : Stdin) : M W Exit :=
  match clientErr with
  | Some err =>
    ret {| exit_status := 1;
           exit_stderr :=
             "Failed to create Gemini client: " ++ error_Error err ++ nl |}
  | None =>
    let outputDir :=
      if (1 <? List.length args)%nat
      then match args !! 1%nat with Some arg => arg | None => empty end
      else defaultOutputDir in
    let server := NewServer outputDir in
    do err <- Run server input;
    match err with
    | Some err =>
      ret {| exit_status := 1;
             exit_stderr := "Server error: " ++ error_Error err ++ nl |}
    | None => ret {| exit_status := 0; exit_stderr := empty |}
    end
  end.

End Process.

(** What [time.Format] prints for the layout 2006-01-02T15-04-05:
    digits, hyphens and the letter T; no path separator and no dot. *)
Definition timestamp_char (c : ascii) : bool :=
  let n := nat_of_ascii c in
  ((48 <=? n) && (n <=? 57))%nat || Ascii.eqb c "-" || Ascii.eqb c "T".

Fixpoint is_timestamp (ts : string) : bool :=
  match ts with
  | EmptyString => true
  | String c rest => timestamp_char c && is_timestamp rest
  end.

(** An event that touches only what the server owns.  A call of
    [os.MkdirAll] is for [filepath.Join(".", dir)], with mode 0755.  A
    call of [os.WriteFile] has mode 0644 and its path is [filepath.Join]
    of that directory and the file name <prefix>-<ts>.png, for one of the
    two prefixes and [ts] a reading of the clock made of timestamp
    characters. *)
Definition stays_in_output_dir `{L : Lib} {W : Type} `{Sys : !System W}
    (dir : string) (e : Event) : Prop :=
  match e with
  | EvMkdirAll made perm =>
    made = filepath_Join "." dir /\ perm = perm_0755
  | EvWriteFile path _ perm =>
    perm = perm_0644 /\
    exists prefix (w : W),
      let ts := (time_Now_Format "2006-01-02T15-04-05" w).1 in
      prefix ∈ ["generated"; "edited"] /\
      is_timestamp ts = true /\
      path = filepath_Join (filepath_Join "." dir) (prefix ++ "-" ++ ts ++ ".png")
  | _ => True
  end.

(** The clock prints timestamps, whatever the world. *)
Definition clock_prints_timestamps `{Sys : System W} : Prop :=
  forall w : W, is_timestamp (time_Now_Format "2006-01-02T15-04-05" w).1 = true.

(** The output directory [main] passes to [NewServer]. *)
Definition output_dir_of (args : list string) : string :=
  match args with
  | _ :: dir :: _ => dir
  | _ => defaultOutputDir
  end.

(** A world like that of [Fixture] in which chosen calls fail: making the
    directory, writing the file, resolving the absolute path. *)
Module Faults.

Definition sys (mkdir write abs : option error) : System Fixture.World := {|
  client_GenerateContent := client_GenerateContent (System := Fixture.sys);
  os_ReadFile := os_ReadFile (System := Fixture.sys);
  os_MkdirAll := fun dir perm w =>
    match mkdir with
    | Some err => (Some err, w)
    | None => os_MkdirAll (System := Fixture.sys) dir perm w
    end;
  os_WriteFile := fun path data perm w =>
    match write with
    | Some err => (Some err, w)
    | None => os_WriteFile (System := Fixture.sys) path data perm w
    end;
  filepath_Abs := fun path w =>
    match abs with
    | Some err => (Err err, w)
    | None => filepath_Abs (System := Fixture.sys) path w
    end;
  time_Now_Format := time_Now_Format (System := Fixture.sys)
|}.

(** The world of [Fixture] with a clock that prints timestamps only: when
    the clock of the world does not hold one, it reads the zero time. *)
Definition zero_time : string := "0001-01-01T00-00-00".

Definition checked_clock : System Fixture.World := {|
  client_GenerateContent := client_GenerateContent (System := Fixture.sys);
  os_ReadFile := os_ReadFile (System := Fixture.sys);
  os_MkdirAll := os_MkdirAll (System := Fixture.sys);
  os_WriteFile := os_WriteFile (System := Fixture.sys);
  filepath_Abs := filepath_Abs (System := Fixture.sys);
  time_Now_Format := fun _ w =>
    (if is_timestamp (Fixture.clock w) then Fixture.clock w else zero_time, w)
|}.

End Faults.

(** ** The earlier variant of the server

    The second source file of the repository holds an earlier variant of
    [main.go]: the same dispatcher, but the service is reached by an HTTP
    request of the program's own ([callGemini]), the API key is a field
    of the server, paths are not cleaned, and images go to the fixed
    directory generated_imgs.  Its operations are embedded here with a
    monad and a trace of their own; the pure library functions and the
    file system are those of [Lib] and [System]. *)
Module Legacy.

(** *** Gemini API types *)

Record InlineData : Type := {
  inline_MimeType : string;
  inline_Data : string
}.

Record GeminiPart : Type := {
  gpart_Text : string;
  gpart_InlineData : option InlineData
}.

Record GeminiContent : Type := {
  gcontent_Parts : list GeminiPart
}.

Record GenerationConfig : Type := {
  config_ResponseModalities : list string
}.

Record GeminiRequest : Type := {
  grequest_Contents : list GeminiContent;
  grequest_GenerationConfig : option GenerationConfig
}.

Record GeminiCandidate : Type := {
  gcandidate_Content : GeminiContent
}.

Record GeminiResponse : Type := {
  gresponse_Candidates : list GeminiCandidate
}.

(** The [Server] struct of this variant. *)
Record Server : Type := {
  apiKey : string
}.

(** What the program reads of an [*http.Response]; its body is read from
    the world. *)
Record HTTPResponse : Type := {
  StatusCode : Z
}.

Definition http_StatusOK : Z := 200.

(** *** The outside world *)

Inductive Event : Type :=
| LPost (url contentType body : string)     (* http.Post *)
| LReadAll                                  (* io.ReadAll(resp.Body) *)
| LClose                                    (* resp.Body.Close() *)
| LReadFile (path : string)
| LMkdirAll (dir : string) (perm : N)
| LNow
| LWriteFile (path : string) (data : bytes) (perm : N)
| LAbs (path : string).

(** encoding/json on the types of the Gemini API. *)
Class Json : Type := {
  json_Marshal_request : GeminiRequest -> result string;
  json_Unmarshal_response : string -> result GeminiResponse
}.

(** net/http on the world. *)
Class Net (W : Type) : Type := {
  http_Post : string -> string -> string -> W -> result HTTPResponse * W;
  io_ReadAll : HTTPResponse -> W -> result string * W
}.

Record Outcome (W A : Type) : Type := Out {
  res : Res A;
  final : W;
  events : list Event
}.
Arguments Out {W A} res final events.
Arguments res {W A} _.
Arguments final {W A} _.
Arguments events {W A} _.

Definition M (W A : Type) : Type := W -> Outcome W A.

Definition ret {W A} (a : A) : M W A := fun w => Out (Val a) w [].

Definition bind {W A B} (m : M W A) (k : A -> M W B) : M W B :=
  fun w =>
    match m w with
    | Out (Val a) w1 t1 =>
      match k a w1 with
      | Out r w2 t2 => Out r w2 (t1 ++ t2)
      end
    | Out (Panic msg) w1 t1 => Out (Panic msg) w1 t1
    end.

Definition log {W} (e : Event) : M W unit := fun w => Out (Val tt) w [e].

Definition call {W A} (e : Event) (f : W -> A * W) : M W A :=
  fun w => let (a, w1) := f w in Out (Val a) w1 [e].

Declare Scope legacy_scope.
Notation "'do' x <- m ; k" := (bind m (fun x => k))
  (at level 10, x name, m at level 100, k at level 200) : legacy_scope.
Notation "m ;; k" := (bind m (fun _ => k))
  (at level 100, k at level 200, right associativity) : legacy_scope.
Local Open Scope legacy_scope.

Section Operations.

Context `{L : Lib} `{J : Json} {W : Type} `{Sys : !System W} `{N : !Net W}.

(** *** The extraction loops of callGemini

    [for _, candidate := range geminiResp.Candidates] and, inside it,
    [for _, part := range candidate.Content.Parts], with the two named
    results as accumulators. *)
Fixpoint extract_parts (parts : list GeminiPart) (imageData textResponse : string)
  : string * string :=
  match parts with
  | [] => (imageData, textResponse)
  | part :: rest =>
    let imageData :=
      match gpart_InlineData part with
      | Some inline =>
        if negb (String.eqb (inline_Data inline) empty)
        then inline_Data inline else imageData
      | None => imageData
      end in
    let textResponse :=
      if negb (String.eqb (gpart_Text part) empty)
      then textResponse ++ gpart_Text part else textResponse in
    extract_parts rest imageData textResponse
  end.

Fixpoint extract_candidates (candidates : list GeminiCandidate)
    (imageData textResponse : string) : string * string :=
  match candidates with
  | [] => (imageData, textResponse)
  | candidate :: rest =>
    let (imageData, textResponse) :=
      extract_parts (gcontent_Parts (gcandidate_Content candidate))
        imageData textResponse in
    extract_candidates rest imageData textResponse
  end.

(** The request body of callGemini. *)
Definition request_body (prompt : string) (sourceImage : option InlineData) : GeminiRequest :=
  let parts := [] in
  let parts :=
    match sourceImage with
    | Some image =>
      (parts ++ [ {| gpart_Text := empty; gpart_InlineData := Some image |} ])%list
    | None => parts
    end in
  let parts :=
    (parts ++ [ {| gpart_Text := prompt; gpart_InlineData := None |} ])%list in
  {| grequest_Contents := [ {| gcontent_Parts := parts |} ];
     grequest_GenerationConfig := None |}.

Definition endpoint : string :=
  "https://generativelanguage.googleapis.com/v1beta/models/gemini-2.0-flash-exp:generateContent?key=".

(** *** callGemini; the deferred [resp.Body.Close()] runs when the
    function returns, after the result is computed. *)
Definition callGemini (s : Server) (prompt : string) (sourceImage : option InlineData)
  : M W (result (string * string)) :=
  let reqBody := request_body prompt sourceImage in
  match json_Marshal_request reqBody with
  | Err err => ret (Err (fmt_Errorf_w "failed to marshal request: " err))
  | Ok jsonData =>
    let url := endpoint ++ apiKey s in
    do posted <- call (LPost url "application/json" jsonData)
                      (http_Post url "application/json" jsonData);
    match posted with
    | Err err => ret (Err (fmt_Errorf_w "API request failed: " err))
    | Ok resp =>
      do returned <-
        (do read <- call LReadAll (io_ReadAll resp);
         match read with
         | Err err => ret (Err (fmt_Errorf_w "failed to read response: " err))
         | Ok body =>
           if negb (Z.eqb (StatusCode resp) http_StatusOK) then
             ret (Err (fmt_Errorf
                         ("API error (status " ++ pretty (StatusCode resp)
                          ++ "): " ++ body)))
           else
             match json_Unmarshal_response body with
             | Err err =>
               ret (Err (fmt_Errorf_w "failed to parse response: " err))
             | Ok geminiResp =>
               ret (Ok (extract_candidates (gresponse_Candidates geminiResp)
                          empty empty))
             end
         end);
      log LClose ;;
      ret returned
    end
  end.

(** *** saveImage; the error of [filepath.Abs] is dropped, and with it
    the path, which is then empty. *)
Definition saveImage (s : Server) (base64Data prefix : string) : M W (result string) :=
  let dir := filepath_Join "." "generated_imgs" in
  do err <- call (LMkdirAll dir perm_0755) (os_MkdirAll dir perm_0755);
  match err with
  | Some err => ret (Err err)
  | None =>
    do timestamp <- call LNow (time_Now_Format "2006-01-02T15-04-05");
    let filename := prefix ++ "-" ++ timestamp ++ ".png" in
    let filePath := filepath_Join dir filename in
    match base64_DecodeString base64Data with
    | Err err => ret (Err err)
    | Ok imageBytes =>
      do err <- call (LWriteFile filePath imageBytes perm_0644)
                     (os_WriteFile filePath imageBytes perm_0644);
      match err with
      | Some err => ret (Err err)
      | None =>
        do abs <- call (LAbs filePath) (filepath_Abs filePath);
        match abs with
        | Err _ => ret (Ok empty)
        | Ok absPath => ret (Ok absPath)
        end
      end
    end
  end.

(** What both operations do with the answer of callGemini. *)
Definition no_key : error :=
  fmt_Errorf "GEMINI_API_KEY environment variable not set".

(** *** generateImage *)
Definition generateImage (s : Server) (args : gmap string any) : M W (result CallToolResult) :=
  if String.eqb (apiKey s) empty then ret (Err no_key)
  else
  let (prompt, ok) := assert_string (args !! "prompt") in
  if negb ok || String.eqb prompt empty then
    ret (Err (fmt_Errorf "prompt is required"))
  else
    do called <- callGemini s prompt None;
    match called with
    | Err err => ret (Err err)
    | Ok (imageData, textResponse) =>
      if String.eqb imageData empty then
        let msg := "No image was generated." in
        let msg := if negb (String.eqb textResponse empty)
                   then msg ++ nl ++ nl ++ "Model response: " ++ textResponse
                   else msg in
        ret (Ok {| call_Content := [text_content msg]; call_IsError := false |})
      else
        do saved <- saveImage s imageData "generated";
        match saved with
        | Err err => ret (Err (fmt_Errorf_w "failed to save image: " err))
        | Ok filePath =>
          let content :=
            [ text_content ("Image generated and saved to: " ++ filePath
                            ++ nl ++ nl ++ "Prompt: " ++ prompt);
              image_content imageData "image/png" ] in
          ret (Ok {| call_Content := content; call_IsError := false |})
        end
    end.

(** *** editImage *)
Definition editImage (s : Server) (args : gmap string any) : M W (result CallToolResult) :=
  if String.eqb (apiKey s) empty then ret (Err no_key)
  else
  let (imagePath, ok) := assert_string (args !! "image_path") in
  if negb ok || String.eqb imagePath empty then
    ret (Err (fmt_Errorf "image_path is required"))
  else
  let (prompt, ok) := assert_string (args !! "prompt") in
  if negb ok || String.eqb prompt empty then
    ret (Err (fmt_Errorf "prompt is required"))
  else
  do read <- call (LReadFile imagePath) (os_ReadFile imagePath);
  match read with
  | Err err => ret (Err (fmt_Errorf_w "failed to read image: " err))
  | Ok imageBytes =>
    let sourceImage :=
      {| inline_MimeType := getMimeType imagePath;
         inline_Data := base64_EncodeToString imageBytes |} in
    do called <- callGemini s prompt (Some sourceImage);
    match called with
    | Err err => ret (Err err)
    | Ok (imageData, textResponse) =>
      if String.eqb imageData empty then
        let msg := "No edited image was generated." in
        let msg := if negb (String.eqb textResponse empty)
                   then msg ++ nl ++ nl ++ "Model response: " ++ textResponse
                   else msg in
        ret (Ok {| call_Content := [text_content msg]; call_IsError := false |})
      else
        do saved <- saveImage s imageData "edited";
        match saved with
        | Err err => ret (Err (fmt_Errorf_w "failed to save image: " err))
        | Ok filePath =>
          let content :=
            [ text_content ("Image edited and saved to: " ++ filePath
                            ++ nl ++ nl ++ "Original: " ++ imagePath
                            ++ nl ++ "Prompt: " ++ prompt);
              image_content imageData "image/png" ] in
          ret (Ok {| call_Content := content; call_IsError := false |})
        end
    end
  end.

End Operations.

(** The image a part contributes, and the text of all parts. *)
Definition image_of (part : GeminiPart) : option string :=
  match gpart_InlineData part with
  | Some inline =>
    if String.eqb (inline_Data inline) empty then None
    else Some (inline_Data inline)
  | None => None
  end.

Definition texts_of (parts : list GeminiPart) : string :=
  foldr (fun part acc => gpart_Text part ++ acc) empty parts.

(** All parts of all candidates, in order. *)
Definition all_parts (candidates : list GeminiCandidate) : list GeminiPart :=
  candidates ≫= (fun candidate => gcontent_Parts (gcandidate_Content candidate)).

End Legacy.

(** A concrete world for the earlier variant: the world of [Fixture] and
    the answers the HTTP endpoint will give, each a failure to connect or
    a status with the outcome of reading the body. *)
Module LegacyFixture.

Definition Answer : Type := result (Z * result string).

Definition World : Type := Fixture.World * list Answer.

(** The file system and clock of [S], on the first component. *)
Definition sys (S : System Fixture.World) : System World := {|
  client_GenerateContent := fun model contents '(w, answers) =>
    let (r, w1) := client_GenerateContent (System := S) model contents w in
    (r, (w1, answers));
  os_ReadFile := fun path '(w, answers) =>
    let (r, w1) := os_ReadFile (System := S) path w in (r, (w1, answers));
  os_MkdirAll := fun dir perm '(w, answers) =>
    let (r, w1) := os_MkdirAll (System := S) dir perm w in (r, (w1, answers));
  os_WriteFile := fun path data perm '(w, answers) =>
    let (r, w1) := os_WriteFile (System := S) path data perm w in
    (r, (w1, answers));
  filepath_Abs := fun path '(w, answers) =>
    let (r, w1) := filepath_Abs (System := S) path w in (r, (w1, answers));
  time_Now_Format := fun layout '(w, answers) =>
    let (r, w1) := time_Now_Format (System := S) layout w in
    (r, (w1, answers))
|}.

Definition net : Legacy.Net World := {|
  Legacy.http_Post := fun _ _ _ '(w, answers) =>
    match answers with
    | [] => (Err (errorString "connection refused"), (w, []))
    | Err err :: rest => (Err err, (w, rest))
    | Ok (status, _) :: _ =>
      (Ok {| Legacy.StatusCode := status |}, (w, answers))
    end;
  Legacy.io_ReadAll := fun _ '(w, answers) =>
    match answers with
    | Ok (_, body) :: rest => (body, (w, rest))
    | _ => (Err (errorString "unexpected EOF"), (w, answers))
    end
|}.

(** encoding/json on the texts of the examples. *)
Definition body_generate : string :=
  Fixture.dq "{'contents':[{'parts':[{'text':'a red fox'}]}]}".
Definition body_edit : string :=
  Fixture.dq "{'contents':[{'parts':[{'inlineData':{'mimeType':'image/png','data':'UE5H'}},{'text':'add a hat'}]}]}".
Definition body_no_candidates : string := Fixture.dq "{'candidates':[]}".
Definition body_quota : string :=
  Fixture.dq "{'error':{'code':429,'status':'RESOURCE_EXHAUSTED'}}".

Definition json : Legacy.Json := {|
  Legacy.json_Marshal_request := fun request =>
    match request with
    | {| Legacy.grequest_Contents :=
           [ {| Legacy.gcontent_Parts := [_] |} ] |} => Ok body_generate
    | _ => Ok body_edit
    end;
  Legacy.json_Unmarshal_response := fun body =>
    if String.eqb body body_no_candidates
    then Ok {| Legacy.gresponse_Candidates := [] |}
    else Err (errorString "invalid character")
|}.

Definition server : Legacy.Server := {| Legacy.apiKey := "k3y" |}.

End LegacyFixture.

(** ** The dispatcher *)

Section Dispatcher.

Context `{L : Lib} {W : Type} `{Sys : !System W}.

(** C2. handleRequest routes by method name: each of the four known methods
    takes its own branch (the handler's response, or no response for the
    notification), and any other method is answered with the error
    -32601 "Method not found" carrying the request's ID. *)
Theorem handleRequest_routes (s : Server) (req : JSONRPCRequest) :
  (req_Method req = "initialize" /\
   handleRequest s req = ret (Some (handleInitialize s req))) \/
  (req_Method req = "notifications/initialized" /\
   handleRequest s req = ret None) \/
  (req_Method req = "tools/list" /\
   handleRequest s req = ret (Some (handleListTools s req))) \/
  (req_Method req = "tools/call" /\
   handleRequest s req = (do resp <- handleCallTool s req; ret (Some resp))) \/
  ((req_Method req ∉
      ["initialize"; "notifications/initialized"; "tools/list"; "tools/call"]) /\
   handleRequest s req =
     ret (Some {| resp_JSONRPC := "2.0";
                  resp_ID := req_ID req;
                  resp_Result := None;
                  resp_Error := Some {| err_Code := -32601;
                                        err_Message := "Method not found" |} |})).
Proof.
  unfold handleRequest.
  destruct (String.eqb_spec (req_Method req) "initialize") as [?|N1];
    [by left|right].
  destruct (String.eqb_spec (req_Method req) "notifications/initialized")
    as [?|N2]; [by left|right].
  destruct (String.eqb_spec (req_Method req) "tools/list") as [?|N3];
    [by left|right].
  destruct (String.eqb_spec (req_Method req) "tools/call") as [?|N4];
    [by left|right].
  split; [|done].
  rewrite !elem_of_cons, elem_of_nil. tauto.
Qed.

(** C3, as amended. A tools/call request whose params do not decode is
    answered with the error -32602 "Invalid params"; one whose params
    decode runs exactly the operation it names, generate_image or
    edit_image, and any other name is answered with the error -32601
    "Unknown tool: <name>"; tools/list advertises these two tools and no
    other. *)
Theorem handleCallTool_dispatch (s : Server) (req : JSONRPCRequest) :
  match json_Unmarshal_params (req_Params req) with
  | None =>
    handleCallTool s req =
      ret {| resp_JSONRPC := "2.0";
             resp_ID := req_ID req;
             resp_Result := None;
             resp_Error := Some {| err_Code := -32602;
                                   err_Message := "Invalid params" |} |}
  | Some params =>
    (params_Name params = "generate_image" /\
     handleCallTool s req =
       (do r <- generateImage s (params_Arguments params);
        ret (tool_response req r))) \/
    (params_Name params = "edit_image" /\
     handleCallTool s req =
       (do r <- editImage s (params_Arguments params);
        ret (tool_response req r))) \/
    (params_Name params <> "generate_image" /\
     params_Name params <> "edit_image" /\
     handleCallTool s req =
       ret {| resp_JSONRPC := "2.0";
              resp_ID := req_ID req;
              resp_Result := None;
              resp_Error :=
                Some {| err_Code := -32601;
                        err_Message := "Unknown tool: " ++ params_Name params |} |})
  end /\
  exists advertised,
    resp_Result (handleListTools s req) = Some (ResListTools advertised) /\
    tool_Name <$> list_Tools advertised = ["generate_image"; "edit_image"].
Proof.
  split; [|by eexists].
  unfold handleCallTool.
  destruct (json_Unmarshal_params (req_Params req)) as [params|]; [|done].
  destruct (String.eqb_spec (params_Name params) "generate_image") as [?|N1];
    [by left|right].
  destruct (String.eqb_spec (params_Name params) "edit_image") as [?|N2];
    [by left|right].
  done.
Qed.

(** C4. When the operation a tools/call request names returns an error,
    the reply carries a Result and no Error; the result has IsError set
    and one text element, "Error: " followed by the error's message. *)
Theorem tool_error_reply (s : Server) (req : JSONRPCRequest)
    (params : CallToolParams) (err : error) (w w' : W) (t : list Event) :
  req_Method req = "tools/call" ->
  json_Unmarshal_params (req_Params req) = Some params ->
  (params_Name params = "generate_image" /\
   generateImage s (params_Arguments params) w = Out (Val (Err err)) w' t) \/
  (params_Name params = "edit_image" /\
   editImage s (params_Arguments params) w = Out (Val (Err err)) w' t) ->
  handleRequest s req w =
    Out (Val (Some
      {| resp_JSONRPC := "2.0";
         resp_ID := req_ID req;
         resp_Result := Some (ResCallTool
           {| call_Content :=
                [ {| content_Type := "text";
                     content_Text := "Error: " ++ error_Error err;
                     content_Data := empty;
                     content_MimeType := empty |} ];
              call_IsError := true |});
         resp_Error := None |})) w' t.
Proof.
  intros Hmethod Hparams Htool.
  unfold handleRequest, handleCallTool. rewrite Hmethod, Hparams. simpl.
  destruct Htool as [[Hname Hrun]|[Hname Hrun]]; rewrite Hname; simpl;
    unfold bind; rewrite Hrun; simpl; by rewrite !app_nil_r.
Qed.

End Dispatcher.

(** C3, counterexample. The line
    [{"jsonrpc":"2.0","id":5,"method":"tools/call"}] decodes to a
    tools/call request without params; it reaches neither operation and
    is not an unknown tool: the reply is the error -32602 "Invalid
    params", with no result. *)
Lemma tools_call_without_params :
  Fixture.Unmarshal_request Fixture.line_call_no_params =
    Some (Fixture.request (JNumber "5") "tools/call" empty) /\
  handleRequest (L := Fixture.lib) (Sys := Fixture.sys) Fixture.server
      (Fixture.request (JNumber "5") "tools/call" empty) (Fixture.world0 []) =
    Out (Val (Some
      {| resp_JSONRPC := "2.0";
         resp_ID := JNumber "5";
         resp_Result := None;
         resp_Error := Some {| err_Code := -32602;
                               err_Message := "Invalid params" |} |}))
      (Fixture.world0 []) [].
Proof. split; reflexivity. Qed.

(** C4, witness: generate_image called without a prompt. *)
Lemma tool_error_reply_witness :
  handleRequest (L := Fixture.lib) (Sys := Fixture.sys) Fixture.server
      (Fixture.request (JNumber "7") "tools/call" Fixture.params_generate_no_prompt)
      (Fixture.world0 []) =
    Out (Val (Some
      {| resp_JSONRPC := "2.0";
         resp_ID := JNumber "7";
         resp_Result := Some (ResCallTool
           {| call_Content :=
                [ {| content_Type := "text";
                     content_Text := "Error: prompt is required";
                     content_Data := empty;
                     content_MimeType := empty |} ];
              call_IsError := true |});
         resp_Error := None |})) (Fixture.world0 []) [].
Proof.
  apply (tool_error_reply (L := Fixture.lib) (Sys := Fixture.sys)
           Fixture.server
           (Fixture.request (JNumber "7") "tools/call"
              Fixture.params_generate_no_prompt)
           {| params_Name := "generate_image"; params_Arguments := ∅ |}
           (errorString "prompt is required")).
  - reflexivity.
  - reflexivity.
  - left. split; reflexivity.
Defined.

(** ** The two operations and the save step *)

Section Tools.

Context `{L : Lib} {W : Type} `{Sys : !System W}.

Lemma emits_ret {A} (P : Event -> Prop) (a : A) : emits (W := W) P (ret a).
Proof. intros w. constructor. Qed.

Lemma emits_lift {A} (P : Event -> Prop) (r : Res A) : emits (W := W) P (lift r).
Proof. intros w. constructor. Qed.

Lemma emits_call {A} (P : Event -> Prop) (e : Event) (f : W -> A * W) :
  P e -> emits P (call e f).
Proof. intros He w. unfold call. destruct (f w). by repeat constructor. Qed.

Lemma emits_bind {A B} (P : Event -> Prop) (m : M W A) (k : A -> M W B) :
  emits P m -> (forall a, emits P (k a)) -> emits P (bind m k).
Proof.
  intros Hm Hk w. unfold bind. specialize (Hm w).
  destruct (m w) as [[a|msg] w1 t1]; simpl in *; [|done].
  specialize (Hk a w1). destruct (k a w1) as [r w2 t2]; simpl in *.
  by apply Forall_app.
Qed.

Ltac emits_tool HP :=
  repeat first
    [ apply emits_ret
    | apply emits_lift
    | apply emits_call; [by apply HP]
    | apply emits_bind; [|intros ?]
    | case_match ].

(** saveImage neither calls the service nor touches the standard streams. *)
Lemma saveImage_emits (P : Event -> Prop) (s : Server) (data prefix : string) :
  (forall e, is_tool_event e = true -> is_api_call e = false -> P e) ->
  emits P (saveImage s data prefix).
Proof. intros HP. unfold saveImage. emits_tool HP. Qed.

(** The operations add tool events only. *)
Lemma generateImage_emits (P : Event -> Prop) (s : Server) (args : gmap string any) :
  (forall e, is_tool_event e = true -> P e) -> emits P (generateImage s args).
Proof.
  intros HP. unfold generateImage.
  repeat first
    [ apply saveImage_emits; by intros; apply HP | progress emits_tool HP ].
Qed.

Lemma editImage_emits (P : Event -> Prop) (s : Server) (args : gmap string any) :
  (forall e, is_tool_event e = true -> P e) -> emits P (editImage s args).
Proof.
  intros HP. unfold editImage.
  repeat first
    [ apply saveImage_emits; by intros; apply HP | progress emits_tool HP ].
Qed.

Lemma api_calls_app (t1 t2 : list Event) :
  api_calls (t1 ++ t2) = api_calls t1 + api_calls t2.
Proof. unfold api_calls. by rewrite List.filter_app, length_app. Qed.

Lemma api_calls_none (t : list Event) :
  Forall (fun e => is_api_call e = false) t -> api_calls t = 0.
Proof.
  unfold api_calls. induction 1 as [|e t He _ IH]; [done|].
  simpl. by rewrite He.
Qed.

(** A save step that the world lets through. *)
Lemma saveImage_ok (s : Server) (data prefix ts absPath : string)
    (imageBytes : bytes) (w w' : W) :
  save_succeeds s prefix data ts imageBytes absPath w w' ->
  saveImage s data prefix w =
    Out (Val (Ok absPath)) w' (save_events s prefix ts imageBytes).
Proof.
  intros (w1 & w2 & w3 & Hmk & Hnow & Hdec & Hwr & Habs).
  unfold save_path in *.
  unfold saveImage, bind, call. rewrite Hmk. simpl.
  rewrite Hnow. simpl. rewrite Hdec. simpl. rewrite Hwr. simpl.
  rewrite Habs. reflexivity.
Qed.

Lemma events_bind {A B} (m : M W A) (k : A -> M W B) (w : W) :
  events (bind m k w) =
    (events (m w) ++
     match res (m w) with
     | Val a => events (k a (final (m w)))
     | Panic _ => []
     end)%list.
Proof.
  unfold bind. destruct (m w) as [[a|msg] w1 t1]; simpl.
  - by destruct (k a w1).
  - by rewrite app_nil_r.
Qed.

Lemma call_outcome {A} (e : Event) (f : W -> A * W) (w : W) :
  call e f w = Out (Val (f w).1) (f w).2 [e].
Proof. unfold call. by destruct (f w). Qed.

(** generateImage calls the service once when the prompt passes its
    check, and not at all otherwise. *)
Lemma generateImage_api_calls (s : Server) (args : gmap string any) (w : W) :
  api_calls (events (generateImage s args w)) =
    if generate_reaches_service args then 1 else 0.
Proof.
  unfold generate_reaches_service, generateImage, assert_string.
  destruct (args !! "prompt") as [[| | |prompt| |]|]; simpl; try done.
  destruct (String.eqb prompt empty); simpl; [done|].
  rewrite events_bind, api_calls_app, call_outcome. simpl.
  destruct (client_GenerateContent _ _ w) as [[result|err] w1]; simpl; [|done].
  unfold api_calls at 1. simpl. f_equal.
  apply api_calls_none.
  apply (emits_bind (fun e => is_api_call e = false)); [apply emits_lift|].
  intros [imageData textResponse]. case_match; [apply emits_ret|].
  apply emits_bind; [by apply saveImage_emits|].
  intros [?|?]; apply emits_ret.
Qed.

(** editImage calls the service once when both arguments pass their
    checks, the cleaned path has no ".." and the file is read, and not at
    all otherwise. *)
Lemma editImage_api_calls (s : Server) (args : gmap string any) (w : W) :
  api_calls (events (editImage s args w)) =
    if edit_reaches_service args w then 1 else 0.
Proof.
  unfold edit_reaches_service, editImage, assert_string.
  destruct (args !! "image_path") as [[| | |imagePath| |]|]; simpl; try done.
  destruct (String.eqb imagePath empty); simpl; [by repeat case_match|].
  destruct (args !! "prompt") as [[| | |prompt| |]|]; simpl; try done.
  destruct (String.eqb prompt empty); simpl; [done|].
  destruct (strings_Contains _ ".."); simpl; [done|].
  rewrite events_bind, api_calls_app, call_outcome. simpl.
  destruct (os_ReadFile _ w) as [[imageBytes|err] w0]; simpl; [|done].
  rewrite events_bind, api_calls_app, call_outcome. simpl.
  destruct (client_GenerateContent _ _ w0) as [[result|err] w1]; simpl; [|done].
  f_equal.
  apply api_calls_none.
  apply (emits_bind (fun e => is_api_call e = false)); [apply emits_lift|].
  intros [imageData textResponse]. case_match; [apply emits_ret|].
  apply emits_bind; [by apply saveImage_emits|].
  intros [?|?]; apply emits_ret.
Qed.

Lemma eqb_empty_false (x : string) : x <> empty -> String.eqb x empty = false.
Proof. intros. by apply String.eqb_neq. Qed.

(** generateImage when the call returns image data and the save goes
    through. *)
Lemma generateImage_saves (s : Server) (args : gmap string any)
    (prompt imageData textResponse ts absPath : string)
    (result : GenerateContentResponse) (imageBytes : bytes) (w w1 w' : W) :
  args !! "prompt" = Some (JString prompt) -> prompt <> empty ->
  client_GenerateContent geminiModel (genai_Text prompt) w = (Ok result, w1) ->
  extract_response result = Val (imageData, textResponse) ->
  imageData <> empty ->
  save_succeeds s "generated" imageData ts imageBytes absPath w1 w' ->
  generateImage s args w =
    Out (Val (Ok
      {| call_Content :=
           [ text_content ("Image generated and saved to: " ++ absPath
                           ++ nl ++ nl ++ "Prompt: " ++ prompt);
             image_content imageData "image/png" ];
         call_IsError := false |})) w'
      (EvGenerateContent geminiModel (genai_Text prompt)
       :: save_events s "generated" ts imageBytes).
Proof.
  intros Hprompt Hne Hcall Hextract Himage Hsave.
  unfold generateImage, assert_string. rewrite Hprompt. simpl.
  rewrite (eqb_empty_false _ Hne). simpl.
  unfold bind at 1, call. rewrite Hcall. simpl.
  unfold bind at 1, lift. rewrite Hextract. simpl.
  rewrite (eqb_empty_false _ Himage).
  unfold bind. by rewrite (saveImage_ok _ _ _ _ _ _ _ _ Hsave).
Qed.

(** editImage when the file is read, the call returns image data and the
    save goes through. *)
Lemma editImage_saves (s : Server) (args : gmap string any)
    (imagePath prompt imageData textResponse ts absPath : string)
    (result : GenerateContentResponse) (source imageBytes : bytes)
    (w w0 w1 w' : W) :
  args !! "image_path" = Some (JString imagePath) -> imagePath <> empty ->
  args !! "prompt" = Some (JString prompt) -> prompt <> empty ->
  strings_Contains (filepath_Clean imagePath) ".." = false ->
  os_ReadFile (filepath_Clean imagePath) w = (Ok source, w0) ->
  client_GenerateContent geminiModel
    (edit_contents (filepath_Clean imagePath) prompt source) w0 = (Ok result, w1) ->
  extract_response result = Val (imageData, textResponse) ->
  imageData <> empty ->
  save_succeeds s "edited" imageData ts imageBytes absPath w1 w' ->
  editImage s args w =
    Out (Val (Ok
      {| call_Content :=
           [ text_content ("Image edited and saved to: " ++ absPath
                           ++ nl ++ nl ++ "Original: " ++ imagePath
                           ++ nl ++ "Prompt: " ++ prompt);
             image_content imageData "image/png" ];
         call_IsError := false |})) w'
      (EvReadFile (filepath_Clean imagePath)
       :: EvGenerateContent geminiModel
            (edit_contents (filepath_Clean imagePath) prompt source)
       :: save_events s "edited" ts imageBytes).
Proof.
  intros Hpath Hpne Hprompt Hne Hclean Hread Hcall Hextract Himage Hsave.
  unfold editImage, assert_string. rewrite Hpath. simpl.
  rewrite (eqb_empty_false _ Hpne). simpl. rewrite Hprompt. simpl.
  rewrite (eqb_empty_false _ Hne). simpl. rewrite Hclean.
  unfold bind at 1, call at 1. rewrite Hread. simpl.
  unfold edit_contents in Hcall.
  unfold bind at 1, call. rewrite Hcall. simpl.
  unfold bind at 1, lift. rewrite Hextract. simpl.
  rewrite (eqb_empty_false _ Himage).
  unfold bind. by rewrite (saveImage_ok _ _ _ _ _ _ _ _ Hsave).
Qed.

(** The extraction step indexes the candidate list at 0 without a check. *)
Lemma extract_response_no_candidates (result : GenerateContentResponse) :
  gen_Candidates result = [] ->
  extract_response result = Panic index_out_of_range.
Proof. unfold extract_response, first_candidate_parts. by intros ->. Qed.

(** Whatever the world, generateImage panics when the call returns a
    response without candidates; the call is its only event. *)
Lemma generateImage_no_candidates (s : Server) (args : gmap string any)
    (prompt : string) (result : GenerateContentResponse) (w w1 : W) :
  args !! "prompt" = Some (JString prompt) -> prompt <> empty ->
  client_GenerateContent geminiModel (genai_Text prompt) w = (Ok result, w1) ->
  gen_Candidates result = [] ->
  generateImage s args w =
    Out (Panic index_out_of_range) w1
      [EvGenerateContent geminiModel (genai_Text prompt)].
Proof.
  intros Hprompt Hne Hcall Hnone.
  unfold generateImage, assert_string. rewrite Hprompt. simpl.
  rewrite (eqb_empty_false _ Hne). simpl.
  unfold bind at 1, call. rewrite Hcall. simpl.
  unfold bind, lift. by rewrite (extract_response_no_candidates _ Hnone).
Qed.

(** C6, as amended. An invocation calls the remote service at most once:
    once when its arguments pass the checks (and, for edit_image, the
    source file is read), never otherwise.  When the call returns a
    response whose first candidate yields image data and the world lets
    the save step through, the invocation consists of that one call
    followed by one save step: the output directory is made, the decoded
    bytes are written once, to <prefix>-<timestamp>.png under the output
    directory, and the result text reports the absolute path. *)
Theorem tool_call_then_save (s : Server) (args : gmap string any) (w : W) :
  api_calls (events (generateImage s args w)) =
    (if generate_reaches_service args then 1 else 0) /\
  api_calls (events (editImage s args w)) =
    (if edit_reaches_service args w then 1 else 0) /\
  (forall (prompt imageData textResponse ts absPath : string)
          (result : GenerateContentResponse) (imageBytes : bytes) (w1 w' : W),
     args !! "prompt" = Some (JString prompt) -> prompt <> empty ->
     client_GenerateContent geminiModel (genai_Text prompt) w = (Ok result, w1) ->
     extract_response result = Val (imageData, textResponse) ->
     imageData <> empty ->
     save_succeeds s "generated" imageData ts imageBytes absPath w1 w' ->
     generateImage s args w =
       Out (Val (Ok
         {| call_Content :=
              [ text_content ("Image generated and saved to: " ++ absPath
                              ++ nl ++ nl ++ "Prompt: " ++ prompt);
                image_content imageData "image/png" ];
            call_IsError := false |})) w'
         (EvGenerateContent geminiModel (genai_Text prompt)
          :: save_events s "generated" ts imageBytes)) /\
  (forall (imagePath prompt imageData textResponse ts absPath : string)
          (result : GenerateContentResponse) (source imageBytes : bytes)
          (w0 w1 w' : W),
     args !! "image_path" = Some (JString imagePath) -> imagePath <> empty ->
     args !! "prompt" = Some (JString prompt) -> prompt <> empty ->
     strings_Contains (filepath_Clean imagePath) ".." = false ->
     os_ReadFile (filepath_Clean imagePath) w = (Ok source, w0) ->
     client_GenerateContent geminiModel
       (edit_contents (filepath_Clean imagePath) prompt source) w0
       = (Ok result, w1) ->
     extract_response result = Val (imageData, textResponse) ->
     imageData <> empty ->
     save_succeeds s "edited" imageData ts imageBytes absPath w1 w' ->
     editImage s args w =
       Out (Val (Ok
         {| call_Content :=
              [ text_content ("Image edited and saved to: " ++ absPath
                              ++ nl ++ nl ++ "Original: " ++ imagePath
                              ++ nl ++ "Prompt: " ++ prompt);
                image_content imageData "image/png" ];
            call_IsError := false |})) w'
         (EvReadFile (filepath_Clean imagePath)
          :: EvGenerateContent geminiModel
               (edit_contents (filepath_Clean imagePath) prompt source)
          :: save_events s "edited" ts imageBytes)).
Proof.
  split; [apply generateImage_api_calls|].
  split; [apply editImage_api_calls|].
  split; intros.
  - by eapply generateImage_saves.
  - by eapply editImage_saves.
Qed.

(** C9, as amended. When both arguments are non-empty strings and the
    cleaned image_path still contains "..", editImage returns the
    directory-traversal error, adds no event (no file is read or written,
    the service is not called) and leaves the world as it was. *)
Theorem editImage_rejects_traversal (s : Server) (args : gmap string any)
    (imagePath prompt : string) (w : W) :
  args !! "image_path" = Some (JString imagePath) -> imagePath <> empty ->
  args !! "prompt" = Some (JString prompt) -> prompt <> empty ->
  strings_Contains (filepath_Clean imagePath) ".." = true ->
  editImage s args w =
    Out (Val (Err (errorString
      "invalid image path: directory traversal not allowed"))) w [].
Proof.
  intros Hpath Hpne Hprompt Hne Hdots.
  unfold editImage, assert_string. rewrite Hpath. simpl.
  rewrite (eqb_empty_false _ Hpne). simpl. rewrite Hprompt. simpl.
  rewrite (eqb_empty_false _ Hne). simpl. by rewrite Hdots.
Qed.

End Tools.

(** C6, counterexample: generate_image without a prompt returns its error
    without any outbound call, although the service had an image ready. *)
Lemma generate_without_prompt_makes_no_call :
  generateImage (L := Fixture.lib) (Sys := Fixture.sys) Fixture.server ∅
      (Fixture.world0 [Fixture.reply [Fixture.image_part Fixture.png]]) =
    Out (Val (Err (errorString "prompt is required")))
      (Fixture.world0 [Fixture.reply [Fixture.image_part Fixture.png]]) [] /\
  api_calls (events
    (generateImage (L := Fixture.lib) (Sys := Fixture.sys) Fixture.server ∅
       (Fixture.world0 [Fixture.reply [Fixture.image_part Fixture.png]]))) = 0.
Proof. split; reflexivity. Qed.

(** C6, witness: generate_image with a prompt, and edit_image of
    in/cat.png, the service returning one image each time: one call, then
    the file generated/<prefix>-<timestamp>.png is written and its
    absolute path reported. *)
Lemma tool_call_then_save_witness :
  Fixture.generate {[ "prompt" := JString "a red fox" ]}
      (Fixture.world0 [Fixture.reply [Fixture.image_part Fixture.png]]) =
    Out (Val (Ok
      {| call_Content :=
           [ text_content
               ("Image generated and saved to: "
                ++ "/srv/generated/generated-2026-01-02T03-04-05.png"
                ++ nl ++ nl ++ "Prompt: " ++ "a red fox");
             image_content "UE5H" "image/png" ];
         call_IsError := false |}))
      {| Fixture.files :=
           <[ "generated/generated-2026-01-02T03-04-05.png" := Fixture.png ]>
           {[ "in/cat.png" := Fixture.png ]};
         Fixture.replies := [];
         Fixture.clock := "2026-01-02T03-04-05";
         Fixture.cwd := "/srv" |}
      [ EvGenerateContent geminiModel
          [ {| gc_Parts := [Fixture.text_part "a red fox"] |} ];
        EvMkdirAll "generated" perm_0755;
        EvNow;
        EvWriteFile "generated/generated-2026-01-02T03-04-05.png"
          Fixture.png perm_0644;
        EvAbs "generated/generated-2026-01-02T03-04-05.png" ] /\
  Fixture.edit (<[ "image_path" := JString "in/cat.png" ]>
                {[ "prompt" := JString "add a hat" ]})
      (Fixture.world0 [Fixture.reply [Fixture.image_part Fixture.png]]) =
    Out (Val (Ok
      {| call_Content :=
           [ text_content
               ("Image edited and saved to: "
                ++ "/srv/generated/edited-2026-01-02T03-04-05.png"
                ++ nl ++ nl ++ "Original: " ++ "in/cat.png"
                ++ nl ++ "Prompt: " ++ "add a hat");
             image_content "UE5H" "image/png" ];
         call_IsError := false |}))
      {| Fixture.files :=
           <[ "generated/edited-2026-01-02T03-04-05.png" := Fixture.png ]>
           {[ "in/cat.png" := Fixture.png ]};
         Fixture.replies := [];
         Fixture.clock := "2026-01-02T03-04-05";
         Fixture.cwd := "/srv" |}
      [ EvReadFile "in/cat.png";
        EvGenerateContent geminiModel
          [ {| gc_Parts :=
                 [ Fixture.image_part Fixture.png;
                   Fixture.text_part "add a hat" ] |} ];
        EvMkdirAll "generated" perm_0755;
        EvNow;
        EvWriteFile "generated/edited-2026-01-02T03-04-05.png"
          Fixture.png perm_0644;
        EvAbs "generated/edited-2026-01-02T03-04-05.png" ].
Proof.
  split.
  - apply (proj1 (proj2 (proj2
      (tool_call_then_save (L := Fixture.lib) (Sys := Fixture.sys)
         Fixture.server {[ "prompt" := JString "a red fox" ]}
         (Fixture.world0 [Fixture.reply [Fixture.image_part Fixture.png]]))))
      "a red fox" "UE5H" empty "2026-01-02T03-04-05"
      "/srv/generated/generated-2026-01-02T03-04-05.png"
      {| gen_Candidates :=
           [ Some {| cand_Content :=
                       Some {| gc_Parts := [Fixture.image_part Fixture.png] |} |} ] |}
      Fixture.png (Fixture.world0 [])).
    + reflexivity.
    + discriminate.
    + reflexivity.
    + reflexivity.
    + discriminate.
    + exists (Fixture.world0 []), (Fixture.world0 []).
      eexists. repeat split; reflexivity.
  - apply (proj2 (proj2 (proj2
      (tool_call_then_save (L := Fixture.lib) (Sys := Fixture.sys)
         Fixture.server
         (<[ "image_path" := JString "in/cat.png" ]>
          {[ "prompt" := JString "add a hat" ]})
         (Fixture.world0 [Fixture.reply [Fixture.image_part Fixture.png]]))))
      "in/cat.png" "add a hat" "UE5H" empty "2026-01-02T03-04-05"
      "/srv/generated/edited-2026-01-02T03-04-05.png"
      {| gen_Candidates :=
           [ Some {| cand_Content :=
                       Some {| gc_Parts := [Fixture.image_part Fixture.png] |} |} ] |}
      Fixture.png Fixture.png
      (Fixture.world0 [Fixture.reply [Fixture.image_part Fixture.png]])
      (Fixture.world0 [])).
    + reflexivity.
    + discriminate.
    + reflexivity.
    + discriminate.
    + reflexivity.
    + reflexivity.
    + reflexivity.
    + reflexivity.
    + discriminate.
    + exists (Fixture.world0 []), (Fixture.world0 []).
      eexists. repeat split; reflexivity.
Defined.

(** C9, counterexample: with image_path "../etc/passwd" and no prompt, the
    cleaned path contains ".." and yet the error is the missing prompt. *)
Lemma traversal_without_prompt :
  strings_Contains (Fixture.Clean "../etc/passwd") ".." = true /\
  editImage (L := Fixture.lib) (Sys := Fixture.sys) Fixture.server
      {[ "image_path" := JString "../etc/passwd" ]} (Fixture.world0 []) =
    Out (Val (Err (errorString "prompt is required"))) (Fixture.world0 []) [].
Proof. split; reflexivity. Qed.

(** C9, witness: the path "foo/../../../bar" cleans to "../../bar". *)
Lemma editImage_rejects_traversal_witness :
  editImage (L := Fixture.lib) (Sys := Fixture.sys) Fixture.server
      (<[ "image_path" := JString "foo/../../../bar" ]>
       {[ "prompt" := JString "test prompt" ]}) (Fixture.world0 []) =
    Out (Val (Err (errorString
      "invalid image path: directory traversal not allowed")))
      (Fixture.world0 []) [].
Proof.
  apply (editImage_rejects_traversal (L := Fixture.lib) (Sys := Fixture.sys)
           Fixture.server _ "foo/../../../bar" "test prompt").
  - reflexivity.
  - discriminate.
  - reflexivity.
  - discriminate.
  - reflexivity.
Defined.

(** C10, the failing input: the service answers a generate_image call
    with a response that has no candidate.  The extraction step indexes
    [Candidates[0]] and panics; in a run, the request gets no reply and
    the lines after it are never read. *)
Theorem no_candidates_panics :
  res (generateImage (L := Fixture.lib) (Sys := Fixture.sys) Fixture.server
         {[ "prompt" := JString "a red fox" ]}
         (Fixture.world0 [Ok {| gen_Candidates := [] |}]))
    = Panic index_out_of_range /\
  res (editImage (L := Fixture.lib) (Sys := Fixture.sys) Fixture.server
         (<[ "image_path" := JString "in/cat.png" ]>
          {[ "prompt" := JString "add a hat" ]})
         (Fixture.world0 [Ok {| gen_Candidates := [] |}]))
    = Panic index_out_of_range /\
  Run (L := Fixture.lib) (Sys := Fixture.sys) Fixture.server
      {| stdin_lines := [ Fixture.line_call "3" Fixture.params_generate;
                          Fixture.line_list ];
         stdin_err := None |}
      (Fixture.world0 [Ok {| gen_Candidates := [] |}]) =
    Out (Panic index_out_of_range) (Fixture.world0 [])
      [ EvScan (Fixture.line_call "3" Fixture.params_generate);
        EvGenerateContent geminiModel
          [ {| gc_Parts := [Fixture.text_part "a red fox"] |} ] ].
Proof. repeat split; reflexivity. Qed.

(** ** The scanner *)

Lemma cut_lines_tail (tail : string) :
  one_line tail = true -> cut_lines tail = ([], tail).
Proof.
  induction tail as [|c tail IH]; [done|]. simpl.
  intros [Hc Htail]%andb_true_iff. rewrite (IH Htail).
  by destruct (Ascii.eqb c newline).
Qed.

Lemma cut_lines_line (line data : string) :
  one_line line = true ->
  cut_lines (line ++ String newline data) =
    (line :: (cut_lines data).1, (cut_lines data).2).
Proof.
  induction line as [|c line IH].
  - intros _. change (empty ++ ?x) with x. simpl.
    by destruct (cut_lines data).
  - intros [Hc Hline]%andb_true_iff.
    change (String c line ++ ?x) with (String c (line ++ x)).
    change (cut_lines (String c ?x)) with
      (let (lines, tail) := cut_lines x in
       if Ascii.eqb c newline then (EmptyString :: lines, tail)
       else match lines with
            | [] => ([], String c tail)
            | first :: others => (String c first :: others, tail)
            end).
    rewrite (IH Hline).
    by destruct (Ascii.eqb c newline).
Qed.

Lemma cut_lines_input_of (lines : list string) (tail : string) :
  forallb one_line lines = true -> one_line tail = true ->
  cut_lines (input_of lines tail) = (lines, tail).
Proof.
  intros Hlines Htail. induction lines as [|line lines IH]; simpl.
  { by apply cut_lines_tail. }
  simpl in Hlines. apply andb_true_iff in Hlines as [Hline Hlines].
  rewrite (cut_lines_line _ _ Hline). fold (input_of lines tail).
  by rewrite (IH Hlines).
Qed.

Lemma scan_tokens_fits (lines : list string) (tail : string) :
  forallb fits lines = true -> fits tail = true ->
  scan_tokens lines tail = (delivered lines tail, None).
Proof.
  intros Hlines Htail. unfold delivered.
  induction lines as [|line lines IH]; simpl.
  { rewrite Htail. by destruct (String.eqb tail empty). }
  simpl in Hlines. apply andb_true_iff in Hlines as [Hline Hlines].
  by rewrite Hline, (IH Hlines).
Qed.

Lemma forallb_scannable (lines : list string) :
  forallb scannable lines = true ->
  forallb one_line lines = true /\ forallb fits lines = true.
Proof.
  induction lines as [|line lines IH]; [done|]. simpl.
  intros [[? ?]%andb_true_iff [? ?]%IH]%andb_true_iff.
  split; by apply andb_true_iff.
Qed.

(** When every line is shorter than 64 KiB the scanner delivers them
    all, in order, and ends without an error. *)
Lemma bufio_Scanner_lines (lines : list string) (tail : string) :
  forallb scannable lines = true -> scannable tail = true ->
  bufio_Scanner (input_of lines tail) =
    {| stdin_lines := delivered lines tail; stdin_err := None |}.
Proof.
  intros [Hone Hfits]%forallb_scannable [Hone' Hfits']%andb_true_iff.
  unfold bufio_Scanner.
  by rewrite (cut_lines_input_of _ _ Hone Hone'),
       (scan_tokens_fits _ _ Hfits Hfits').
Qed.

(** ** The loop of Run *)

Section Loop.

Context `{L : Lib} {W : Type} `{Sys : !System W}.

Lemma handleRequest_emits (s : Server) (req : JSONRPCRequest) :
  emits (fun e => is_tool_event e = true) (handleRequest s req).
Proof.
  unfold handleRequest, handleCallTool.
  repeat first
    [ apply emits_ret
    | apply generateImage_emits; done
    | apply editImage_emits; done
    | apply emits_bind; [|intros ?]
    | case_match ].
Qed.

Lemma res_bind_ret {A B} (m : M W A) (f : A -> B) (w : W) (b : B) :
  res ((do a <- m; ret (f a)) w) = Val b ->
  exists a, res (m w) = Val a /\ b = f a.
Proof.
  unfold bind, ret. destruct (m w) as [[a|msg] w1 t1]; simpl; [|done].
  intros [= <-]. by exists a.
Qed.

Lemma handleCallTool_response (s : Server) (req : JSONRPCRequest) (w : W)
    (resp : JSONRPCResponse) :
  res (handleCallTool s req w) = Val resp ->
  resp_JSONRPC resp = "2.0" /\ resp_ID resp = req_ID req /\
  one_of_result_error resp.
Proof.
  unfold handleCallTool, one_of_result_error.
  repeat case_match;
    try (intros [r [_ ->]]%res_bind_ret; destruct r; simpl; by eauto 6);
    intros [= <-]; simpl; by eauto 6.
Qed.

Lemma handleRequest_response (s : Server) (req : JSONRPCRequest) (w : W)
    (resp : JSONRPCResponse) :
  res (handleRequest s req w) = Val (Some resp) ->
  resp_JSONRPC resp = "2.0" /\ resp_ID resp = req_ID req /\
  one_of_result_error resp.
Proof.
  unfold handleRequest, one_of_result_error.
  repeat case_match;
    try (intros [r [Hr [= ->]]]%res_bind_ret;
         by apply handleCallTool_response in Hr);
    intros [= <-]; simpl; by eauto 6.
Qed.

Lemma handleRequest_no_response (s : Server) (req : JSONRPCRequest) (w : W) :
  res (handleRequest s req w) = Val None ->
  req_Method req = "notifications/initialized".
Proof.
  unfold handleRequest.
  destruct (String.eqb_spec (req_Method req) "initialize"); [done|].
  destruct (String.eqb_spec (req_Method req) "notifications/initialized");
    [done|].
  repeat case_match; try done.
  by intros [r [_ [=]]]%res_bind_ret.
Qed.

Lemma handleRequest_some_method (s : Server) (req : JSONRPCRequest) (w : W)
    (resp : JSONRPCResponse) :
  res (handleRequest s req w) = Val (Some resp) ->
  req_Method req <> "notifications/initialized".
Proof.
  unfold handleRequest.
  destruct (String.eqb_spec (req_Method req) "initialize") as [->|]; [done|].
  by destruct (String.eqb_spec (req_Method req) "notifications/initialized").
Qed.

Lemma Run_body_cases (s : Server) (line : string) (w : W) :
  exists work,
    Forall (fun e => is_tool_event e = true) work /\
    ((events (Run_body s line w) = work /\
      (reply_due line = false \/
       (exists msg, res (Run_body s line w) = Panic msg) \/
       (exists resp, json_Marshal resp = None))) \/
     (exists req resp out,
        reply_due line = true /\
        json_Unmarshal_request line = Some req /\
        res (handleRequest s req w) = Val (Some resp) /\
        json_Marshal resp = Some out /\
        res (Run_body s line w) = Val tt /\
        events (Run_body s line w) = (work ++ [EvPrintln out; EvSync])%list)).
Proof.
  unfold Run_body, reply_due.
  destruct (String.eqb_spec line empty) as [->|Hline]; simpl.
  { exists []. split; [constructor|]. left. by split; [|left]. }
  destruct (json_Unmarshal_request line) as [req|]; simpl.
  2:{ exists []. split; [constructor|]. left. by split; [|left]. }
  pose proof (handleRequest_emits s req w) as Hwork.
  pose proof (handleRequest_no_response s req w) as Hnone.
  pose proof (handleRequest_some_method s req w) as Hsome.
  unfold bind.
  destruct (handleRequest s req w) as [[[resp|]|msg] w1 t1] eqn:Hreq;
    simpl in *; exists t1; (split; [done|]).
  - unfold Run_reply.
    destruct (json_Marshal resp) as [out|] eqn:Hout; simpl.
    + right. exists req, resp, out.
      repeat split; try done; try (by rewrite Hreq).
      apply negb_true_iff, String.eqb_neq. by eapply Hsome.
    + left. rewrite app_nil_r. split; [done|]. right; right. by exists resp.
  - left. rewrite app_nil_r. split; [done|]. left.
    by rewrite (Hnone eq_refl).
  - left. split; [done|]. right; left. by exists msg.
Qed.

Lemma Run_loop_cons (s : Server) (line : string) (rest : list string) (w : W) :
  Run_loop s (line :: rest) w =
    match Run_body s line w with
    | Out (Val _) w1 t1 =>
      match Run_loop s rest w1 with
      | Out r w2 t2 => Out r w2 (EvScan line :: t1 ++ t2)
      end
    | Out (Panic msg) w1 t1 => Out (Panic msg) w1 (EvScan line :: t1)
    end.
Proof.
  simpl. unfold bind, log.
  destruct (Run_body s line w) as [[[]|msg] w1 t1]; [|done].
  by destruct (Run_loop s rest w1).
Qed.

Lemma Run_outcome (s : Server) (input : Stdin) (w : W) :
  Run s input w =
    match Run_loop s (stdin_lines input) w with
    | Out (Val _) w1 t1 => Out (Val (stdin_err input)) w1 t1
    | Out (Panic msg) w1 t1 => Out (Panic msg) w1 t1
    end.
Proof.
  unfold Run, bind, ret.
  destruct (Run_loop s (stdin_lines input) w) as [[[]|msg] w1 t1]; [|done].
  by rewrite app_nil_r.
Qed.

Lemma stdout_of_app (t1 t2 : list Event) :
  stdout_of (t1 ++ t2) = (stdout_of t1 ++ stdout_of t2)%list.
Proof. apply omap_app. Qed.

Lemma stdout_of_tool_events (t : list Event) :
  Forall (fun e => is_tool_event e = true) t -> stdout_of t = [].
Proof.
  induction 1 as [|e t He _ IH]; [done|].
  destruct e; try done; exact IH.
Qed.

Lemma Run_loop_replies (s : Server) (lines : list string) (w : W) :
  (forall resp, is_Some (json_Marshal resp)) ->
  res (Run_loop s lines w) = Val tt ->
  Forall2 (reply_to s) (List.filter reply_due lines)
    (stdout_of (events (Run_loop s lines w))).
Proof.
  intros Hmarshal. revert w.
  induction lines as [|line rest IH]; intros w; [constructor|].
  rewrite Run_loop_cons.
  destruct (Run_body_cases s line w) as (work & Hwork & Hbody).
  destruct (Run_body s line w) as [[[]|msg] w1 t1]; simpl in *; [|done].
  specialize (IH w1).
  destruct (Run_loop s rest w1) as [r w2 t2]; simpl in *.
  intros Hres. specialize (IH Hres).
  change (EvScan line :: t1 ++ t2)%list with ([EvScan line] ++ t1 ++ t2)%list.
  rewrite !stdout_of_app.
  destruct Hbody as [[-> Hwhy]|(req & resp & out & Hdue & Hreq & Hresp & Hout & _ & ->)].
  - rewrite (stdout_of_tool_events _ Hwork). simpl.
    destruct Hwhy as [->|[[msg [=]]|[resp Hnone]]]; [done|].
    destruct (Hmarshal resp) as [out Hout]. congruence.
  - rewrite Hdue, stdout_of_app, (stdout_of_tool_events _ Hwork). simpl.
    constructor; [|done].
    exists req, resp, w. repeat split; try done.
    by apply handleRequest_response in Hresp as (_ & ? & _).
Qed.

(** C1, as amended. In a run that ends without a panic, and with
    [json.Marshal] succeeding on every response, standard output holds
    exactly one reply for each line that asks for one (an accepted line
    whose method is not notifications/initialized), and no other; the
    replies stand in the order of their lines. *)
Theorem Run_replies_in_order (s : Server) (input : Stdin) (w : W) :
  (forall resp, is_Some (json_Marshal resp)) ->
  res (Run s input w) = Val (stdin_err input) ->
  Forall2 (reply_to s) (List.filter reply_due (stdin_lines input))
    (stdout_of (events (Run s input w))).
Proof.
  intros Hmarshal. rewrite Run_outcome.
  pose proof (Run_loop_replies s (stdin_lines input) w Hmarshal) as Hloop.
  destruct (Run_loop s (stdin_lines input) w) as [[[]|msg] w1 t1];
    simpl in *; [|done].
  intros _. by apply Hloop.
Qed.

Lemma Run_loop_accepted_only (s : Server) (lines : list string) (w : W) :
  res (Run_loop s (List.filter accepted lines) w) = res (Run_loop s lines w) /\
  final (Run_loop s (List.filter accepted lines) w)
    = final (Run_loop s lines w) /\
  stdout_of (events (Run_loop s (List.filter accepted lines) w))
    = stdout_of (events (Run_loop s lines w)).
Proof.
  revert w. induction lines as [|line rest IH]; intros w; [done|].
  simpl List.filter. destruct (accepted line) eqn:Hacc.
  - rewrite !Run_loop_cons.
    destruct (Run_body s line w) as [[[]|msg] w1 t1]; [|done].
    destruct (IH w1) as (Hres & Hfinal & Hout).
    destruct (Run_loop s (List.filter accepted rest) w1) as [r w2 t2].
    destruct (Run_loop s rest w1) as [r' w2' t2']. simpl in *.
    repeat split; try done.
    change (stdout_of (t1 ++ t2) = stdout_of (t1 ++ t2')).
    by rewrite !stdout_of_app, Hout.
  - rewrite Run_loop_cons.
    assert (Run_body s line w = Out (Val tt) w []) as ->.
    { unfold Run_body. unfold accepted in Hacc.
      destruct (String.eqb line empty); [done|].
      by destruct (json_Unmarshal_request line). }
    destruct (IH w) as (Hres & Hfinal & Hout).
    by destruct (Run_loop s rest w).
Qed.

Lemma handleRequest_notification (s : Server) (req : JSONRPCRequest) (w : W) :
  req_Method req = "notifications/initialized" ->
  handleRequest s req w = Out (Val None) w [].
Proof. intros Hmethod. unfold handleRequest. by rewrite Hmethod. Qed.

Lemma Run_body_skip (s : Server) (line : string) (w : W) :
  accepted line = false -> Run_body s line w = Out (Val tt) w [].
Proof.
  unfold accepted, Run_body.
  destruct (String.eqb line empty); [done|].
  by destruct (json_Unmarshal_request line).
Qed.

Lemma Run_body_accepted (s : Server) (line : string) (w : W) :
  accepted line = true ->
  exists req,
    json_Unmarshal_request line = Some req /\
    Run_body s line w = (do resp <- handleRequest s req; Run_reply resp) w.
Proof.
  unfold accepted, Run_body.
  destruct (String.eqb line empty); [done|].
  destruct (json_Unmarshal_request line) as [req|]; [|done].
  intros _. by exists req.
Qed.

Lemma Run_body_turn (s : Server) (line : string) (w : W) :
  line_turn s line (EvScan line :: events (Run_body s line w)).
Proof.
  unfold line_turn. destruct (accepted line) eqn:Hacc.
  2:{ by rewrite (Run_body_skip s line w Hacc). }
  destruct (Run_body_accepted s line w Hacc) as (req & Hreq & ->).
  exists req, w. unfold bind.
  destruct (handleRequest s req w) as [[[resp|]|msg] w1 t1]; simpl.
  - unfold Run_reply. destruct (json_Marshal resp) as [out|]; simpl.
    + exists [EvPrintln out; EvSync]. repeat split; [done|].
      right. by exists out.
    + exists []. by repeat split; [|left].
  - exists []. by repeat split; [|left].
  - exists []. rewrite app_nil_r. by repeat split; [|left].
Qed.

Lemma Run_loop_turns (s : Server) (lines : list string) (w : W) :
  exists turns,
    events (Run_loop s lines w) = List.concat turns /\
    Forall2 (line_turn s) (take (List.length turns) lines) turns /\
    (res (Run_loop s lines w) = Val tt ->
     List.length turns = List.length lines).
Proof.
  revert w. induction lines as [|line rest IH]; intros w.
  { exists []. by repeat split. }
  rewrite Run_loop_cons. pose proof (Run_body_turn s line w) as Hturn.
  destruct (Run_body s line w) as [[[]|msg] w1 t1]; simpl in *.
  - destruct (IH w1) as (turns & Hevents & Hturns & Hlen).
    destruct (Run_loop s rest w1) as [r w2 t2]. simpl in *.
    exists ((EvScan line :: t1) :: turns). simpl.
    rewrite Hevents. repeat split; [by constructor|].
    intros Hres. by rewrite (Hlen Hres).
  - exists [EvScan line :: t1]. simpl. rewrite app_nil_r.
    repeat split; [|done]. rewrite take_0. by repeat constructor.
Qed.


Lemma Run_body_block (s : Server) (line : string) (w : W) :
  (forall resp, is_Some (json_Marshal resp)) ->
  match res (Run_body s line w) with
  | Val _ => request_block s line (EvScan line :: events (Run_body s line w))
  | Panic _ =>
    reply_due line = true /\
    Forall (fun e => is_tool_event e = true) (events (Run_body s line w))
  end.
Proof.
  intros Hmarshal. unfold request_block.
  destruct (accepted line) eqn:Hacc.
  2:{ rewrite (Run_body_skip s line w Hacc). simpl.
      replace (reply_due line) with false; [done|].
      unfold accepted in Hacc. unfold reply_due.
      destruct (String.eqb line empty); [done|].
      by destruct (json_Unmarshal_request line). }
  destruct (Run_body_accepted s line w Hacc) as (req & Hreq & ->).
  assert (reply_due line =
          negb (String.eqb (req_Method req) "notifications/initialized"))
    as ->.
  { unfold accepted in Hacc. unfold reply_due. rewrite Hreq.
    by destruct (String.eqb line empty). }
  destruct (String.eqb_spec (req_Method req) "notifications/initialized")
    as [Hnote|Hmethod]; simpl.
  { unfold bind. by rewrite (handleRequest_notification s req w Hnote). }
  pose proof (handleRequest_emits s req w) as Hwork.
  pose proof (handleRequest_no_response s req w) as Hnone.
  pose proof (handleRequest_response s req w) as Hresp.
  unfold bind.
  destruct (handleRequest s req w) as [[[resp|]|msg] w1 t1] eqn:Hhandle;
    simpl in *.
  - unfold Run_reply. destruct (Hmarshal resp) as [out Hout].
    rewrite Hout. simpl.
    exists req, resp, w, out. rewrite Hhandle. simpl.
    by destruct (Hresp resp eq_refl) as (_ & ? & _).
  - by destruct Hmethod; apply Hnone.
  - done.
Qed.

Lemma Run_loop_blocks (s : Server) (lines : list string) (w : W) :
  (forall resp, is_Some (json_Marshal resp)) ->
  exists blocks,
    Forall2 (request_block s) (take (List.length blocks) lines) blocks /\
    match res (Run_loop s lines w) with
    | Val _ =>
      events (Run_loop s lines w) = List.concat blocks /\
      List.length blocks = List.length lines
    | Panic _ =>
      exists line work,
        lines !! List.length blocks = Some line /\
        reply_due line = true /\
        Forall (fun e => is_tool_event e = true) work /\
        events (Run_loop s lines w)
          = (List.concat blocks ++ EvScan line :: work)%list
    end.
Proof.
  intros Hmarshal. revert w. induction lines as [|line rest IH]; intros w.
  { exists []. by repeat split. }
  rewrite Run_loop_cons.
  pose proof (Run_body_block s line w Hmarshal) as Hblock.
  destruct (Run_body s line w) as [[[]|msg] w1 t1]; simpl in *.
  - destruct (IH w1) as (blocks & Hblocks & Hrest).
    exists ((EvScan line :: t1) :: blocks).
    split; [by constructor|].
    destruct (Run_loop s rest w1) as [[[]|msg] w2 t2]; simpl in *.
    + by destruct Hrest as [-> ->].
    + destruct Hrest as (line' & work & Hline & Hdue & Hwork & ->).
      exists line', work. repeat split; try done.
      by rewrite <- app_assoc.
  - exists []. split; [constructor|].
    exists line, t1. by destruct Hblock.
Qed.

(** C7. With [json.Marshal] succeeding on every response, the events of a
    run are the events of its requests laid end to end, one block per
    line read and in the order read.  The block of a line that asks for a
    reply is the read of the line, the events of one call of the
    dispatcher on its request, then the reply of that call and its flush;
    the block of any other line is its read alone.  So the reply to a
    request is on standard output before the next line is read, and the
    events of two requests never mix.  A run that returns has such a
    block for every line.  A run that panics has one for every line but
    the last it read: that line asked for a reply, and its read and the
    events of its operation close the trace, so no line is read after
    it. *)
Theorem Run_one_request_at_a_time (s : Server) (input : Stdin) (w : W) :
  (forall resp, is_Some (json_Marshal resp)) ->
  exists blocks,
    Forall2 (request_block s)
      (take (List.length blocks) (stdin_lines input)) blocks /\
    match res (Run s input w) with
    | Val _ =>
      events (Run s input w) = List.concat blocks /\
      List.length blocks = List.length (stdin_lines input)
    | Panic _ =>
      exists line work,
        stdin_lines input !! List.length blocks = Some line /\
        reply_due line = true /\
        Forall (fun e => is_tool_event e = true) work /\
        events (Run s input w)
          = (List.concat blocks ++ EvScan line :: work)%list
    end.
Proof.
  intros Hmarshal.
  destruct (Run_loop_blocks s (stdin_lines input) w Hmarshal)
    as (blocks & Hblocks & Hrest).
  exists blocks. split; [done|]. rewrite Run_outcome.
  by destruct (Run_loop s (stdin_lines input) w) as [[[]|msg] w1 t1].
Qed.

Lemma Run_loop_structured (s : Server) (lines : list string) (w : W) :
  Forall (structured_response s) (stdout_of (events (Run_loop s lines w))).
Proof.
  revert w. induction lines as [|line rest IH]; intros w; [constructor|].
  rewrite Run_loop_cons.
  destruct (Run_body_cases s line w) as (work & Hwork & Hbody).
  assert (Forall (structured_response s)
            (stdout_of (events (Run_body s line w)))) as Hhere.
  { destruct Hbody as [[-> _]|(req & resp & out & _ & _ & Hresp & Hout & _ & ->)].
    - by rewrite (stdout_of_tool_events _ Hwork).
    - rewrite stdout_of_app, (stdout_of_tool_events _ Hwork). simpl.
      repeat constructor. exists req, resp, w.
      by apply handleRequest_response in Hresp as Hfields;
        destruct Hfields as (? & _ & ?). }
  destruct (Run_body s line w) as [[[]|msg] w1 t1]; simpl in *; [|done].
  specialize (IH w1). destruct (Run_loop s rest w1) as [r w2 t2].
  simpl in *.
  change (Forall (structured_response s) (stdout_of (t1 ++ t2))).
  rewrite stdout_of_app. by apply Forall_app.
Qed.

(** C8. Every line a run writes to standard output is the serialised
    response of the dispatcher to a request; its JSONRPC field is "2.0"
    and it carries a Result or an Error, never both and never neither. *)
Theorem Run_writes_structured_responses (s : Server) (input : Stdin) (w : W) :
  Forall (structured_response s) (stdout_of (events (Run s input w))).
Proof.
  rewrite Run_outcome.
  pose proof (Run_loop_structured s (stdin_lines input) w) as Hloop.
  by destruct (Run_loop s (stdin_lines input) w) as [[[]|msg] w1 t1].
Qed.

End Loop.

(** C1, counterexample: the line
    [{"jsonrpc":"2.0","method":"notifications/initialized"}] is a request,
    and the run over it writes nothing. *)
Lemma notification_gets_no_reply :
  Fixture.Unmarshal_request Fixture.line_initialized =
    Some (Fixture.request JNull "notifications/initialized" empty) /\
  Run (L := Fixture.lib) (Sys := Fixture.sys) Fixture.server
      {| stdin_lines := [Fixture.line_initialized]; stdin_err := None |}
      (Fixture.world0 []) =
    Out (Val None) (Fixture.world0 []) [EvScan Fixture.line_initialized].
Proof. split; reflexivity. Qed.

(** C1, witness: three of the six lines ask for a reply and get it. *)
Lemma Run_replies_in_order_witness :
  Forall2 (reply_to (L := Fixture.lib) (Sys := Fixture.sys) Fixture.server)
    [ Fixture.line_initialize; Fixture.line_unknown_method; Fixture.line_list ]
    (stdout_of (events
       (Run (L := Fixture.lib) (Sys := Fixture.sys) Fixture.server Fixture.session
          (Fixture.world0 [])))).
Proof.
  apply (Run_replies_in_order (L := Fixture.lib) (Sys := Fixture.sys)
           Fixture.server Fixture.session (Fixture.world0 [])).
  - intros resp. by eexists.
  - reflexivity.
Defined.



(** C7, witness: a session with a generate_image call.  The service
    answers with an image, which is saved between the read of the call
    and its reply. *)
Lemma Run_one_request_at_a_time_witness :
  exists blocks,
    Forall2
      (request_block (L := Fixture.lib) (Sys := Fixture.sys) Fixture.server)
      (take (List.length blocks) (stdin_lines Fixture.session_generate))
      blocks /\
    events (Run (L := Fixture.lib) (Sys := Fixture.sys) Fixture.server
              Fixture.session_generate
              (Fixture.world0 [Fixture.reply [Fixture.image_part Fixture.png]]))
      = List.concat blocks /\
    List.length blocks = 4%nat.
Proof.
  destruct (Run_one_request_at_a_time (L := Fixture.lib) (Sys := Fixture.sys)
              Fixture.server Fixture.session_generate
              (Fixture.world0 [Fixture.reply [Fixture.image_part Fixture.png]]))
    as (blocks & Hblocks & Hrun).
  { intros resp. by eexists. }
  exists blocks. split; [exact Hblocks|]. exact Hrun.
Defined.

(** ** Strings *)

Lemma string_app_cons (x : ascii) (a b : string) :
  String x a ++ b = String x (a ++ b).
Proof. reflexivity. Qed.

Lemma string_app_assoc (a b c : string) : (a ++ b) ++ c = a ++ (b ++ c).
Proof.
  induction a as [|x a IH]; [done|]. rewrite !string_app_cons. by f_equal.
Qed.

Lemma string_app_empty_r (a : string) : a ++ empty = a.
Proof.
  induction a as [|x a IH]; [done|]. rewrite string_app_cons. by f_equal.
Qed.

Lemma prefix_spec (sub s : string) :
  String.prefix sub s = true <-> exists post, s = sub ++ post.
Proof.
  revert s. induction sub as [|c sub IH]; intros [|d s]; simpl.
  - split; [by exists empty|done].
  - split; [by exists (String d s)|done].
  - split; [done|]. by intros [post [=]].
  - destruct (Ascii.ascii_dec c d) as [->|Hne].
    + rewrite IH. split; intros [post Hpost]; exists post.
      * by rewrite string_app_cons, Hpost.
      * rewrite string_app_cons in Hpost. congruence.
    + split; [done|]. intros [post Hpost].
      rewrite string_app_cons in Hpost. congruence.
Qed.

(** [strings_Contains] finds [sub] exactly when [s] has it as a substring. *)
Lemma strings_Contains_spec (s sub : string) :
  strings_Contains s sub = true <-> exists pre post, s = pre ++ sub ++ post.
Proof.
  induction s as [|c s IH].
  - change (strings_Contains "" sub) with (String.prefix sub "" || false).
    rewrite orb_false_r, prefix_spec. split.
    + intros [post Hpost]. by exists empty, post.
    + intros ([|x pre] & post & Hpost); [by exists post|done].
  - change (strings_Contains (String c s) sub)
      with (String.prefix sub (String c s) || strings_Contains s sub).
    rewrite orb_true_iff, prefix_spec, IH. split.
    + intros [[post Hpost]|(pre & post & Hpost)].
      * by exists empty, post.
      * exists (String c pre), post. by rewrite string_app_cons, Hpost.
    + intros ([|x pre] & post & Hpost).
      * left. by exists post.
      * right. exists pre, post. rewrite string_app_cons in Hpost. congruence.
Qed.

(** ** The extraction loop *)

Section Extraction.

Context `{L : Lib}.

Lemma extract_parts_collects (ps : list Part) (imageData textResponse : string) :
  extract_parts (Some <$> ps) imageData textResponse =
    Val (match last (omap image_of ps) with
         | Some blob => base64_EncodeToString (blob_Data blob)
         | None => imageData
         end,
         textResponse ++ texts_of ps).
Proof.
  revert imageData textResponse.
  induction ps as [|p ps IH]; intros imageData textResponse; simpl.
  { by rewrite string_app_empty_r. }
  unfold image_of at 1.
  destruct (String.eqb_spec (part_Text p) empty) as [Hempty|Hne]; simpl.
  - rewrite Hempty.
    change (empty ++ texts_of ps) with (texts_of ps).
    destruct (part_InlineData p) as [blob|]; rewrite IH; [|done].
    fold (omap image_of ps). rewrite last_cons.
    by destruct (last (omap image_of ps)).
  - by rewrite IH, string_app_assoc.
Qed.

(** X1. Of a response, only the first candidate is read.  When none of
    its parts is nil, the text returned is the concatenation of the texts
    of all its parts, in order, and the image is the base64 of the last
    part that has inline data and no text (the empty string when there is
    none): a part with text never gives its image. *)
Theorem extract_response_collects (ps : list Part)
    (others : list (option Candidate)) :
  extract_response
    {| gen_Candidates :=
         Some {| cand_Content := Some {| gc_Parts := Some <$> ps |} |}
         :: others |} =
    Val (match last (omap image_of ps) with
         | Some blob => base64_EncodeToString (blob_Data blob)
         | None => empty
         end,
         texts_of ps).
Proof.
  unfold extract_response, first_candidate_parts. simpl.
  by rewrite extract_parts_collects.
Qed.

(** X2. The extraction loop panics with a nil dereference exactly when
    one of the parts is nil. *)
Theorem extract_parts_nil_part (parts : list (option Part))
    (imageData textResponse : string) :
  extract_parts parts imageData textResponse = Panic nil_dereference <->
  None ∈ parts.
Proof.
  revert imageData textResponse.
  induction parts as [|[p|] parts IH]; intros imageData textResponse; simpl.
  - split; [done|]. by intros ?%elem_of_nil.
  - assert (None ∈ Some p :: parts <-> None ∈ parts) as ->.
    { rewrite elem_of_cons. split; [by intros [[=]|]|by right]. }
    repeat case_match; apply IH.
  - split; [intros _; by left|done].
Qed.

End Extraction.

(** ** More on the dispatcher *)

Section DispatcherEffects.

Context `{L : Lib} {W : Type} `{Sys : !System W}.

Lemma returns_ret {A} (P : A -> Prop) (a : A) : P a -> returns (W := W) P (ret a).
Proof. by intros Ha w. Qed.

Lemma returns_bind {A B} (P : B -> Prop) (m : M W A) (k : A -> M W B) :
  (forall a, returns P (k a)) -> returns P (bind m k).
Proof.
  intros Hk w. unfold bind.
  destruct (m w) as [[a|msg] w1 t1]; [|done].
  specialize (Hk a w1). by destruct (k a w1).
Qed.

Ltac returns_tool :=
  repeat first
    [ apply returns_ret; done
    | apply returns_bind; intros ?
    | case_match ].

(** What the operations return without an error is not flagged as one. *)
Lemma generateImage_plain (s : Server) (args : gmap string any) :
  returns plain_result (generateImage s args).
Proof. unfold generateImage. returns_tool. Qed.

Lemma editImage_plain (s : Server) (args : gmap string any) :
  returns plain_result (editImage s args).
Proof. unfold editImage. returns_tool. Qed.

(** The response to what an operation returned: a Result, flagged exactly
    when the operation returned an error. *)
Lemma tool_response_flag (req : JSONRPCRequest) (r : result CallToolResult) :
  plain_result r ->
  resp_Error (tool_response req r) = None /\
  exists result,
    resp_Result (tool_response req r) = Some (ResCallTool result) /\
    call_IsError result = match r with Err _ => true | Ok _ => false end.
Proof. destruct r as [result|err]; simpl; intros Hplain; eauto. Qed.


(** X4. Whatever the method, a response of the dispatcher carries the ID
    of its request. *)
Theorem handleRequest_echoes_ID (s : Server) (req : JSONRPCRequest) (w : W) :
  match res (handleRequest s req w) with
  | Val (Some resp) => resp_ID resp = req_ID req
  | _ => True
  end.
Proof.
  pose proof (handleRequest_response s req w) as Hresp.
  destruct (res (handleRequest s req w)) as [[resp|]|msg]; [|done..].
  by destruct (Hresp resp eq_refl) as (_ & ? & _).
Qed.

Lemma handleRequest_other_method (s : Server) (req : JSONRPCRequest) (w : W) :
  req_Method req <> "tools/call" ->
  exists resp, handleRequest s req w = Out (Val resp) w [].
Proof.
  intros Hmethod%String.eqb_neq. unfold handleRequest. rewrite Hmethod.
  repeat case_match; by eexists.
Qed.

(** X5. Only a call of generate_image or edit_image has an effect: a
    request with any other method, with params that do not decode, or
    naming another tool is answered (or, for the notification, left
    unanswered) without any event, and the world stays as it was. *)
Theorem handleRequest_pure_unless_tool (s : Server) (req : JSONRPCRequest) (w : W) :
  req_Method req <> "tools/call" \/
  match json_Unmarshal_params (req_Params req) with
  | None => True
  | Some params =>
    params_Name params <> "generate_image" /\
    params_Name params <> "edit_image"
  end ->
  exists resp, handleRequest s req w = Out (Val resp) w [].
Proof.
  destruct (String.eqb_spec (req_Method req) "tools/call") as [Hcall|Hother];
    [|intros _; by apply handleRequest_other_method].
  intros [?|Hparams]; [done|].
  unfold handleRequest, handleCallTool. rewrite Hcall. simpl.
  destruct (json_Unmarshal_params (req_Params req)) as [params|];
    [|by eexists].
  destruct Hparams as [Hgen Hedit].
  apply String.eqb_neq in Hgen, Hedit. rewrite Hgen, Hedit. by eexists.
Qed.

End DispatcherEffects.


(** X5, witness: a call of an unknown tool. *)
Lemma handleRequest_pure_unless_tool_witness :
  exists resp,
    Fixture.handle (Fixture.request (JNumber "6") "tools/call" Fixture.params_unknown)
      (Fixture.world0 []) = Out (Val resp) (Fixture.world0 []) [].
Proof.
  apply (handleRequest_pure_unless_tool (L := Fixture.lib) (Sys := Fixture.sys)
           Fixture.server
           (Fixture.request (JNumber "6") "tools/call" Fixture.params_unknown)
           (Fixture.world0 [])).
  right. split; discriminate.
Defined.

(** ** More on the operations *)

Section ToolEffects.

Context `{L : Lib} {W : Type} `{Sys : !System W}.

(** X6. saveImage never panics and writes at most one file.  When it
    succeeds it has written the decoded bytes once, to the path that
    [filepath.Join] makes of the output directory and the file name
    <prefix>-<timestamp>.png, the timestamp being what the clock read
    once the directory was made.  When it fails, it has written nothing
    or made that same single write; when the base64 text does not decode
    it has written nothing. *)
Theorem saveImage_writes_once (s : Server) (data prefix : string) (w : W) :
  match res (saveImage s data prefix w), base64_DecodeString data with
  | Val (Ok _), Ok imageBytes =>
    writes_of (events (saveImage s data prefix w))
      = [(save_path s prefix (save_timestamp s w), imageBytes)]
  | Val (Err _), Ok imageBytes =>
    writes_of (events (saveImage s data prefix w)) = [] \/
    writes_of (events (saveImage s data prefix w))
      = [(save_path s prefix (save_timestamp s w), imageBytes)]
  | Val (Err _), Err _ => writes_of (events (saveImage s data prefix w)) = []
  | _, _ => False
  end.
Proof.
  unfold saveImage, save_path, save_timestamp, bind, call, ret.
  destruct (os_MkdirAll _ _ w) as [[e|] w1]; simpl.
  { destruct (base64_DecodeString data); [by left|done]. }
  destruct (time_Now_Format _ w1) as [ts w2]; simpl.
  destruct (base64_DecodeString data) as [imageBytes|e]; simpl; [|done].
  destruct (os_WriteFile _ _ _ w2) as [[e|] w3]; simpl.
  { by right. }
  destruct (filepath_Abs _ w3) as [[absPath|e] w4]; simpl; [done|by right].
Qed.

(** X7. When the file has been written and filepath.Abs then fails,
    saveImage returns an error, "failed to get absolute path: " followed
    by the cause, although the file is in place. *)
Theorem saveImage_abs_failure (s : Server) (data prefix ts : string)
    (imageBytes : bytes) (err : error) (w w1 w2 w3 w4 : W) :
  os_MkdirAll (filepath_Join "." (outputDir s)) perm_0755 w = (None, w1) ->
  time_Now_Format "2006-01-02T15-04-05" w1 = (ts, w2) ->
  base64_DecodeString data = Ok imageBytes ->
  os_WriteFile (save_path s prefix ts) imageBytes perm_0644 w2 = (None, w3) ->
  filepath_Abs (save_path s prefix ts) w3 = (Err err, w4) ->
  saveImage s data prefix w =
    Out (Val (Err (wrapError
                     ("failed to get absolute path: " ++ error_Error err) err)))
      w4 (save_events s prefix ts imageBytes).
Proof.
  intros Hmk Hnow Hdec Hwr Habs. unfold save_path in *.
  unfold saveImage, bind, call. rewrite Hmk. simpl.
  rewrite Hnow. simpl. rewrite Hdec. simpl. rewrite Hwr. simpl.
  by rewrite Habs.
Qed.

(** X8. When the service call itself fails, generate_image saves nothing
    and the client is told "Error: API request failed: " followed by the
    cause, in a result flagged as an error; the call is the only event. *)
Theorem api_failure_reply (s : Server) (req : JSONRPCRequest)
    (params : CallToolParams) (prompt : string) (err : error) (w w1 : W) :
  req_Method req = "tools/call" ->
  json_Unmarshal_params (req_Params req) = Some params ->
  params_Name params = "generate_image" ->
  params_Arguments params !! "prompt" = Some (JString prompt) ->
  prompt <> empty ->
  client_GenerateContent geminiModel (genai_Text prompt) w = (Err err, w1) ->
  handleRequest s req w =
    Out (Val (Some
      {| resp_JSONRPC := "2.0";
         resp_ID := req_ID req;
         resp_Result := Some (ResCallTool
           {| call_Content :=
                [ text_content
                    ("Error: " ++ "API request failed: " ++ error_Error err) ];
              call_IsError := true |});
         resp_Error := None |})) w1
      [EvGenerateContent geminiModel (genai_Text prompt)].
Proof.
  intros Hmethod Hparams Hname Hprompt Hne Hcall.
  unfold handleRequest, handleCallTool. rewrite Hmethod, Hparams. simpl.
  rewrite Hname. simpl.
  unfold generateImage, assert_string. rewrite Hprompt. simpl.
  rewrite (eqb_empty_false _ Hne). simpl.
  unfold bind, call. by rewrite Hcall.
Qed.

(** The text returned when the service gave no image. *)
Lemma generateImage_no_image (s : Server) (args : gmap string any)
    (prompt textResponse : string) (result : GenerateContentResponse)
    (w w1 : W) :
  args !! "prompt" = Some (JString prompt) -> prompt <> empty ->
  client_GenerateContent geminiModel (genai_Text prompt) w = (Ok result, w1) ->
  extract_response result = Val (empty, textResponse) ->
  generateImage s args w =
    Out (Val (Ok
      {| call_Content :=
           [ text_content
               (if String.eqb textResponse empty
                then "No image was generated."
                else "No image was generated." ++ nl ++ nl
                     ++ "Model response: " ++ textResponse) ];
         call_IsError := false |})) w1
      [EvGenerateContent geminiModel (genai_Text prompt)].
Proof.
  intros Hprompt Hne Hcall Hextract.
  unfold generateImage, assert_string. rewrite Hprompt. simpl.
  rewrite (eqb_empty_false _ Hne). simpl.
  unfold bind at 1, call. rewrite Hcall. simpl.
  unfold bind, lift. rewrite Hextract. simpl.
  by destruct (String.eqb textResponse empty).
Qed.

Lemma editImage_no_image (s : Server) (args : gmap string any)
    (imagePath prompt textResponse : string)
    (result : GenerateContentResponse) (source : bytes) (w w0 w1 : W) :
  args !! "image_path" = Some (JString imagePath) -> imagePath <> empty ->
  args !! "prompt" = Some (JString prompt) -> prompt <> empty ->
  strings_Contains (filepath_Clean imagePath) ".." = false ->
  os_ReadFile (filepath_Clean imagePath) w = (Ok source, w0) ->
  client_GenerateContent geminiModel
    (edit_contents (filepath_Clean imagePath) prompt source) w0
    = (Ok result, w1) ->
  extract_response result = Val (empty, textResponse) ->
  editImage s args w =
    Out (Val (Ok
      {| call_Content :=
           [ text_content
               (if String.eqb textResponse empty
                then "No edited image was generated."
                else "No edited image was generated." ++ nl ++ nl
                     ++ "Model response: " ++ textResponse) ];
         call_IsError := false |})) w1
      [ EvReadFile (filepath_Clean imagePath);
        EvGenerateContent geminiModel
          (edit_contents (filepath_Clean imagePath) prompt source) ].
Proof.
  intros Hpath Hpne Hprompt Hne Hclean Hread Hcall Hextract.
  unfold editImage, assert_string. rewrite Hpath. simpl.
  rewrite (eqb_empty_false _ Hpne). simpl. rewrite Hprompt. simpl.
  rewrite (eqb_empty_false _ Hne). simpl. rewrite Hclean.
  unfold bind at 1, call at 1. rewrite Hread. simpl.
  unfold edit_contents in Hcall.
  unfold bind at 1, call. rewrite Hcall. simpl.
  unfold bind, lift. rewrite Hextract. simpl.
  by destruct (String.eqb textResponse empty).
Qed.

(** X9. When the response yields no image, both operations save nothing
    and return, not flagged as an error, one text: "No image was
    generated." (for edit_image, "No edited image was generated."),
    followed by the text of the model when it gave one. *)
Theorem no_image_is_reported (s : Server) (args : gmap string any)
    (prompt textResponse : string) (result : GenerateContentResponse) (w : W) :
  args !! "prompt" = Some (JString prompt) -> prompt <> empty ->
  extract_response result = Val (empty, textResponse) ->
  (forall w1,
     client_GenerateContent geminiModel (genai_Text prompt) w = (Ok result, w1) ->
     generateImage s args w =
       Out (Val (Ok
         {| call_Content :=
              [ text_content
                  (if String.eqb textResponse empty
                   then "No image was generated."
                   else "No image was generated." ++ nl ++ nl
                        ++ "Model response: " ++ textResponse) ];
            call_IsError := false |})) w1
         [EvGenerateContent geminiModel (genai_Text prompt)]) /\
  (forall imagePath source w0 w1,
     args !! "image_path" = Some (JString imagePath) -> imagePath <> empty ->
     strings_Contains (filepath_Clean imagePath) ".." = false ->
     os_ReadFile (filepath_Clean imagePath) w = (Ok source, w0) ->
     client_GenerateContent geminiModel
       (edit_contents (filepath_Clean imagePath) prompt source) w0
       = (Ok result, w1) ->
     editImage s args w =
       Out (Val (Ok
         {| call_Content :=
              [ text_content
                  (if String.eqb textResponse empty
                   then "No edited image was generated."
                   else "No edited image was generated." ++ nl ++ nl
                        ++ "Model response: " ++ textResponse) ];
            call_IsError := false |})) w1
         [ EvReadFile (filepath_Clean imagePath);
           EvGenerateContent geminiModel
             (edit_contents (filepath_Clean imagePath) prompt source) ]).
Proof.
  intros Hprompt Hne Hextract. split; intros.
  - by eapply generateImage_no_image.
  - by eapply editImage_no_image.
Qed.

(** X10. The file generate_image writes holds the very bytes of the image
    the service returned (the last part of the first candidate with
    inline data and no text), given that their base64 text is not empty
    and decodes back to them, and that the save step goes through; the
    image content of the result is that base64 text. *)
Theorem generated_file_holds_the_image (s : Server) (args : gmap string any)
    (prompt ts absPath : string) (ps : list Part) (blob : Blob)
    (others : list (option Candidate)) (w w1 w' : W) :
  args !! "prompt" = Some (JString prompt) -> prompt <> empty ->
  client_GenerateContent geminiModel (genai_Text prompt) w =
    (Ok {| gen_Candidates :=
             Some {| cand_Content := Some {| gc_Parts := Some <$> ps |} |}
             :: others |}, w1) ->
  last (omap image_of ps) = Some blob ->
  base64_EncodeToString (blob_Data blob) <> empty ->
  save_succeeds s "generated" (base64_EncodeToString (blob_Data blob)) ts
    (blob_Data blob) absPath w1 w' ->
  writes_of (events (generateImage s args w))
    = [(save_path s "generated" ts, blob_Data blob)] /\
  res (generateImage s args w) =
    Val (Ok
      {| call_Content :=
           [ text_content ("Image generated and saved to: " ++ absPath
                           ++ nl ++ nl ++ "Prompt: " ++ prompt);
             image_content (base64_EncodeToString (blob_Data blob))
               "image/png" ];
         call_IsError := false |}).
Proof.
  intros Hprompt Hne Hcall Hlast Himage Hsave.
  assert (extract_response
            {| gen_Candidates :=
                 Some {| cand_Content := Some {| gc_Parts := Some <$> ps |} |}
                 :: others |} =
          Val (base64_EncodeToString (blob_Data blob), texts_of ps))
    as Hextract.
  { unfold extract_response, first_candidate_parts. simpl.
    by rewrite extract_parts_collects, Hlast. }
  by rewrite (generateImage_saves s args _ _ _ _ _ _ _ _ _ _
                Hprompt Hne Hcall Hextract Himage Hsave).
Qed.

End ToolEffects.

Section EditEffects.

Context `{L : Lib} {W : Type} `{Sys : !System W}.

(** After the file is read, what remains of editImage reads no file. *)
Lemma saveImage_reads_nothing (P : Event -> Prop) (s : Server) (data prefix : string) :
  (forall e, match e with EvReadFile _ => False | _ => True end -> P e) ->
  emits P (saveImage s data prefix).
Proof.
  intros HP. unfold saveImage.
  repeat first
    [ apply emits_ret
    | apply emits_call; [by apply HP]
    | apply emits_bind; [|intros ?]
    | case_match ].
Qed.

(** X11. The only file editImage ever reads is the cleaned image_path, and
    never one whose path has ".." anywhere in it. *)
Theorem editImage_reads_only_clean_paths (s : Server) (args : gmap string any) (w : W) :
  Forall
    (fun e =>
       match e with
       | EvReadFile path =>
         (exists imagePath,
            args !! "image_path" = Some (JString imagePath) /\
            path = filepath_Clean imagePath) /\
         ~ exists pre post, path = pre ++ ".." ++ post
       | _ => True
       end)
    (events (editImage s args w)).
Proof.
  unfold editImage, assert_string.
  destruct (args !! "image_path") as [[| | |imagePath| |]|]; simpl;
    try by constructor.
  destruct (String.eqb imagePath empty); simpl; [by constructor|].
  destruct (args !! "prompt") as [[| | |prompt| |]|]; simpl;
    try by constructor.
  destruct (String.eqb prompt empty); simpl; [by constructor|].
  destruct (strings_Contains (filepath_Clean imagePath) "..") eqn:Hdots;
    [by constructor|].
  revert w. apply emits_bind.
  { apply emits_call. split; [by exists imagePath|].
    rewrite <- strings_Contains_spec. by rewrite Hdots. }
  intros [source|err]; [|apply emits_ret].
  apply emits_bind; [by apply emits_call|].
  intros [result|err]; [|apply emits_ret].
  apply emits_bind; [apply emits_lift|].
  intros [imageData textResponse]. case_match; [apply emits_ret|].
  apply emits_bind.
  { apply saveImage_reads_nothing. by intros []. }
  intros [?|?]; apply emits_ret.
Qed.

(** X12. When the source file cannot be read, edit_image returns "failed
    to read image: " followed by the cause; the read is its only event,
    so the service is not called and nothing is written. *)
Theorem editImage_read_failure (s : Server) (args : gmap string any)
    (imagePath prompt : string) (err : error) (w w0 : W) :
  args !! "image_path" = Some (JString imagePath) -> imagePath <> empty ->
  args !! "prompt" = Some (JString prompt) -> prompt <> empty ->
  strings_Contains (filepath_Clean imagePath) ".." = false ->
  os_ReadFile (filepath_Clean imagePath) w = (Err err, w0) ->
  editImage s args w =
    Out (Val (Err (wrapError ("failed to read image: " ++ error_Error err) err)))
      w0 [EvReadFile (filepath_Clean imagePath)].
Proof.
  intros Hpath Hpne Hprompt Hne Hclean Hread.
  unfold editImage, assert_string. rewrite Hpath. simpl.
  rewrite (eqb_empty_false _ Hpne). simpl. rewrite Hprompt. simpl.
  rewrite (eqb_empty_false _ Hne). simpl. rewrite Hclean.
  unfold bind, call. by rewrite Hread.
Qed.

(** getMimeType answers with one of four types. *)
Lemma getMimeType_range (path : string) : getMimeType path ∈ image_types.
Proof.
  unfold getMimeType, image_types. repeat case_match; set_solver.
Qed.

Lemma saveImage_calls_nothing (P : Event -> Prop) (s : Server) (data prefix : string) :
  (forall e, match e with EvGenerateContent _ _ => False | _ => True end -> P e) ->
  emits P (saveImage s data prefix).
Proof.
  intros HP. unfold saveImage.
  repeat first
    [ apply emits_ret
    | apply emits_call; [by apply HP]
    | apply emits_bind; [|intros ?]
    | case_match ].
Qed.

(** X13. Every outbound call names the model gemini-2.5-flash-image.
    generate_image sends genai.Text of its prompt; edit_image sends two
    parts, the bytes it read from the cleaned path under one of the four
    MIME types of getMimeType, then its prompt. *)
Theorem outbound_requests (s : Server) (args : gmap string any) (w : W) :
  Forall
    (fun e =>
       match e with
       | EvGenerateContent model contents =>
         model = geminiModel /\
         exists prompt,
           args !! "prompt" = Some (JString prompt) /\
           contents = genai_Text prompt
       | _ => True
       end)
    (events (generateImage s args w)) /\
  Forall
    (fun e =>
       match e with
       | EvGenerateContent model contents =>
         model = geminiModel /\
         exists imagePath prompt source,
           args !! "image_path" = Some (JString imagePath) /\
           args !! "prompt" = Some (JString prompt) /\
           (os_ReadFile (filepath_Clean imagePath) w).1 = Ok source /\
           getMimeType (filepath_Clean imagePath) ∈ image_types /\
           contents = edit_contents (filepath_Clean imagePath) prompt source
       | _ => True
       end)
    (events (editImage s args w)).
Proof.
  split.
  - unfold generateImage, assert_string.
    destruct (args !! "prompt") as [[| | |prompt| |]|]; simpl;
      try by constructor.
    destruct (String.eqb prompt empty); simpl; [by constructor|].
    revert w. apply emits_bind.
    { apply emits_call. split; [done|]. by exists prompt. }
    intros [result|err]; [|apply emits_ret].
    apply emits_bind; [apply emits_lift|].
    intros [imageData textResponse]. case_match; [apply emits_ret|].
    apply emits_bind.
    { apply saveImage_calls_nothing. by intros []. }
    intros [?|?]; apply emits_ret.
  - unfold editImage, assert_string.
    destruct (args !! "image_path") as [[| | |imagePath| |]|];
      simpl; try by constructor.
    destruct (String.eqb imagePath empty); simpl; [by constructor|].
    destruct (args !! "prompt") as [[| | |prompt| |]|]; simpl;
      try by constructor.
    destruct (String.eqb prompt empty); simpl; [by constructor|].
    destruct (strings_Contains (filepath_Clean imagePath) "..");
      [by constructor|].
    rewrite events_bind, call_outcome. simpl. constructor; [done|].
    destruct (os_ReadFile (filepath_Clean imagePath) w)
      as [[source|err] w0] eqn:Hread; simpl; [|by constructor].
    generalize w0. apply emits_bind.
    { apply emits_call. split; [done|].
      exists imagePath, prompt, source.
      repeat split; try done; [by rewrite Hread|apply getMimeType_range]. }
    intros [result|err]; [|apply emits_ret].
    apply emits_bind; [apply emits_lift|].
    intros [imageData textResponse]. case_match; [apply emits_ret|].
    apply emits_bind.
    { apply saveImage_calls_nothing. by intros []. }
    intros [?|?]; apply emits_ret.
Qed.

(** X14. Arguments that fail a check cost nothing: generate_image without
    a non-empty string prompt, and edit_image without a non-empty string
    image_path and prompt or with ".." in the cleaned path, return their
    error with no event and the world as it was. *)
Theorem invalid_arguments_have_no_effect (s : Server) (args : gmap string any) (w : W) :
  (generate_reaches_service args = false ->
   generateImage s args w =
     Out (Val (Err (errorString "prompt is required"))) w []) /\
  (edit_arguments_pass args = false ->
   exists msg,
     editImage s args w = Out (Val (Err (errorString msg))) w [] /\
     msg ∈ [ "image_path is required"; "prompt is required";
             "invalid image path: directory traversal not allowed" ]).
Proof.
  split.
  - unfold generate_reaches_service, generateImage, assert_string.
    destruct (args !! "prompt") as [[| | |prompt| |]|]; simpl; try done.
    by destruct (String.eqb prompt empty).
  - unfold edit_arguments_pass, editImage, assert_string.
    destruct (args !! "image_path") as [[| | |imagePath| |]|]; simpl;
      try (intros _; eexists; split; [done|set_solver]).
    destruct (String.eqb imagePath empty); simpl;
      [intros _; eexists; split; [done|set_solver]|].
    destruct (args !! "prompt") as [[| | |prompt| |]|]; simpl;
      try (intros _; eexists; split; [done|set_solver]).
    destruct (String.eqb prompt empty); simpl;
      [intros _; eexists; split; [done|set_solver]|].
    destruct (strings_Contains (filepath_Clean imagePath) ".."); [|done].
    intros _; eexists; split; [done|set_solver].
Qed.

End EditEffects.

(** ** More on the loop and the process *)

Section LoopEffects.

Context `{L : Lib} {W : Type} `{Sys : !System W}.

Lemma bind_ret_l {A B} (a : A) (k : A -> M W B) (w : W) :
  bind (ret a) k w = k a w.
Proof. unfold bind, ret. by destruct (k a w). Qed.

Lemma Run_loop_app (s : Server) (lines1 lines2 : list string) (w : W) :
  Run_loop s (lines1 ++ lines2) w =
    (Run_loop s lines1 ;; Run_loop s lines2) w.
Proof.
  revert w. induction lines1 as [|line rest IH]; intros w.
  { exact (eq_sym (bind_ret_l tt (fun _ => Run_loop s lines2) w)). }
  simpl app. unfold bind at 1. rewrite !Run_loop_cons.
  destruct (Run_body s line w) as [[[]|msg] w1 t1]; [|done].
  rewrite IH. unfold bind.
  destruct (Run_loop s rest w1) as [[[]|msg] w2 t2]; [|done].
  destruct (Run_loop s lines2 w2) as [r w3 t3].
  by rewrite app_comm_cons, app_assoc.
Qed.

(** X15. Input is consumed line by line: a run over two inputs laid end
    to end is the run over the first followed, from the world it left and
    unless it panicked, by the run over the second. *)
Theorem Run_composes (s : Server) (lines1 lines2 : list string)
    (err : option error) (w : W) :
  Run s {| stdin_lines := lines1 ++ lines2; stdin_err := err |} w =
    (Run s {| stdin_lines := lines1; stdin_err := None |} ;;
     Run s {| stdin_lines := lines2; stdin_err := err |}) w.
Proof.
  unfold bind at 1. rewrite !Run_outcome. simpl. rewrite Run_loop_app.
  unfold bind.
  destruct (Run_loop s lines1 w) as [[[]|msg] w1 t1]; [|done].
  rewrite Run_outcome. simpl.
  by destruct (Run_loop s lines2 w1) as [[[]|msg] w2 t2].
Qed.

(** X16. A run writes nothing that was not asked for: in every run, also
    one cut short by a panic, the lines of standard output are replies to
    distinct lines of the input that were due a reply, in their order. *)
Theorem Run_output_is_solicited (s : Server) (input : Stdin) (w : W) :
  exists served,
    served `sublist_of` List.filter reply_due (stdin_lines input) /\
    Forall2 (reply_to s) served (stdout_of (events (Run s input w))).
Proof.
  assert (forall lines w,
    exists served,
      served `sublist_of` List.filter reply_due lines /\
      Forall2 (reply_to s) served (stdout_of (events (Run_loop s lines w))))
    as Hloop.
  { clear. intros lines. induction lines as [|line rest IH]; intros w.
    { exists []. by split; [|constructor]. }
    rewrite Run_loop_cons.
    destruct (Run_body_cases s line w) as (work & Hwork & Hbody).
    destruct (Run_body s line w) as [[[]|msg] w1 t1]; simpl in *.
    - destruct (IH w1) as (served & Hsub & Hserved).
      destruct (Run_loop s rest w1) as [r w2 t2]. simpl in *.
      change (EvScan line :: t1 ++ t2)%list
        with ([EvScan line] ++ t1 ++ t2)%list.
      rewrite !stdout_of_app.
      destruct Hbody
        as [[-> _]|(req & resp & out & Hdue & Hreq & Hresp & Hout & _ & ->)].
      + rewrite (stdout_of_tool_events _ Hwork). simpl.
        exists served. split; [|done].
        destruct (reply_due line); [by apply sublist_cons|done].
      + rewrite Hdue, stdout_of_app, (stdout_of_tool_events _ Hwork). simpl.
        exists (line :: served). split; [by apply sublist_skip|].
        constructor; [|done].
        exists req, resp, w. repeat split; try done.
        by apply handleRequest_response in Hresp as (_ & ? & _).
    - exists []. split; [apply sublist_nil_l|].
      destruct Hbody as [[-> _]|(_ & _ & _ & _ & _ & _ & _ & [=] & _)].
      change (stdout_of (EvScan line :: work)) with (stdout_of work).
      rewrite (stdout_of_tool_events _ Hwork). constructor. }
  rewrite Run_outcome.
  destruct (Hloop (stdin_lines input) w) as (served & Hsub & Hserved).
  exists served. split; [done|].
  by destruct (Run_loop s (stdin_lines input) w) as [[[]|msg] w1 t1].
Qed.

(** X17. A session without tools/call cannot crash and has no effect
    outside the standard streams: when no line decodes to a tools/call
    request, the run returns what scanner.Err() holds, the world is as it
    was, and no event is a tool event. *)
Theorem Run_without_tool_calls (s : Server) (input : Stdin) (w : W) :
  Forall
    (fun line =>
       forall req,
         json_Unmarshal_request line = Some req ->
         req_Method req <> "tools/call")
    (stdin_lines input) ->
  res (Run s input w) = Val (stdin_err input) /\
  final (Run s input w) = w /\
  Forall (fun e => is_tool_event e = false) (events (Run s input w)).
Proof.
  intros Hlines. rewrite Run_outcome.
  assert (res (Run_loop s (stdin_lines input) w) = Val tt /\
          final (Run_loop s (stdin_lines input) w) = w /\
          Forall (fun e => is_tool_event e = false)
            (events (Run_loop s (stdin_lines input) w))) as Hloop.
  { induction Hlines as [|line rest Hline _ IH]; [by repeat split|].
    rewrite Run_loop_cons.
    assert (exists t,
              Run_body s line w = Out (Val tt) w t /\
              Forall (fun e => is_tool_event e = false) t)
      as (t & -> & Ht).
    { unfold Run_body.
      destruct (String.eqb line empty); [by exists []|].
      destruct (json_Unmarshal_request line) as [req|]; [|by exists []].
      destruct (handleRequest_other_method s req w (Hline req eq_refl))
        as [resp Hresp].
      unfold bind. rewrite Hresp. unfold Run_reply.
      destruct resp as [resp|]; [|by exists []].
      destruct (json_Marshal resp) as [out|]; [|by exists []].
      exists [EvPrintln out; EvSync]. split; [done|]. by repeat constructor. }
    destruct IH as (Hres & Hfinal & Hevents).
    destruct (Run_loop s rest w) as [r w1 t1]. simpl in *.
    repeat split; try done. constructor; [done|]. by apply Forall_app. }
  destruct Hloop as (Hres & Hfinal & Hevents).
  destruct (Run_loop s (stdin_lines input) w) as [[[]|msg] w1 t1];
    simpl in *; by simplify_eq.
Qed.

End LoopEffects.

Section ProcessEffects.

Context `{L : Lib} {W : Type} `{Sys : !System W}.

Lemma emits_log (P : Event -> Prop) (e : Event) : P e -> emits (W := W) P (log e).
Proof. intros He w. by repeat constructor. Qed.

Lemma emits_bind_call {A B} (P : Event -> Prop) (e : Event)
    (f : W -> A * W) (k : A -> M W B) :
  P e -> (forall w, emits P (k (f w).1)) -> emits P (bind (call e f) k).
Proof.
  intros He Hk w. unfold bind, call. specialize (Hk w).
  destruct (f w) as [a w1]. simpl in *. specialize (Hk w1).
  destruct (k a w1) as [r w2 t2]. simpl. by constructor.
Qed.

Lemma saveImage_stays (s : Server) (data prefix : string) :
  clock_prints_timestamps ->
  prefix ∈ ["generated"; "edited"] ->
  emits (stays_in_output_dir (outputDir s)) (saveImage s data prefix).
Proof.
  intros Hclock Hprefix. unfold saveImage.
  apply emits_bind; [by apply emits_call|].
  intros [err|]; [apply emits_ret|].
  apply emits_bind_call; [done|]. intros w0.
  destruct (base64_DecodeString data) as [imageBytes|err]; [|apply emits_ret].
  apply emits_bind.
  { apply emits_call. split; [done|]. exists prefix, w0.
    by repeat split. }
  intros [err|]; [apply emits_ret|].
  apply emits_bind; [by apply emits_call|].
  intros [?|?]; apply emits_ret.
Qed.

Lemma handleRequest_stays (s : Server) (req : JSONRPCRequest) :
  clock_prints_timestamps ->
  emits (stays_in_output_dir (outputDir s)) (handleRequest s req).
Proof.
  intros Hclock.
  unfold handleRequest, handleCallTool, generateImage, editImage.
  repeat first
    [ apply emits_ret
    | apply emits_lift
    | apply saveImage_stays; [done|set_solver]
    | apply emits_call; done
    | apply emits_bind; [|intros ?]
    | case_match ].
Qed.

Lemma Run_stays (s : Server) (input : Stdin) :
  clock_prints_timestamps ->
  emits (stays_in_output_dir (outputDir s)) (Run s input).
Proof.
  intros Hclock.
  unfold Run. apply emits_bind; [|intros ?; apply emits_ret].
  induction (stdin_lines input) as [|line rest IH]; [apply emits_ret|].
  simpl. apply emits_bind; [by apply emits_log|]. intros _.
  apply emits_bind; [|by intros _].
  unfold Run_body, Run_reply.
  repeat first
    [ apply emits_ret
    | apply handleRequest_stays; done
    | apply emits_log; done
    | apply emits_bind; [|intros ?]
    | case_match ].
Qed.

Lemma main_output_dir (args : list string) :
  (if (1 <? List.length args)%nat
   then match args !! 1%nat with Some arg => arg | None => empty end
   else defaultOutputDir) = output_dir_of args.
Proof. by destruct args as [|? [|? ?]]. Qed.

(** X18. The process writes only what is its own.  Let the clock print
    timestamps (digits, hyphens and the letter T, as [time.Format] does
    for the layout 2006-01-02T15-04-05), and let the output directory be
    the first command-line argument ("generated" when there is none).
    Then every call of [os.MkdirAll] is for [filepath.Join] of "." and
    that directory, with mode 0755, and every call of [os.WriteFile] has
    mode 0644 and a path that [filepath.Join] makes of that same
    directory and a file name generated-<ts>.png or edited-<ts>.png,
    where <ts> is a reading of the clock: a name without a path
    separator and without a dot before its extension. *)
Theorem main_stays_in_output_dir (args : list string) (clientErr : option error)
    (input : Stdin) (w : W) :
  (forall w0 : W,
     is_timestamp (time_Now_Format "2006-01-02T15-04-05" w0).1 = true) ->
  Forall (stays_in_output_dir (output_dir_of args))
    (events (main args clientErr input w)).
Proof.
  intros Hclock.
  revert w. change (emits (stays_in_output_dir (output_dir_of args))
                      (main args clientErr input)).
  unfold main. destruct clientErr as [err|]; [apply emits_ret|].
  rewrite main_output_dir.
  apply emits_bind; [by apply (Run_stays (NewServer (output_dir_of args)))|].
  intros [?|]; apply emits_ret.
Qed.

(** X19. How the process ends.  When the client cannot be created, main
    reads nothing and exits with status 1 and "Failed to create Gemini
    client: ..." on standard error.  Otherwise its events are those of
    the run of the server; it exits with status 0 when the scanner ended
    without an error, with status 1 and "Server error: ..." when the
    scanner failed, and a panic of the run goes through. *)
Theorem main_exit (args : list string) (clientErr : option error)
    (input : Stdin) (w : W) :
  match clientErr with
  | Some err =>
    main args clientErr input w =
      Out (Val {| exit_status := 1;
                  exit_stderr :=
                    "Failed to create Gemini client: " ++ error_Error err ++ nl |})
        w []
  | None =>
    events (main args clientErr input w)
      = events (Run (NewServer (output_dir_of args)) input w) /\
    final (main args clientErr input w)
      = final (Run (NewServer (output_dir_of args)) input w) /\
    res (main args clientErr input w) =
      match res (Run (NewServer (output_dir_of args)) input w), stdin_err input with
      | Val _, None => Val {| exit_status := 0; exit_stderr := empty |}
      | Val _, Some err =>
        Val {| exit_status := 1;
               exit_stderr := "Server error: " ++ error_Error err ++ nl |}
      | Panic msg, _ => Panic msg
      end
  end.
Proof.
  unfold main. destruct clientErr as [err|]; [done|].
  rewrite main_output_dir. unfold bind. rewrite Run_outcome.
  destruct (Run_loop (NewServer (output_dir_of args)) (stdin_lines input) w)
    as [[[]|msg] w1 t1]; simpl; [|done].
  destruct (stdin_err input); simpl; by rewrite app_nil_r.
Qed.

End ProcessEffects.

Section Schema.

Context `{L : Lib} {W : Type} `{Sys : !System W}.

(** X27. What tools/list advertises is what tools/call enforces.  Every
    advertised tool has an operation; each argument its schema requires
    is one of the declared properties, of type string; and a call that
    lacks a required argument is refused with "<name> is required", for
    one of the required names, without any event and with the world as it
    was. *)
Theorem advertised_schema_is_enforced (s : Server) (tool : Tool)
    (args : gmap string any) (w : W) :
  tool ∈ tools ->
  Forall
    (fun name =>
       exists property,
         schema_Properties (tool_InputSchema tool) !! name = Some property /\
         prop_Type property = "string")
    (schema_Required (tool_InputSchema tool)) /\
  exists operation,
    tool_operation s (tool_Name tool) = Some operation /\
    ((exists name,
        name ∈ schema_Required (tool_InputSchema tool) /\
        args !! name = None) ->
     exists name,
       name ∈ schema_Required (tool_InputSchema tool) /\
       operation args w =
         Out (Val (Err (errorString (name ++ " is required")))) w []).
Proof.
  unfold tools. rewrite !elem_of_cons, elem_of_nil.
  intros [->|[->|[]]]; simpl.
  - split; [repeat constructor; by eexists|].
    eexists. split; [done|]. intros (name & Hname & Hmissing).
    apply list_elem_of_singleton in Hname as ->.
    exists "prompt". split; [apply list_elem_of_here|].
    unfold generateImage, assert_string. by rewrite Hmissing.
  - split; [repeat constructor; by eexists|].
    eexists. split; [done|]. intros (name & Hname & Hmissing).
    unfold editImage, assert_string.
    destruct (args !! "image_path") as [[| | |imagePath| |]|] eqn:Hpath;
      simpl; try (exists "image_path"; split; [apply list_elem_of_here|done]).
    destruct (String.eqb imagePath empty); simpl;
      [exists "image_path"; split; [apply list_elem_of_here|done]|].
    exists "prompt".
    split; [apply list_elem_of_further, list_elem_of_here|].
    apply elem_of_cons in Hname as [->|Hname]; [congruence|].
    apply list_elem_of_singleton in Hname as ->. by rewrite Hmissing.
Qed.
End Schema.

(** X27, witness: generate_image, called without any argument. *)
Lemma advertised_schema_is_enforced_witness :
  exists operation,
    tool_operation (L := Fixture.lib) (Sys := Fixture.sys) Fixture.server
      "generate_image" = Some operation /\
    ((exists name, name ∈ ["prompt"] /\ (∅ : gmap string any) !! name = None) ->
     exists name,
       name ∈ ["prompt"] /\
       operation ∅ (Fixture.world0 []) =
         Out (Val (Err (errorString (name ++ " is required"))))
           (Fixture.world0 []) []).
Proof.
  apply (proj2 (advertised_schema_is_enforced (L := Fixture.lib)
                  (Sys := Fixture.sys) Fixture.server
                  {| tool_Name := "generate_image";
                     tool_Description :=
                       "Generate a new image from a text prompt using Google Gemini";
                     tool_InputSchema :=
                       {| schema_Type := "object";
                          schema_Properties :=
                            {[ "prompt" :=
                                 {| prop_Type := "string";
                                    prop_Description :=
                                      "Text description of the image to generate" |} ]};
                          schema_Required := ["prompt"] |} |}
                  ∅ (Fixture.world0 []) (list_elem_of_here _ _))).
Defined.

(** X18, witness: the server started with the directory out, and one
    generate_image call that saves an image. *)
Lemma main_stays_in_output_dir_witness :
  Forall (stays_in_output_dir (L := Fixture.lib) (Sys := Faults.checked_clock)
            "out")
    (events
       (main (L := Fixture.lib) (Sys := Faults.checked_clock)
          ["nano-banana-mcp"; "out"] None
          {| stdin_lines := [Fixture.line_call "3" Fixture.params_generate];
             stdin_err := None |}
          (Fixture.world0 [Fixture.reply [Fixture.image_part Fixture.png]]))).
Proof.
  apply (main_stays_in_output_dir (L := Fixture.lib)
           (Sys := Faults.checked_clock) ["nano-banana-mcp"; "out"]).
  intros w0. simpl.
  by destruct (is_timestamp (Fixture.clock w0)) eqn:Hclock.
Defined.

(** X7, witness: the working directory is gone when the path is resolved. *)
Lemma saveImage_abs_failure_witness :
  saveImage (L := Fixture.lib)
      (Sys := Faults.sys None None (Some (errorString "getwd: no such file or directory")))
      Fixture.server "UE5H" "generated" (Fixture.world0 []) =
    Out (Val (Err (wrapError
        "failed to get absolute path: getwd: no such file or directory"
        (errorString "getwd: no such file or directory"))))
      {| Fixture.files :=
           <[ "generated/generated-2026-01-02T03-04-05.png" := Fixture.png ]>
           {[ "in/cat.png" := Fixture.png ]};
         Fixture.replies := [];
         Fixture.clock := "2026-01-02T03-04-05";
         Fixture.cwd := "/srv" |}
      [ EvMkdirAll "generated" perm_0755;
        EvNow;
        EvWriteFile "generated/generated-2026-01-02T03-04-05.png"
          Fixture.png perm_0644;
        EvAbs "generated/generated-2026-01-02T03-04-05.png" ].
Proof.
  apply (saveImage_abs_failure (L := Fixture.lib)
           (Sys := Faults.sys None None
                     (Some (errorString "getwd: no such file or directory")))
           Fixture.server "UE5H" "generated" "2026-01-02T03-04-05"
           Fixture.png (errorString "getwd: no such file or directory")
           (Fixture.world0 []) (Fixture.world0 []) (Fixture.world0 [])
           {| Fixture.files :=
                <[ "generated/generated-2026-01-02T03-04-05.png" := Fixture.png ]>
                {[ "in/cat.png" := Fixture.png ]};
              Fixture.replies := [];
              Fixture.clock := "2026-01-02T03-04-05";
              Fixture.cwd := "/srv" |}).
  - reflexivity.
  - reflexivity.
  - reflexivity.
  - reflexivity.
  - reflexivity.
Defined.

(** X8, witness: the connection to the service is reset. *)
Lemma api_failure_reply_witness :
  Fixture.handle
      (Fixture.request (JNumber "3") "tools/call" Fixture.params_generate)
      (Fixture.world0 [Err (errorString "connection reset by peer")]) =
    Out (Val (Some
      {| resp_JSONRPC := "2.0";
         resp_ID := JNumber "3";
         resp_Result := Some (ResCallTool
           {| call_Content :=
                [ text_content
                    "Error: API request failed: connection reset by peer" ];
              call_IsError := true |});
         resp_Error := None |})) (Fixture.world0 [])
      [ EvGenerateContent geminiModel
          [ {| gc_Parts := [Fixture.text_part "a red fox"] |} ] ].
Proof.
  apply (api_failure_reply (L := Fixture.lib) (Sys := Fixture.sys)
           Fixture.server
           (Fixture.request (JNumber "3") "tools/call" Fixture.params_generate)
           {| params_Name := "generate_image";
              params_Arguments := {[ "prompt" := JString "a red fox" ]} |}
           "a red fox" (errorString "connection reset by peer")).
  - reflexivity.
  - reflexivity.
  - reflexivity.
  - reflexivity.
  - discriminate.
  - reflexivity.
Defined.

(** X9, witness: the model answers both operations with a refusal. *)
Lemma no_image_is_reported_witness :
  Fixture.generate
      (<[ "image_path" := JString "in/cat.png" ]>
       {[ "prompt" := JString "add a hat" ]})
      (Fixture.world0 [Fixture.reply [Fixture.text_part "I cannot do that."]]) =
    Out (Val (Ok
      {| call_Content :=
           [ text_content
               ("No image was generated." ++ nl ++ nl
                ++ "Model response: " ++ "I cannot do that.") ];
         call_IsError := false |})) (Fixture.world0 [])
      [ EvGenerateContent geminiModel
          [ {| gc_Parts := [Fixture.text_part "add a hat"] |} ] ] /\
  Fixture.edit
      (<[ "image_path" := JString "in/cat.png" ]>
       {[ "prompt" := JString "add a hat" ]})
      (Fixture.world0 [Fixture.reply [Fixture.text_part "I cannot do that."]]) =
    Out (Val (Ok
      {| call_Content :=
           [ text_content
               ("No edited image was generated." ++ nl ++ nl
                ++ "Model response: " ++ "I cannot do that.") ];
         call_IsError := false |})) (Fixture.world0 [])
      [ EvReadFile "in/cat.png";
        EvGenerateContent geminiModel
          [ {| gc_Parts :=
                 [ Fixture.image_part Fixture.png;
                   Fixture.text_part "add a hat" ] |} ] ].
Proof.
  destruct (no_image_is_reported (L := Fixture.lib) (Sys := Fixture.sys)
              Fixture.server
              (<[ "image_path" := JString "in/cat.png" ]>
               {[ "prompt" := JString "add a hat" ]})
              "add a hat" "I cannot do that."
              {| gen_Candidates :=
                   [ Some {| cand_Content :=
                               Some {| gc_Parts :=
                                         [Fixture.text_part "I cannot do that."] |} |} ] |}
              (Fixture.world0
                 [Fixture.reply [Fixture.text_part "I cannot do that."]]))
    as [Hgenerate Hedit].
  - reflexivity.
  - discriminate.
  - reflexivity.
  - split.
    + apply (Hgenerate (Fixture.world0 [])). reflexivity.
    + apply (Hedit "in/cat.png" Fixture.png
               (Fixture.world0
                  [Fixture.reply [Fixture.text_part "I cannot do that."]])
               (Fixture.world0 [])).
      * reflexivity.
      * discriminate.
      * reflexivity.
      * reflexivity.
      * reflexivity.
Defined.

(** X10, witness: the three bytes of [Fixture.png] go from the service to
    the file. *)
Lemma generated_file_holds_the_image_witness :
  writes_of (events
    (Fixture.generate {[ "prompt" := JString "a red fox" ]}
       (Fixture.world0 [Fixture.reply [Fixture.image_part Fixture.png]])))
    = [("generated/generated-2026-01-02T03-04-05.png", Fixture.png)] /\
  res (Fixture.generate {[ "prompt" := JString "a red fox" ]}
         (Fixture.world0 [Fixture.reply [Fixture.image_part Fixture.png]])) =
    Val (Ok
      {| call_Content :=
           [ text_content
               ("Image generated and saved to: "
                ++ "/srv/generated/generated-2026-01-02T03-04-05.png"
                ++ nl ++ nl ++ "Prompt: " ++ "a red fox");
             image_content "UE5H" "image/png" ];
         call_IsError := false |}).
Proof.
  apply (generated_file_holds_the_image (L := Fixture.lib) (Sys := Fixture.sys)
           Fixture.server {[ "prompt" := JString "a red fox" ]}
           "a red fox" "2026-01-02T03-04-05"
           "/srv/generated/generated-2026-01-02T03-04-05.png"
           [ {| part_Text := empty;
                part_InlineData :=
                  Some {| blob_MIMEType := "image/png";
                          blob_Data := Fixture.png |} |} ]
           {| blob_MIMEType := "image/png"; blob_Data := Fixture.png |}
           [] (Fixture.world0 [Fixture.reply [Fixture.image_part Fixture.png]])
           (Fixture.world0 [])
           {| Fixture.files :=
                <[ "generated/generated-2026-01-02T03-04-05.png" := Fixture.png ]>
                {[ "in/cat.png" := Fixture.png ]};
              Fixture.replies := [];
              Fixture.clock := "2026-01-02T03-04-05";
              Fixture.cwd := "/srv" |}).
  - reflexivity.
  - discriminate.
  - reflexivity.
  - reflexivity.
  - discriminate.
  - exists (Fixture.world0 []), (Fixture.world0 []).
    eexists. repeat split; reflexivity.
Defined.

(** X12, witness: the file of the test TestEditImageFileNotFound. *)
Lemma editImage_read_failure_witness :
  Fixture.edit
      (<[ "image_path" := JString "/nonexistent/image.png" ]>
       {[ "prompt" := JString "test prompt" ]}) (Fixture.world0 []) =
    Out (Val (Err (wrapError
        ("failed to read image: "
         ++ "open /nonexistent/image.png: no such file or directory")
        (errorString "open /nonexistent/image.png: no such file or directory"))))
      (Fixture.world0 []) [EvReadFile "/nonexistent/image.png"].
Proof.
  apply (editImage_read_failure (L := Fixture.lib) (Sys := Fixture.sys)
           Fixture.server
           (<[ "image_path" := JString "/nonexistent/image.png" ]>
            {[ "prompt" := JString "test prompt" ]})
           "/nonexistent/image.png" "test prompt"
           (errorString "open /nonexistent/image.png: no such file or directory")
           (Fixture.world0 []) (Fixture.world0 [])).
  - reflexivity.
  - discriminate.
  - reflexivity.
  - discriminate.
  - reflexivity.
  - reflexivity.
Defined.

(** X14, witness: both operations without any argument. *)
Lemma invalid_arguments_have_no_effect_witness :
  Fixture.generate ∅ (Fixture.world0 []) =
    Out (Val (Err (errorString "prompt is required"))) (Fixture.world0 []) [] /\
  exists msg,
    Fixture.edit ∅ (Fixture.world0 []) =
      Out (Val (Err (errorString msg))) (Fixture.world0 []) [] /\
    msg ∈ [ "image_path is required"; "prompt is required";
            "invalid image path: directory traversal not allowed" ].
Proof.
  destruct (invalid_arguments_have_no_effect (L := Fixture.lib)
              (Sys := Fixture.sys) Fixture.server ∅ (Fixture.world0 []))
    as [Hgenerate Hedit].
  split; [by apply Hgenerate|by apply Hedit].
Defined.

(** X17, witness: the session of [Fixture], which calls no tool. *)
Lemma Run_without_tool_calls_witness :
  res (Run (L := Fixture.lib) (Sys := Fixture.sys) Fixture.server
         Fixture.session (Fixture.world0 [])) = Val None /\
  final (Run (L := Fixture.lib) (Sys := Fixture.sys) Fixture.server
           Fixture.session (Fixture.world0 [])) = Fixture.world0 [] /\
  Forall (fun e => is_tool_event e = false)
    (events (Run (L := Fixture.lib) (Sys := Fixture.sys) Fixture.server
               Fixture.session (Fixture.world0 []))).
Proof.
  apply (Run_without_tool_calls (L := Fixture.lib) (Sys := Fixture.sys)
           Fixture.server Fixture.session (Fixture.world0 [])).
  repeat constructor; intros req Hreq; vm_compute in Hreq;
    by simplify_eq.
Defined.

(** ** The earlier variant *)

Section LegacyOperations.

Local Open Scope legacy_scope.

Context `{L : Lib} `{J : Legacy.Json} {W : Type} `{Sys : !System W}
  `{N : !Legacy.Net W}.

Lemma legacy_extract_parts_collects (parts : list Legacy.GeminiPart)
    (imageData textResponse : string) :
  Legacy.extract_parts parts imageData textResponse =
    (default imageData (last (omap Legacy.image_of parts)),
     textResponse ++ Legacy.texts_of parts).
Proof.
  revert imageData textResponse.
  induction parts as [|part rest IH]; intros imageData textResponse; simpl.
  { by rewrite string_app_empty_r. }
  rewrite IH. f_equal.
  - unfold Legacy.image_of at 2.
    destruct (Legacy.gpart_InlineData part) as [inline|]; [|done].
    destruct (String.eqb (Legacy.inline_Data inline) empty); simpl; [done|].
    fold (omap Legacy.image_of rest). rewrite last_cons.
    by destruct (last (omap Legacy.image_of rest)).
  - destruct (String.eqb_spec (Legacy.gpart_Text part) empty) as [->|_];
      simpl; [done|]. by rewrite string_app_assoc.
Qed.

Lemma legacy_texts_of_app (parts1 parts2 : list Legacy.GeminiPart) :
  Legacy.texts_of (parts1 ++ parts2)
    = Legacy.texts_of parts1 ++ Legacy.texts_of parts2.
Proof.
  induction parts1 as [|part rest IH]; [done|].
  simpl. unfold Legacy.texts_of in *. simpl. rewrite IH.
  by rewrite string_app_assoc.
Qed.

(** X20. The extraction of the earlier variant reads every part of every
    candidate and cannot fail: the text returned is the concatenation of
    all texts, in order, and the image is the last non-empty inline data
    (the empty string when there is none, as for a response without
    candidates); a part gives its image and its text alike. *)
Theorem legacy_extract_collects (candidates : list Legacy.GeminiCandidate)
    (imageData textResponse : string) :
  Legacy.extract_candidates candidates imageData textResponse =
    (default imageData
       (last (omap Legacy.image_of (Legacy.all_parts candidates))),
     textResponse ++ Legacy.texts_of (Legacy.all_parts candidates)).
Proof.
  revert imageData textResponse.
  induction candidates as [|candidate rest IH];
    intros imageData textResponse.
  { simpl. by rewrite string_app_empty_r. }
  simpl. rewrite legacy_extract_parts_collects, IH.
  unfold Legacy.all_parts. simpl.
  rewrite omap_app, last_app, legacy_texts_of_app, string_app_assoc.
  f_equal. by destruct (last (omap Legacy.image_of (mbind _ rest))).
Qed.

(** X21. callGemini closes what it opens.  It sends at most one request,
    to the endpoint followed by the API key, with content type
    application/json and the marshalled request as body; when the request
    fails nothing else happens, and when it succeeds the body is read
    once and closed once, last of all, whatever the status and the
    content. *)
Theorem callGemini_closes_the_body (s : Legacy.Server) (prompt : string)
    (sourceImage : option Legacy.InlineData) (w : W) :
  match Legacy.json_Marshal_request (Legacy.request_body prompt sourceImage) with
  | Err _ => Legacy.events (Legacy.callGemini s prompt sourceImage w) = []
  | Ok body =>
    let url := Legacy.endpoint ++ Legacy.apiKey s in
    match (Legacy.http_Post url "application/json" body w).1 with
    | Err _ =>
      Legacy.events (Legacy.callGemini s prompt sourceImage w)
        = [Legacy.LPost url "application/json" body]
    | Ok _ =>
      Legacy.events (Legacy.callGemini s prompt sourceImage w)
        = [ Legacy.LPost url "application/json" body;
            Legacy.LReadAll; Legacy.LClose ]
    end
  end.
Proof.
  unfold Legacy.callGemini.
  destruct (Legacy.json_Marshal_request _) as [body|err]; [|done].
  unfold Legacy.bind, Legacy.call, Legacy.log, Legacy.ret. simpl.
  destruct (Legacy.http_Post _ _ _ w) as [[resp|err] w1]; simpl; [|done].
  destruct (Legacy.io_ReadAll resp w1) as [[read|err] w2]; simpl; [|done].
  destruct (negb _); simpl; [done|].
  by destruct (Legacy.json_Unmarshal_response read).
Qed.

(** X22. Without an API key neither operation does anything: whatever the
    arguments, it returns "GEMINI_API_KEY environment variable not set",
    with no event and the world as it was. *)
Theorem legacy_needs_api_key (args : gmap string any) (w : W) :
  Legacy.generateImage {| Legacy.apiKey := empty |} args w =
    Legacy.Out
      (Val (Err (errorString "GEMINI_API_KEY environment variable not set")))
      w [] /\
  Legacy.editImage {| Legacy.apiKey := empty |} args w =
    Legacy.Out
      (Val (Err (errorString "GEMINI_API_KEY environment variable not set")))
      w [].
Proof. by split. Qed.

Lemma callGemini_status (s : Legacy.Server) (prompt body answer : string)
    (sourceImage : option Legacy.InlineData) (resp : Legacy.HTTPResponse)
    (w w1 w2 : W) :
  Legacy.json_Marshal_request (Legacy.request_body prompt sourceImage)
    = Ok body ->
  Legacy.http_Post (Legacy.endpoint ++ Legacy.apiKey s) "application/json"
    body w = (Ok resp, w1) ->
  Legacy.io_ReadAll resp w1 = (Ok answer, w2) ->
  Legacy.StatusCode resp <> 200%Z ->
  Legacy.callGemini s prompt sourceImage w =
    Legacy.Out
      (Val (Err (errorString
         ("API error (status " ++ pretty (Legacy.StatusCode resp) ++ "): "
          ++ answer))))
      w2
      [ Legacy.LPost (Legacy.endpoint ++ Legacy.apiKey s) "application/json" body;
        Legacy.LReadAll; Legacy.LClose ].
Proof.
  intros Hbody Hpost Hread Hstatus%Z.eqb_neq.
  unfold Legacy.callGemini. rewrite Hbody.
  unfold Legacy.bind, Legacy.call, Legacy.log, Legacy.ret.
  rewrite Hpost. simpl. rewrite Hread. simpl.
  unfold Legacy.http_StatusOK. by rewrite Hstatus.
Qed.

(** X23. A status other than 200 is an error of its own: generate_image
    returns "API error (status <code>): <body>", not wrapped any further,
    after the request, the read and the close; nothing is saved. *)
Theorem legacy_status_error (s : Legacy.Server) (args : gmap string any)
    (prompt body answer : string) (resp : Legacy.HTTPResponse) (w w1 w2 : W) :
  Legacy.apiKey s <> empty ->
  args !! "prompt" = Some (JString prompt) -> prompt <> empty ->
  Legacy.json_Marshal_request (Legacy.request_body prompt None) = Ok body ->
  Legacy.http_Post (Legacy.endpoint ++ Legacy.apiKey s) "application/json"
    body w = (Ok resp, w1) ->
  Legacy.io_ReadAll resp w1 = (Ok answer, w2) ->
  Legacy.StatusCode resp <> 200%Z ->
  Legacy.generateImage s args w =
    Legacy.Out
      (Val (Err (errorString
         ("API error (status " ++ pretty (Legacy.StatusCode resp) ++ "): "
          ++ answer))))
      w2
      [ Legacy.LPost (Legacy.endpoint ++ Legacy.apiKey s) "application/json" body;
        Legacy.LReadAll; Legacy.LClose ].
Proof.
  intros Hkey Hprompt Hne Hbody Hpost Hread Hstatus.
  unfold Legacy.generateImage, assert_string.
  rewrite (eqb_empty_false _ Hkey), Hprompt. simpl.
  rewrite (eqb_empty_false _ Hne). simpl.
  unfold Legacy.bind.
  by rewrite (callGemini_status s prompt body answer None resp w w1 w2).
Qed.

(** X24. A response without candidates is no failure here: generate_image
    returns, not flagged as an error, the text "No image was generated.",
    and saves nothing. *)
Theorem legacy_no_candidates (s : Legacy.Server) (args : gmap string any)
    (prompt body answer : string) (resp : Legacy.HTTPResponse) (w w1 w2 : W) :
  Legacy.apiKey s <> empty ->
  args !! "prompt" = Some (JString prompt) -> prompt <> empty ->
  Legacy.json_Marshal_request (Legacy.request_body prompt None) = Ok body ->
  Legacy.http_Post (Legacy.endpoint ++ Legacy.apiKey s) "application/json"
    body w = (Ok resp, w1) ->
  Legacy.io_ReadAll resp w1 = (Ok answer, w2) ->
  Legacy.StatusCode resp = 200%Z ->
  Legacy.json_Unmarshal_response answer
    = Ok {| Legacy.gresponse_Candidates := [] |} ->
  Legacy.generateImage s args w =
    Legacy.Out
      (Val (Ok {| call_Content := [text_content "No image was generated."];
                  call_IsError := false |}))
      w2
      [ Legacy.LPost (Legacy.endpoint ++ Legacy.apiKey s) "application/json" body;
        Legacy.LReadAll; Legacy.LClose ].
Proof.
  intros Hkey Hprompt Hne Hbody Hpost Hread Hstatus Hanswer.
  unfold Legacy.generateImage, assert_string.
  rewrite (eqb_empty_false _ Hkey), Hprompt. simpl.
  rewrite (eqb_empty_false _ Hne). simpl.
  unfold Legacy.callGemini. rewrite Hbody.
  unfold Legacy.bind, Legacy.call, Legacy.log, Legacy.ret.
  rewrite Hpost. simpl. rewrite Hread. simpl.
  rewrite Hstatus. simpl. by rewrite Hanswer.
Qed.

(** X25. The save step of the earlier variant never fails once the file
    is written: the error of filepath.Abs is dropped, and the path
    returned is then empty.  The directory is always generated_imgs. *)
Theorem legacy_saveImage_after_write (s : Legacy.Server)
    (data prefix ts : string) (imageBytes : bytes) (w w1 w2 w3 : W) :
  let dir := filepath_Join "." "generated_imgs" in
  let filePath := filepath_Join dir (prefix ++ "-" ++ ts ++ ".png") in
  os_MkdirAll dir perm_0755 w = (None, w1) ->
  time_Now_Format "2006-01-02T15-04-05" w1 = (ts, w2) ->
  base64_DecodeString data = Ok imageBytes ->
  os_WriteFile filePath imageBytes perm_0644 w2 = (None, w3) ->
  Legacy.saveImage s data prefix w =
    Legacy.Out
      (Val (Ok match (filepath_Abs filePath w3).1 with
               | Ok absPath => absPath
               | Err _ => empty
               end))
      (filepath_Abs filePath w3).2
      [ Legacy.LMkdirAll dir perm_0755; Legacy.LNow;
        Legacy.LWriteFile filePath imageBytes perm_0644;
        Legacy.LAbs filePath ].
Proof.
  intros dir filePath Hmk Hnow Hdec Hwr. subst dir filePath.
  unfold Legacy.saveImage, Legacy.bind, Legacy.call. rewrite Hmk. simpl.
  rewrite Hnow. simpl. rewrite Hdec. simpl. rewrite Hwr. simpl.
  by destruct (filepath_Abs _ w3) as [[absPath|err] w4].
Qed.

(** X26. The earlier edit_image reads the path it is given, as it is
    given: with a key and both arguments in place, its first event is the
    read of image_path itself, not cleaned and not checked for "..". *)
Theorem legacy_editImage_reads_raw_path (s : Legacy.Server)
    (args : gmap string any) (imagePath prompt : string) (w : W) :
  Legacy.apiKey s <> empty ->
  args !! "image_path" = Some (JString imagePath) -> imagePath <> empty ->
  args !! "prompt" = Some (JString prompt) -> prompt <> empty ->
  exists rest,
    Legacy.events (Legacy.editImage s args w)
      = Legacy.LReadFile imagePath :: rest.
Proof.
  intros Hkey Hpath Hpne Hprompt Hne.
  unfold Legacy.editImage, assert_string.
  rewrite (eqb_empty_false _ Hkey), Hpath. simpl.
  rewrite (eqb_empty_false _ Hpne), Hprompt. simpl.
  rewrite (eqb_empty_false _ Hne). simpl.
  unfold Legacy.bind at 1, Legacy.call at 1.
  destruct (os_ReadFile imagePath w) as [read w0]. simpl.
  match goal with |- context [match ?m with Legacy.Out _ _ _ => _ end] =>
    destruct m as [r w1 t1] end.
  by eexists.
Qed.

End LegacyOperations.

(** X23, witness: the endpoint answers 429 with a quota message. *)
Lemma legacy_status_error_witness :
  Legacy.generateImage (L := Fixture.lib) (J := LegacyFixture.json)
      (Sys := LegacyFixture.sys Fixture.sys) (N := LegacyFixture.net)
      LegacyFixture.server {[ "prompt" := JString "a red fox" ]}
      (Fixture.world0 [], [Ok (429%Z, Ok LegacyFixture.body_quota)]) =
    Legacy.Out
      (Val (Err (errorString
         ("API error (status " ++ "429" ++ "): " ++ LegacyFixture.body_quota))))
      (Fixture.world0 [], [])
      [ Legacy.LPost (Legacy.endpoint ++ "k3y") "application/json"
          LegacyFixture.body_generate;
        Legacy.LReadAll; Legacy.LClose ].
Proof.
  apply (legacy_status_error (L := Fixture.lib) (J := LegacyFixture.json)
           (Sys := LegacyFixture.sys Fixture.sys) (N := LegacyFixture.net)
           LegacyFixture.server {[ "prompt" := JString "a red fox" ]}
           "a red fox" LegacyFixture.body_generate LegacyFixture.body_quota
           {| Legacy.StatusCode := 429 |}
           (Fixture.world0 [], [Ok (429%Z, Ok LegacyFixture.body_quota)])
           (Fixture.world0 [], [Ok (429%Z, Ok LegacyFixture.body_quota)])
           (Fixture.world0 [], [])).
  - discriminate.
  - reflexivity.
  - discriminate.
  - reflexivity.
  - reflexivity.
  - reflexivity.
  - discriminate.
Defined.

(** X24, witness: the endpoint answers 200 with an empty candidate list. *)
Lemma legacy_no_candidates_witness :
  Legacy.generateImage (L := Fixture.lib) (J := LegacyFixture.json)
      (Sys := LegacyFixture.sys Fixture.sys) (N := LegacyFixture.net)
      LegacyFixture.server {[ "prompt" := JString "a red fox" ]}
      (Fixture.world0 [], [Ok (200%Z, Ok LegacyFixture.body_no_candidates)]) =
    Legacy.Out
      (Val (Ok {| call_Content := [text_content "No image was generated."];
                  call_IsError := false |}))
      (Fixture.world0 [], [])
      [ Legacy.LPost (Legacy.endpoint ++ "k3y") "application/json"
          LegacyFixture.body_generate;
        Legacy.LReadAll; Legacy.LClose ].
Proof.
  apply (legacy_no_candidates (L := Fixture.lib) (J := LegacyFixture.json)
           (Sys := LegacyFixture.sys Fixture.sys) (N := LegacyFixture.net)
           LegacyFixture.server {[ "prompt" := JString "a red fox" ]}
           "a red fox" LegacyFixture.body_generate
           LegacyFixture.body_no_candidates
           {| Legacy.StatusCode := 200 |}
           (Fixture.world0 [], [Ok (200%Z, Ok LegacyFixture.body_no_candidates)])
           (Fixture.world0 [], [Ok (200%Z, Ok LegacyFixture.body_no_candidates)])
           (Fixture.world0 [], [])).
  - discriminate.
  - reflexivity.
  - discriminate.
  - reflexivity.
  - reflexivity.
  - reflexivity.
  - reflexivity.
  - reflexivity.
Defined.

(** X25, witness: the path cannot be resolved, and the save step returns
    an empty path without an error. *)
Lemma legacy_saveImage_after_write_witness :
  Legacy.saveImage (L := Fixture.lib)
      (Sys := LegacyFixture.sys
                (Faults.sys None None
                   (Some (errorString "getwd: no such file or directory"))))
      LegacyFixture.server "UE5H" "generated" (Fixture.world0 [], []) =
    Legacy.Out (Val (Ok empty))
      ({| Fixture.files :=
            <[ "generated_imgs/generated-2026-01-02T03-04-05.png" := Fixture.png ]>
            {[ "in/cat.png" := Fixture.png ]};
          Fixture.replies := [];
          Fixture.clock := "2026-01-02T03-04-05";
          Fixture.cwd := "/srv" |}, [])
      [ Legacy.LMkdirAll "generated_imgs" perm_0755; Legacy.LNow;
        Legacy.LWriteFile "generated_imgs/generated-2026-01-02T03-04-05.png"
          Fixture.png perm_0644;
        Legacy.LAbs "generated_imgs/generated-2026-01-02T03-04-05.png" ].
Proof.
  apply (legacy_saveImage_after_write (L := Fixture.lib)
           (Sys := LegacyFixture.sys
                     (Faults.sys None None
                        (Some (errorString "getwd: no such file or directory"))))
           LegacyFixture.server "UE5H" "generated" "2026-01-02T03-04-05"
           Fixture.png (Fixture.world0 [], []) (Fixture.world0 [], [])
           (Fixture.world0 [], [])
           ({| Fixture.files :=
                 <[ "generated_imgs/generated-2026-01-02T03-04-05.png" := Fixture.png ]>
                 {[ "in/cat.png" := Fixture.png ]};
               Fixture.replies := [];
               Fixture.clock := "2026-01-02T03-04-05";
               Fixture.cwd := "/srv" |}, [])).
  - reflexivity.
  - reflexivity.
  - reflexivity.
  - reflexivity.
Defined.

(** X26, witness: a path that climbs out of the working directory. *)
Lemma legacy_editImage_reads_raw_path_witness :
  exists rest,
    Legacy.events
      (Legacy.editImage (L := Fixture.lib) (J := LegacyFixture.json)
         (Sys := LegacyFixture.sys Fixture.sys) (N := LegacyFixture.net)
         LegacyFixture.server
         (<[ "image_path" := JString "../../secret.txt" ]>
          {[ "prompt" := JString "test prompt" ]})
         (Fixture.world0 [], []))
      = Legacy.LReadFile "../../secret.txt" :: rest.
Proof.
  apply (legacy_editImage_reads_raw_path (L := Fixture.lib)
           (J := LegacyFixture.json) (Sys := LegacyFixture.sys Fixture.sys)
           (N := LegacyFixture.net) LegacyFixture.server
           (<[ "image_path" := JString "../../secret.txt" ]>
            {[ "prompt" := JString "test prompt" ]})
           "../../secret.txt" "test prompt" (Fixture.world0 [], [])).
  - discriminate.
  - reflexivity.
  - discriminate.
  - reflexivity.
  - discriminate.
Defined.

(** ** The unit tests of the repository, replayed

    Each example runs the embedding on the input of the test of the same
    name in [main_test.go] and states what the test requires. *)
Module Tests.

Import Fixture.

Example TestHandleInitialize :
  res (handle (request (JNumber "1") "initialize" empty) (world0 [])) =
    Val (Some
      {| resp_JSONRPC := "2.0";
         resp_ID := JNumber "1";
         resp_Result := Some (ResInitialize
           {| init_ProtocolVersion := protocolVersion;
              init_Capabilities := {| cap_Tools := Some mkToolsCapability |};
              init_ServerInfo :=
                {| info_Name := serverName; info_Version := serverVersion |} |});
         resp_Error := None |}).
Proof. reflexivity. Qed.

Example TestHandleListTools :
  exists resp advertised,
    res (handle (request (JNumber "2") "tools/list" empty) (world0 []))
      = Val (Some resp) /\
    resp_Error resp = None /\
    resp_Result resp = Some (ResListTools advertised) /\
    List.length (list_Tools advertised) = 2 /\
    "generate_image" ∈ tool_Name <$> list_Tools advertised /\
    "edit_image" ∈ tool_Name <$> list_Tools advertised.
Proof.
  do 2 eexists. repeat split; try reflexivity; simpl; set_solver.
Qed.

Example TestHandleCallToolUnknown :
  exists resp e,
    res (handle (request (JNumber "3") "tools/call" params_unknown) (world0 []))
      = Val (Some resp) /\
    resp_Error resp = Some e /\
    err_Code e = (-32601)%Z /\
    strings_Contains (err_Message e) "Unknown tool" = true.
Proof. do 2 eexists. repeat split; reflexivity. Qed.

Example TestHandleUnknownMethod :
  exists resp e,
    res (handle (request (JNumber "4") "unknown/method" empty) (world0 []))
      = Val (Some resp) /\
    resp_Error resp = Some e /\
    err_Code e = (-32601)%Z /\
    err_Message e = "Method not found".
Proof. do 2 eexists. repeat split; reflexivity. Qed.

Example TestHandleNotification :
  res (handle (request JNull "notifications/initialized" empty) (world0 []))
    = Val None.
Proof. reflexivity. Qed.

(** The nil map and the empty map of the test are both [∅]. *)
Example TestGenerateImageMissingPrompt :
  Forall
    (fun args =>
       strings_Contains (message (generate args (world0 [])))
         "prompt is required" = true)
    [ ∅; ∅; {[ "prompt" := JString empty ]}; {[ "prompt" := JNumber "123" ]} ].
Proof. repeat constructor. Qed.

Example TestEditImageMissingParams :
  Forall
    (fun '(args, expectedErr) =>
       strings_Contains (message (edit args (world0 []))) expectedErr = true)
    [ ({[ "prompt" := JString "test" ]}, "image_path is required");
      (<[ "image_path" := JString empty ]> {[ "prompt" := JString "test" ]},
       "image_path is required");
      ({[ "image_path" := JString "/path/to/image.png" ]}, "prompt is required");
      (<[ "image_path" := JString "/path/to/image.png" ]>
       {[ "prompt" := JString empty ]},
       "prompt is required") ].
Proof. repeat constructor. Qed.

Example TestEditImagePathTraversal :
  Forall
    (fun path =>
       strings_Contains
         (message (edit (<[ "image_path" := JString path ]>
                         {[ "prompt" := JString "test prompt" ]}) (world0 [])))
         "directory traversal not allowed" = true)
    [ "../etc/passwd"; "../../secret.txt"; "foo/../../../bar" ].
Proof. repeat constructor. Qed.

Example TestEditImageFileNotFound :
  strings_Contains
    (message (edit (<[ "image_path" := JString "/nonexistent/image.png" ]>
                    {[ "prompt" := JString "test prompt" ]}) (world0 [])))
    "failed to read image" = true.
Proof. reflexivity. Qed.

Example TestGetMimeType :
  getMimeType (L := lib) <$>
    [ "image.png"; "image.PNG"; "photo.jpg"; "photo.jpeg"; "photo.JPEG";
      "anim.gif"; "modern.webp"; "unknown.bmp"; "noext" ] =
    [ "image/png"; "image/png"; "image/jpeg"; "image/jpeg"; "image/jpeg";
      "image/gif"; "image/webp"; "image/png"; "image/png" ].
Proof. reflexivity. Qed.

Example TestSaveImage :
  exists path data,
    res (save server pngBase64 "test" (world0 [])) = Val (Ok path) /\
    path <> empty /\
    strings_Contains path "test-" = true /\
    strings_Contains path ".png" = true /\
    files (final (save server pngBase64 "test" (world0 [])))
      !! "generated/test-2026-01-02T03-04-05.png" = Some data /\
    0 < List.length data.
Proof.
  do 2 eexists. repeat split; try reflexivity; [discriminate|].
  simpl. lia.
Qed.

Example TestSaveImageInvalidBase64 :
  exists e,
    res (save server "not-valid-base64!!!" "test" (world0 [])) = Val (Err e).
Proof. by eexists. Qed.

Example TestHandleCallToolInvalidParams :
  exists resp e,
    res (handle (request (JNumber "5") "tools/call" (dq "{'invalid json"))
           (world0 []))
      = Val (Some resp) /\
    resp_Error resp = Some e /\
    err_Code e = (-32602)%Z.
Proof. do 2 eexists. repeat split; reflexivity. Qed.

Example TestOutputDirCreation :
  events (save server pngBase64 "test" (world0 [])) !! 0
    = Some (EvMkdirAll defaultOutputDir perm_0755).
Proof. reflexivity. Qed.

Example TestCustomOutputDir :
  exists path,
    res (save {| outputDir := "my-custom-images" |} pngBase64 "test" (world0 []))
      = Val (Ok path) /\
    strings_Contains path "my-custom-images" = true /\
    events (save {| outputDir := "my-custom-images" |} pngBase64 "test"
              (world0 [])) !! 0
      = Some (EvMkdirAll "my-custom-images" perm_0755).
Proof. eexists. repeat split; reflexivity. Qed.

End Tests.
